(** * Standup and mise tool servers: a shallow embedding and its properties

    The development follows the Python sources:
    - [utils.py]       the date expression resolver ([DateParser]);
    - [github.py]      the two activity adapters (HTTP-backed and CLI-backed);
    - [formatting.py]  the report formatter ([StandupFormatter]);
    - [server.py]      the two tool-call dispatchers and the handlers of
                       the standup server;
    - [handlers.py], [tools.py], [commands.py]  the handlers, the tool
                       list and the command runners of the mise server.

    Python strings are modelled by [string]; a character is a code point
    below 256.  Python dictionaries are association lists kept in insertion
    order with unique keys, JSON-like data is the inductive type [value]. *)

From Stdlib Require Import String Ascii List ZArith Lia Bool Arith.
From Stdlib Require Import Permutation Sorted.
Import ListNotations.

Open Scope string_scope.

(** ** Python string primitives *)

Module PyStr.

Definition code (c : ascii) : nat := nat_of_ascii c.

(** [str.lower] on code points below 256: the ASCII capitals and the
    Latin-1 capitals (U+00C0..U+00DE but the multiplication sign). *)
Definition is_upper (c : ascii) : bool :=
  let n := code c in
  ((65 <=? n) && (n <=? 90))%nat
  || ((192 <=? n) && (n <=? 222) && negb (n =? 215))%nat.

Definition lower_char (c : ascii) : ascii :=
  if is_upper c then ascii_of_nat (code c + 32) else c.

Definition is_ascii_lower (c : ascii) : bool :=
  let n := code c in ((97 <=? n) && (n <=? 122))%nat.

Definition is_ascii_upper (c : ascii) : bool :=
  let n := code c in ((65 <=? n) && (n <=? 90))%nat.

Definition upper_char (c : ascii) : ascii :=
  if is_ascii_lower c then ascii_of_nat (code c - 32) else c.

Fixpoint smap (f : ascii -> ascii) (s : string) : string :=
  match s with
  | EmptyString => EmptyString
  | String c s' => String (f c) (smap f s')
  end.

Definition lower (s : string) : string := smap lower_char s.

(** [str.isspace] on code points below 256. *)
Definition is_space (c : ascii) : bool :=
  let n := code c in
  ((9 <=? n) && (n <=? 13))%nat || ((28 <=? n) && (n <=? 32))%nat
  || (n =? 133)%nat || (n =? 160)%nat.

Fixpoint lstrip (s : string) : string :=
  match s with
  | EmptyString => EmptyString
  | String c s' => if is_space c then lstrip s' else s
  end.

(** [rstrip] keeps a character when it is not a space or when something
    is kept after it. *)
Fixpoint rstrip (s : string) : string :=
  match s with
  | EmptyString => EmptyString
  | String c s' =>
      match rstrip s' with
      | EmptyString => if is_space c then EmptyString else String c EmptyString
      | r => String c r
      end
  end.

Definition strip (s : string) : string := rstrip (lstrip s).

Fixpoint startswith (p s : string) : bool :=
  match p, s with
  | EmptyString, _ => true
  | String a p', String b s' => Ascii.eqb a b && startswith p' s'
  | String _ _, EmptyString => false
  end.

(** [s[n:]] *)
Fixpoint drop (n : nat) (s : string) : string :=
  match n, s with
  | O, _ => s
  | S n', String _ s' => drop n' s'
  | S _, EmptyString => EmptyString
  end.

(** [s[:n]] *)
Fixpoint take (n : nat) (s : string) : string :=
  match n, s with
  | O, _ => EmptyString
  | S n', String c s' => String c (take n' s')
  | S _, EmptyString => EmptyString
  end.

(** [sub in s] *)
Fixpoint contains (sub s : string) : bool :=
  startswith sub s
  || match s with
     | EmptyString => false
     | String _ s' => contains sub s'
     end.

(** [s.replace(old, new)] for a non-empty [old]: occurrences are taken
    from the left and do not overlap.  [skip] counts the characters of a
    match that remain to be dropped. *)
Fixpoint replace_from (old new s : string) (skip : nat) : string :=
  match s with
  | EmptyString => EmptyString
  | String c s' =>
      match skip with
      | S k => replace_from old new s' k
      | O =>
          if startswith old s
          then new ++ replace_from old new s' (String.length old - 1)
          else String c (replace_from old new s' 0)
      end
  end.

Definition replace (old new s : string) : string := replace_from old new s 0.

(** The line feed, as a string. *)
Definition newline : string := String (ascii_of_nat 10) "".

(** ["sep".join(parts)] *)
Fixpoint join (sep : string) (parts : list string) : string :=
  match parts with
  | [] => EmptyString
  | [p] => p
  | p :: rest => p ++ sep ++ join sep rest
  end.

(** [c * n] *)
Fixpoint repeat_char (c : ascii) (n : nat) : string :=
  match n with
  | O => EmptyString
  | S n' => String c (repeat_char c n')
  end.

(** Decimal digits of a natural number, most significant first. *)
Definition digit_char (n : nat) : ascii := ascii_of_nat (48 + n).

Fixpoint digits_fuel (fuel n : nat) (acc : string) : string :=
  match fuel with
  | O => acc
  | S f =>
      let acc' := String (digit_char (n mod 10)) acc in
      if (n <? 10)%nat then acc' else digits_fuel f (n / 10) acc'
  end.

Definition str_of_nat (n : nat) : string := digits_fuel (S n) n EmptyString.

(** [str(z)] for an integer. *)
Definition str_of_Z (z : Z) : string :=
  match z with
  | Z0 => "0"
  | Zpos p => str_of_nat (Pos.to_nat p)
  | Zneg p => String "-" (str_of_nat (Pos.to_nat p))
  end.

(** [str.title] on ASCII letters: the first letter of every run of
    letters is upper-cased, the others are lower-cased. *)
Fixpoint title_from (s : string) (in_word : bool) : string :=
  match s with
  | EmptyString => EmptyString
  | String c s' =>
      if is_ascii_lower c || is_ascii_upper c
      then String (if in_word then lower_char c else upper_char c)
                  (title_from s' true)
      else String c (title_from s' false)
  end.

Definition title (s : string) : string := title_from s false.

(** A lower-case hexadecimal digit. *)
Definition hex_digit (n : nat) : ascii :=
  if (n <? 10)%nat then ascii_of_nat (48 + n) else ascii_of_nat (87 + n).

End PyStr.

Import PyStr.

(** ** utils.py: [DateParser] *)

Module Utils.

Open Scope Z_scope.

(** A naive [datetime].  The calendar day is kept as its proleptic
    Gregorian ordinal ([datetime.toordinal()]: 1 is 0001-01-01); the
    year, month and day are recovered by [ord2ymd]. *)
Record datetime := mkDatetime {
  ordinal : Z;
  hour : Z;
  minute : Z;
  second : Z;
  microsecond : Z
}.

Definition MAXORDINAL : Z := 3652059.

(** [d.replace(hour=0, minute=0, second=0, microsecond=0)] *)
Definition midnight (d : datetime) : datetime :=
  mkDatetime (ordinal d) 0 0 0 0.

(** [d.weekday()]: Monday is 0 and Sunday is 6. *)
Definition weekday (d : datetime) : Z := (ordinal d + 6) mod 7.

(** [d + timedelta(days=k)]; [None] is Python's [OverflowError], raised
    when the result leaves the years 1..9999. *)
Definition add_days (d : datetime) (k : Z) : option datetime :=
  let o := ordinal d + k in
  if (1 <=? o) && (o <=? MAXORDINAL)
  then Some (mkDatetime o (hour d) (minute d) (second d) (microsecond d))
  else None.

Definition sub_days (d : datetime) (k : Z) : option datetime := add_days d (- k).

(** The calendar, as in CPython's [datetime._ord2ymd]. *)
Definition DAYS_IN_MONTH (m : Z) (leap : bool) : Z :=
  match m with
  | 1 => 31 | 2 => if leap then 29 else 28 | 3 => 31 | 4 => 30
  | 5 => 31 | 6 => 30 | 7 => 31 | 8 => 31 | 9 => 30 | 10 => 31
  | 11 => 30 | 12 => 31 | _ => 0
  end.

Definition DAYS_BEFORE_MONTH (m : Z) : Z :=
  match m with
  | 1 => 0 | 2 => 31 | 3 => 59 | 4 => 90 | 5 => 120 | 6 => 151
  | 7 => 181 | 8 => 212 | 9 => 243 | 10 => 273 | 11 => 304 | 12 => 334
  | _ => 0
  end.

Definition ord2ymd (n0 : Z) : Z * Z * Z :=
  let n := n0 - 1 in
  let n400 := n / 146097 in
  let n := n mod 146097 in
  let year := n400 * 400 + 1 in
  let n100 := n / 36524 in
  let n := n mod 36524 in
  let n4 := n / 1461 in
  let n := n mod 1461 in
  let n1 := n / 365 in
  let n := n mod 365 in
  let year := year + n100 * 100 + n4 * 4 + n1 in
  if (n1 =? 4) || (n100 =? 4) then (year - 1, 12, 31)
  else
    let leapyear := (n1 =? 3) && (negb (n4 =? 24) || (n100 =? 3)) in
    let month := Z.shiftr (n + 50) 5 in
    let preceding :=
      DAYS_BEFORE_MONTH month + (if (2 <? month) && leapyear then 1 else 0) in
    if n <? preceding
    then
      let month := month - 1 in
      let preceding := preceding - DAYS_IN_MONTH month leapyear in
      (year, month, n - preceding + 1)
    else (year, month, n - preceding + 1).

Definition year (d : datetime) : Z := fst (fst (ord2ymd (ordinal d))).
Definition month (d : datetime) : Z := snd (fst (ord2ymd (ordinal d))).
Definition day (d : datetime) : Z := snd (ord2ymd (ordinal d)).

(** Zero-padded decimal of width [w], as [%02d] and [%04d]. *)
Definition pad (w : nat) (z : Z) : string :=
  let s := str_of_Z z in
  repeat_char "0" (w - String.length s) ++ s.

Definition month_name (m : Z) : string :=
  match m with
  | 1 => "January" | 2 => "February" | 3 => "March" | 4 => "April"
  | 5 => "May" | 6 => "June" | 7 => "July" | 8 => "August"
  | 9 => "September" | 10 => "October" | 11 => "November"
  | 12 => "December" | _ => ""
  end.

(** [d.strftime('%Y-%m-%d')], the year written with four digits. *)
Definition strftime_Ymd (d : datetime) : string :=
  pad 4 (year d) ++ "-" ++ pad 2 (month d) ++ "-" ++ pad 2 (day d).

(** [d.strftime('%B %d, %Y')], with the month names of the C locale. *)
Definition strftime_BdY (d : datetime) : string :=
  month_name (month d) ++ " " ++ pad 2 (day d) ++ ", " ++ pad 4 (year d).

(** [d.isoformat()] of a naive datetime. *)
Definition isoformat (d : datetime) : string :=
  strftime_Ymd d ++ "T" ++ pad 2 (hour d) ++ ":" ++ pad 2 (minute d) ++ ":"
  ++ pad 2 (second d)
  ++ (if microsecond d =? 0 then "" else "." ++ pad 6 (microsecond d)).

Definition weekday_map (name : string) : option Z :=
  if String.eqb name "monday" || String.eqb name "mon" then Some 0
  else if String.eqb name "tuesday" || String.eqb name "tue" then Some 1
  else if String.eqb name "wednesday" || String.eqb name "wed" then Some 2
  else if String.eqb name "thursday" || String.eqb name "thu" then Some 3
  else if String.eqb name "friday" || String.eqb name "fri" then Some 4
  else if String.eqb name "saturday" || String.eqb name "sat" then Some 5
  else if String.eqb name "sunday" || String.eqb name "sun" then Some 6
  else None.

Section DateParser.

(** [datetime.now()], the frozen current instant. *)
Variable now : datetime.

(** [dateutil.parser.parse]; [None] stands for its [ValueError] or
    [TypeError], the two exceptions [parse_date] catches. *)
Variable dateutil_parse : string -> option datetime.

Definition _get_last_workday : option datetime :=
  let today := midnight now in
  let dow := weekday today in
  let days_back := if dow =? 0 then 3 else 1 in
  sub_days today days_back.

Definition _get_last_weekday (target_weekday : Z) : option datetime :=
  let today := midnight now in
  let current_weekday := weekday today in
  let days_back :=
    if target_weekday <=? current_weekday
    then current_weekday - target_weekday
    else 7 - (target_weekday - current_weekday) in
  let days_back := if days_back =? 0 then 7 else days_back in
  sub_days today days_back.

Definition parse_date (date_expression : string) : option datetime :=
  if String.eqb date_expression "" then _get_last_workday
  else
    let date_expression := strip (lower date_expression) in
    if String.eqb date_expression "yesterday" then sub_days (midnight now) 1
    else if String.eqb date_expression "today" then Some (midnight now)
    else
      match
        (if startswith "last " date_expression
         then weekday_map (drop 5 date_expression) else None)
      with
      | Some w => _get_last_weekday w
      | None =>
          match weekday_map date_expression with
          | Some w => _get_last_weekday w
          | None =>
              match dateutil_parse date_expression with
              | Some d => Some (midnight d)
              | None => _get_last_workday
              end
          end
      end.

End DateParser.

(** [get_utc_date_range]: the start of the day and 07:59:59 of the next
    day, both labelled as UTC. *)
Definition get_utc_date_range (target_date : datetime)
  : option (string * string) :=
  match add_days target_date 1 with
  | Some next_day =>
      Some (strftime_Ymd target_date ++ "T00:00:00Z",
            strftime_Ymd next_day ++ "T07:59:59Z")
  | None => None
  end.

End Utils.

Import Utils.

(** ** Python values, dictionaries and exceptions *)

Module Py.

Open Scope Z_scope.

(** JSON-like Python data: [None], [bool], [int], [str], [list] and
    [dict] with string keys. *)
#[warnings="-register-all"]
Inductive value : Type :=
| VNone
| VBool (b : bool)
| VInt (z : Z)
| VStr (s : string)
| VList (l : list value)
| VDict (d : list (string * value)).

Definition dict : Type := list (string * value).

(** [d.get(k)] *)
Fixpoint dict_get (d : dict) (k : string) : option value :=
  match d with
  | [] => None
  | (k', v) :: d' => if String.eqb k' k then Some v else dict_get d' k
  end.

(** [d.get(k, default)] *)
Definition dict_get_default (d : dict) (k : string) (default : value) : value :=
  match dict_get d k with
  | Some v => v
  | None => default
  end.

(** [k in d] *)
Definition dict_mem (d : dict) (k : string) : bool :=
  match dict_get d k with
  | Some _ => true
  | None => false
  end.

(** [d[k] = v]: an existing key keeps its place, a new key goes last. *)
Fixpoint dict_set (d : dict) (k : string) (v : value) : dict :=
  match d with
  | [] => [(k, v)]
  | (k', v') :: d' =>
      if String.eqb k' k then (k', v) :: d' else (k', v') :: dict_set d' k v
  end.

(** [d.update(other)] *)
Definition dict_update (d other : dict) : dict :=
  fold_left (fun acc kv => dict_set acc (fst kv) (snd kv)) other d.

Definition keys (d : dict) : list string := map fst d.

(** Truth value of an object, as tested by [if x] and [not x]. *)
Definition truthy (v : value) : bool :=
  match v with
  | VNone => false
  | VBool b => b
  | VInt z => negb (z =? 0)
  | VStr s => negb (String.eqb s "")
  | VList l => match l with [] => false | _ => true end
  | VDict d => match d with [] => false | _ => true end
  end.

(** The exceptions the formatter can raise on a dictionary that lacks a
    key or holds an object of another type. *)
Inductive exn : Type :=
| KeyError (k : string)
| TypeError
| ValueError (msg : string)
| OverflowError
| JSONDecodeError
(** Not a Python exception: a loop of the model used up its fuel. *)
| OutOfFuel.

Inductive result (A : Type) : Type :=
| Ok (a : A)
| Raise (e : exn).

Arguments Ok {A} a.
Arguments Raise {A} e.

Definition bind {A B : Type} (m : result A) (f : A -> result B) : result B :=
  match m with
  | Ok a => f a
  | Raise e => Raise e
  end.

Notation "x <- m ;; k" := (bind m (fun x => k))
  (at level 61, m at next level, right associativity).

(** [for x in xs: acc = f(acc, x)] with exceptions. *)
Fixpoint foldM {A B : Type} (f : B -> A -> result B) (xs : list A) (acc : B)
  : result B :=
  match xs with
  | [] => Ok acc
  | x :: xs' => acc' <- f acc x ;; foldM f xs' acc'
  end.

(** [repr(s)] of a string.  The quote is the single quote, unless the
    string holds a single quote and no double quote; the quote and the
    backslash are escaped, and so are the characters that are not
    printable: the control characters, the no-break space and the soft
    hyphen. *)
Definition repr_quote (s : string) : ascii :=
  if contains "'" s && negb (contains (String "034" "") s)
  then "034"%char else "'"%char.

Definition repr_char (q c : ascii) : string :=
  let n := code c in
  if Ascii.eqb c q || (n =? 92)%nat then String "\" (String c "")
  else if (n =? 9)%nat then "\t"
  else if (n =? 10)%nat then "\n"
  else if (n =? 13)%nat then "\r"
  else if (n <? 32)%nat || (n =? 127)%nat
          || ((128 <=? n)%nat && (n <=? 160)%nat) || (n =? 173)%nat
  then String "\" (String "x"
         (String (hex_digit (n / 16)) (String (hex_digit (n mod 16)) "")))
  else String c "".

Fixpoint repr_chars (q : ascii) (s : string) : string :=
  match s with
  | EmptyString => EmptyString
  | String c s' => repr_char q c ++ repr_chars q s'
  end.

Definition repr_str (s : string) : string :=
  let q := repr_quote s in
  String q (repr_chars q s ++ String q "").

(** [repr(v)] *)
Fixpoint py_repr (v : value) : string :=
  match v with
  | VNone => "None"
  | VBool true => "True"
  | VBool false => "False"
  | VInt z => str_of_Z z
  | VStr s => repr_str s
  | VList items =>
      "[" ++ (fix items_repr (l : list value) : string :=
                match l with
                | [] => ""
                | [x] => py_repr x
                | x :: rest => py_repr x ++ ", " ++ items_repr rest
                end) items
      ++ "]"
  | VDict members =>
      "{" ++ (fix members_repr (l : list (string * value)) : string :=
                match l with
                | [] => ""
                | [(k, x)] => repr_str k ++ ": " ++ py_repr x
                | (k, x) :: rest =>
                    repr_str k ++ ": " ++ py_repr x ++ ", "
                    ++ members_repr rest
                end) members
      ++ "}"
  end.

(** [str(v)], as an f-string renders [v]: a string is itself, any other
    object its [repr].  For the objects of the model it never raises; it
    stays in the exception monad with the formatter that calls it. *)
Definition py_str (v : value) : result string :=
  match v with
  | VStr s => Ok s
  | _ => Ok (py_repr v)
  end.

Example py_str_list :
  py_str (VList [VStr "it's"; VInt 7; VNone;
                 VDict [("k", VStr (String "009" "x"))]])
  = Ok (String "[" (String "034" ("it's" ++ String "034"
          (", 7, None, {'k': '" ++ String "092" "tx'}]")))).
Proof. reflexivity. Qed.

(** [d[k]] *)
Definition dict_item (d : dict) (k : string) : result value :=
  match dict_get d k with
  | Some v => Ok v
  | None => Raise (KeyError k)
  end.

(** [v[k]] for a string key: only a dictionary can be indexed that way. *)
Definition subscript (v : value) (k : string) : result value :=
  match v with
  | VDict d => dict_item d k
  | _ => Raise TypeError
  end.

(** [list(v)], the items a [for] loop or [extend] sees. *)
Definition iterate (v : value) : result (list value) :=
  match v with
  | VList l => Ok l
  | VStr s => Ok (map (fun c => VStr (String c "")) (list_ascii_of_string s))
  | VDict d => Ok (map (fun kv => VStr (fst kv)) d)
  | _ => Raise TypeError
  end.

(** [len(v)] *)
Definition py_len (v : value) : result Z :=
  match v with
  | VList l => Ok (Z.of_nat (List.length l))
  | VStr s => Ok (Z.of_nat (String.length s))
  | VDict d => Ok (Z.of_nat (List.length d))
  | _ => Raise TypeError
  end.

(** [v[0]] for a truthy [v]. *)
Definition first_item (v : value) : result value :=
  match v with
  | VList (x :: _) => Ok x
  | VStr (String c _) => Ok (VStr (String c ""))
  | VDict _ => Raise (KeyError "0")
  | _ => Raise TypeError
  end.

Definition value_is_str (v : value) (s : string) : bool :=
  match v with
  | VStr s' => String.eqb s' s
  | _ => false
  end.

End Py.

Import Py.

(** ** github.py: events, the classifier and the summary

    Both adapters ([standup_server/github.py] over HTTP and
    [mcp_server_standup/github.py] over the [gh] CLI) define the same
    [GitHubEvent], [GitHubActivity], [_matches_username], [_process_*] and
    [_generate_summary]; they are modelled once. *)

Module GitHub.

Open Scope Z_scope.

(** The payload of a raw activity record, restricted to the keys the
    classifier reads.  A key is absent ([None]) or holds an object of the
    type the event API documents for it. *)
Record raw_commit := mkCommit {
  commit_message : option string;
  commit_sha : option string
}.

Record raw_pull_request := mkPull {
  pull_number : option Z;
  pull_title : option string
}.

Record raw_issue := mkIssue {
  issue_number : option Z;
  (** ["pull_request" in issue] *)
  issue_pull_request : bool
}.

Record raw_review := mkReview {
  review_state : option string
}.

Record raw_payload := mkPayload {
  ref : option string;
  size : option Z;
  commits : option (list raw_commit);
  pull_request : option raw_pull_request;
  action : option string;
  issue : option raw_issue;
  review : option raw_review;
  ref_type : option string
}.

Definition empty_payload : raw_payload :=
  mkPayload None None None None None None None None.

Record GitHubEvent := mkEvent {
  event_type : string;
  created_at : string;
  repo : string;
  actor : string;
  payload : raw_payload;
  processed_info : dict
}.

Record GitHubActivity := mkActivity {
  target_date : datetime;
  username : option string;
  repos : option (list string);
  events : list GitHubEvent;
  summary : dict
}.

(** [opt.get(key, default)] on an optional field. *)
Definition get {A : Type} (field : option A) (default : A) : A :=
  match field with
  | Some a => a
  | None => default
  end.

(** An integer field read with the default [""]. *)
Definition number_or_empty (n : option Z) : value :=
  match n with
  | Some z => VInt z
  | None => VStr ""
  end.

Definition number_str (n : option Z) : string :=
  match n with
  | Some z => str_of_Z z
  | None => ""
  end.

(** [self._seen_commits]: the set of commit keys of the current fetch. *)
Definition seen_set : Type := list string.

Definition seen_mem (k : string) (seen : seen_set) : bool :=
  existsb (String.eqb k) seen.

Definition seen_add (k : string) (seen : seen_set) : seen_set :=
  if seen_mem k seen then seen else k :: seen.

Definition _matches_username (actor_login username : string) : bool :=
  String.eqb (lower actor_login) (lower username).

(** [message.lower().replace(" ", "_")] *)
Definition commit_key (message : string) : string :=
  replace " " "_" (lower message).

Definition commit_entry (repo message sha : string) : value :=
  VDict [("message", VStr message);
         ("sha", VStr (take 7 sha));
         ("full_sha", VStr sha);
         ("link", VStr ("https://github.com/" ++ repo ++ "/commit/" ++ sha))].

(** The loop over [payload["commits"]] of [_process_push_event]. *)
Fixpoint unique_commits (repo : string) (cs : list raw_commit)
  (seen : seen_set) : list value * seen_set :=
  match cs with
  | [] => ([], seen)
  | commit :: rest =>
      let message := strip (get (commit_message commit) "") in
      let sha := get (commit_sha commit) "" in
      if String.eqb message "" || String.eqb sha ""
      then unique_commits repo rest seen
      else
        let commit_key := commit_key message in
        if negb (seen_mem commit_key seen)
        then
          let '(unique, seen') :=
            unique_commits repo rest (seen_add commit_key seen) in
          (commit_entry repo message sha :: unique, seen')
        else unique_commits repo rest seen
  end.

Definition _process_push_event (event : GitHubEvent) (seen : seen_set)
  : dict * seen_set :=
  let payload := payload event in
  let ref := get (ref payload) "" in
  let branch_name := replace "refs/heads/" "" ref in
  let size := get (size payload) 0 in
  let processed :=
    [("branch", VStr branch_name);
     ("commit_count", VInt size);
     ("links",
      VList [VStr ("https://github.com/" ++ repo event ++ "/tree/"
                   ++ branch_name)]);
     ("details",
      VList [VStr ("Pushed " ++ str_of_Z size ++ " commits to "
                   ++ branch_name)])] in
  let commits := get (commits payload) [] in
  let '(unique, seen') := unique_commits (repo event) commits seen in
  (dict_set processed "commits" (VList unique), seen').

Definition _process_pr_event (event : GitHubEvent) : dict :=
  let payload := payload event in
  let pr := get (pull_request payload) (mkPull None None) in
  let action := get (action payload) "" in
  let number := pull_number pr in
  let title := get (pull_title pr) "" in
  [("pr_number", number_or_empty number);
   ("action", VStr action);
   ("title", VStr title);
   ("links",
    VList [VStr ("https://github.com/" ++ repo event ++ "/pull/"
                 ++ number_str number)]);
   ("details",
    VList [VStr ("PR #" ++ number_str number ++ ": " ++ action ++ " - "
                 ++ title)])].

Definition _process_comment_event (event : GitHubEvent) : dict :=
  let payload := payload event in
  let issue := get (issue payload) (mkIssue None false) in
  let number := issue_number issue in
  let is_pr := issue_pull_request issue in
  let link_type := if is_pr then "pull" else "issues" in
  [("issue_number", number_or_empty number);
   ("is_pull_request", VBool is_pr);
   ("links",
    VList [VStr ("https://github.com/" ++ repo event ++ "/" ++ link_type
                 ++ "/" ++ number_str number)]);
   ("details",
    VList [VStr ("Commented on " ++ (if is_pr then "PR" else "issue")
                 ++ " #" ++ number_str number)])].

Definition _process_review_event (event : GitHubEvent) : dict :=
  let payload := payload event in
  let pr := get (pull_request payload) (mkPull None None) in
  let review := get (review payload) (mkReview None) in
  let number := pull_number pr in
  let state := get (review_state review) "" in
  [("pr_number", number_or_empty number);
   ("review_state", VStr state);
   ("links",
    VList [VStr ("https://github.com/" ++ repo event ++ "/pull/"
                 ++ number_str number)]);
   ("details",
    VList [VStr ("Reviewed PR #" ++ number_str number ++ ": " ++ state)])].

Definition _process_ref_event (event : GitHubEvent) : dict :=
  let payload := payload event in
  let ref_type := get (ref_type payload) "" in
  let ref := get (ref payload) "" in
  let action :=
    if String.eqb (event_type event) "CreateEvent"
    then "Created" else "Deleted" in
  [("ref_type", VStr ref_type);
   ("ref", VStr ref);
   ("action", VStr (lower action));
   ("details", VList [VStr (action ++ " " ++ ref_type ++ " '" ++ ref ++ "'")])].

Definition _process_event (event : GitHubEvent) (seen : seen_set)
  : dict * seen_set :=
  let processed :=
    [("links", VList []); ("details", VList []); ("commits", VList [])] in
  if String.eqb (event_type event) "PushEvent" then
    let '(info, seen') := _process_push_event event seen in
    (dict_update processed info, seen')
  else if String.eqb (event_type event) "PullRequestEvent" then
    (dict_update processed (_process_pr_event event), seen)
  else if String.eqb (event_type event) "IssueCommentEvent" then
    (dict_update processed (_process_comment_event event), seen)
  else if String.eqb (event_type event) "PullRequestReviewEvent" then
    (dict_update processed (_process_review_event event), seen)
  else if String.eqb (event_type event) "CreateEvent"
          || String.eqb (event_type event) "DeleteEvent" then
    (dict_update processed (_process_ref_event event), seen)
  else (processed, seen).

(** [_generate_summary].  The repositories are collected in a Python
    [set]; the model lists them in the order of their first event, one of
    the enumerations [list(set)] may produce. *)
Fixpoint summary_loop (events : list GitHubEvent) (event_types : dict)
  (repositories : list string) (commit_count pr_count : Z)
  : result (dict * list string * Z * Z) :=
  match events with
  | [] => Ok (event_types, repositories, commit_count, pr_count)
  | event :: rest =>
      let event_type := event_type event in
      count <- match dict_get_default event_types event_type (VInt 0) with
               | VInt n => Ok n
               | _ => Raise TypeError
               end ;;
      let event_types := dict_set event_types event_type (VInt (count + 1)) in
      let repositories :=
        if existsb (String.eqb (repo event)) repositories
        then repositories else (repositories ++ [repo event])%list in
      if String.eqb event_type "PushEvent" then
        n <- py_len (dict_get_default (processed_info event) "commits"
                       (VList [])) ;;
        summary_loop rest event_types repositories (commit_count + n) pr_count
      else if String.eqb event_type "PullRequestEvent" then
        summary_loop rest event_types repositories commit_count (pr_count + 1)
      else summary_loop rest event_types repositories commit_count pr_count
  end.

Definition _generate_summary (events : list GitHubEvent) : result dict :=
  acc <- summary_loop events [] [] 0 0 ;;
  let '(event_types, repositories, commit_count, pr_count) := acc in
  Ok [("total_events", VInt (Z.of_nat (List.length events)));
      ("event_types", VDict event_types);
      ("repositories", VList (map VStr repositories));
      ("commit_count", VInt commit_count);
      ("pr_count", VInt pr_count)].

(** [events.sort(key=lambda x: x.created_at)]: a stable sort. *)
Fixpoint insert_event (e : GitHubEvent) (sorted : list GitHubEvent)
  : list GitHubEvent :=
  match sorted with
  | [] => [e]
  | e' :: rest =>
      if String.leb (created_at e) (created_at e')
      then e :: sorted else e' :: insert_event e rest
  end.

Definition sort_events (events : list GitHubEvent) : list GitHubEvent :=
  fold_right insert_event [] events.

(** *** The external source *)

(** A record of the activity feed, with the keys the adapters read. *)
Record raw_event := mkRaw {
  ev_type : option string;
  ev_created_at : option string;
  (** [event_data["actor"]["login"]] *)
  ev_actor_login : option string;
  ev_payload : option raw_payload;
  (** [event_data["repo"]["name"]] *)
  ev_repo_name : option string
}.

Inductive request : Type :=
| RepoEvents (repo : string) (page : nat)
| UserEvents (username : string) (page : nat).

(** What one call to the source yields: a transport or process error,
    a body that is not JSON, or a decoded page. *)
Inductive response : Type :=
| CallFailed
| BadBody
| Body (data : list raw_event).

(** The mutable part of [GitHubService] together with the list of the
    page requests issued so far, oldest first. *)
Record service := mkService {
  _seen_commits : seen_set;
  requests : list request
}.

Definition clear_seen (svc : service) : service :=
  mkService [] (requests svc).

Definition with_seen (svc : service) (seen : seen_set) : service :=
  mkService seen (requests svc).

Definition log_request (svc : service) (r : request) : service :=
  mkService (_seen_commits svc) (requests svc ++ [r])%list.

(** Truth value of an optional string, as in [if username:]. *)
Definition str_truthy (s : option string) : bool :=
  match s with
  | Some s' => negb (String.eqb s' "")
  | None => false
  end.

(** [data[-1].get("created_at", "")] *)
Definition last_created_at (data : list raw_event) : string :=
  match rev data with
  | [] => ""
  | e :: _ => get (ev_created_at e) ""
  end.

(** [[part.strip() for part in s.split(",") if part.strip()]] *)
Fixpoint split_comma (s : string) (current : string) : list string :=
  match s with
  | EmptyString => [current]
  | String c s' =>
      if Ascii.eqb c "," then current :: split_comma s' ""
      else split_comma s' (current ++ String c "")
  end.

Definition stripped_nonblank (parts : list string) : list string :=
  filter (fun r => negb (String.eqb r "")) (map strip parts).

Definition configured_repos (github_repos : string) : list string :=
  stripped_nonblank (split_comma github_repos "").

Definition config_error : exn :=
  ValueError "Either GITHUB_ORG or GITHUB_REPOS environment variable is required when not specifying repos".

Section Pagination.

(** The external source: its answer may depend on the requests made
    before. *)
Variable api : list request -> request -> response.

Variable username : option string.
Variables start_time end_time : string.

(** The [for event_data in data] loop of [_get_repo_events]; the
    boolean tells that the loop left through [return]. *)
Fixpoint scan_repo_page (repo : string) (data : list raw_event)
  (filtered : list GitHubEvent) (seen : seen_set)
  : bool * list GitHubEvent * seen_set :=
  match data with
  | [] => (false, filtered, seen)
  | event_data :: rest =>
      let created_at := get (ev_created_at event_data) "" in
      if negb (String.leb start_time created_at
               && String.leb created_at end_time)
      then
        if String.ltb created_at start_time
        then (true, filtered, seen)
        else scan_repo_page repo rest filtered seen
      else if str_truthy username
              && negb (_matches_username
                         (get (ev_actor_login event_data) "")
                         (get username ""))
      then scan_repo_page repo rest filtered seen
      else
        let github_event :=
          mkEvent (get (ev_type event_data) "") created_at repo
            (get (ev_actor_login event_data) "")
            (get (ev_payload event_data) empty_payload) [] in
        let '(info, seen') := _process_event github_event seen in
        scan_repo_page repo rest
          (filtered ++
           [mkEvent (event_type github_event) created_at repo
              (actor github_event) (payload github_event) info])%list
          seen'
  end.

(** The [while page <= 50] loop of [_get_repo_events].  [on_bad_body]
    is what a body that does not decode leads to: the HTTP adapter lets
    the exception escape, the CLI adapter leaves the loop.  The loop is
    run with more fuel than the guard lets it use. *)
Fixpoint repo_pages (on_bad_body : option exn) (repo : string)
  (fuel page : nat) (events : list GitHubEvent) (svc : service)
  : result (list GitHubEvent) * service :=
  match fuel with
  | O => (Raise OutOfFuel, svc)
  | S fuel' =>
      if (page <=? 50)%nat then
        let r := RepoEvents repo page in
        let answer := api (requests svc) r in
        let svc := log_request svc r in
        match answer with
        | CallFailed => (Ok events, svc)
        | BadBody =>
            match on_bad_body with
            | Some e => (Raise e, svc)
            | None => (Ok events, svc)
            end
        | Body data =>
            match data with
            | [] => (Ok events, svc)
            | _ =>
                let '(returned, filtered, seen') :=
                  scan_repo_page repo data [] (_seen_commits svc) in
                let svc := with_seen svc seen' in
                let events := (events ++ filtered)%list in
                if returned then (Ok events, svc)
                else if (List.length data <? 100)%nat then (Ok events, svc)
                else if String.ltb (last_created_at data) start_time
                then (Ok events, svc)
                else repo_pages on_bad_body repo fuel' (S page) events svc
            end
        end
      else (Ok events, svc)
  end.

Definition _get_repo_events (on_bad_body : option exn) (repo : string)
  (svc : service) : result (list GitHubEvent) * service :=
  repo_pages on_bad_body repo 51 1 [] svc.

(** [for repo in repos: activity.events.extend(_get_repo_events(repo))] *)
Fixpoint fetch_repos (on_bad_body : option exn) (repos : list string)
  (events : list GitHubEvent) (svc : service)
  : result (list GitHubEvent) * service :=
  match repos with
  | [] => (Ok events, svc)
  | repo :: rest =>
      match _get_repo_events on_bad_body repo svc with
      | (Ok found, svc') =>
          fetch_repos on_bad_body rest (events ++ found)%list svc'
      | (Raise e, svc') => (Raise e, svc')
      end
  end.

End Pagination.

(** The tail of [get_activity]: sort, summarise, return. *)
Definition finish_activity (target_date : datetime) (username : option string)
  (repos : option (list string)) (events : list GitHubEvent)
  : result GitHubActivity :=
  let events := sort_events events in
  summary <- _generate_summary events ;;
  Ok (mkActivity target_date username repos events summary).

(** Truth value of an optional list, as in [if repos:]. *)
Definition list_truthy {A : Type} (l : option (list A)) : bool :=
  match l with
  | Some (_ :: _) => true
  | _ => false
  end.

(** *** standup_server/github.py: the HTTP-backed adapter *)

Module Http.

Section Service.

Variable api : list request -> request -> response.
(** [self.github_org] and [os.getenv("GITHUB_REPOS")]. *)
Variable github_org : option string.
Variable GITHUB_REPOS : option string.
(** What [_get_org_repos()] returns for the configured organization. *)
Variable org_repos : list string.

Definition _get_repo_events (repo : string) (username : option string)
  (start_time end_time : string) (svc : service)
  : result (list GitHubEvent) * service :=
  GitHub._get_repo_events api username start_time end_time
    (Some JSONDecodeError) repo svc.

Definition fetch (username : option string) (start_time end_time : string)
  (repos : list string) (svc : service)
  : result (list GitHubEvent) * service :=
  fetch_repos api username start_time end_time (Some JSONDecodeError)
    repos [] svc.

Definition get_activity (target_date : datetime) (username : option string)
  (repos : option (list string)) (svc : service)
  : result GitHubActivity * service :=
  let svc := clear_seen svc in
  match get_utc_date_range target_date with
  | None => (Raise OverflowError, svc)
  | Some (start_time, end_time) =>
      let fetched :=
        if list_truthy repos then
          fetch username start_time end_time
            (stripped_nonblank (get repos [])) svc
        else if str_truthy github_org then
          fetch username start_time end_time org_repos svc
        else if str_truthy GITHUB_REPOS then
          fetch username start_time end_time
            (configured_repos (get GITHUB_REPOS "")) svc
        else (Raise config_error, svc) in
      match fetched with
      | (Ok events, svc') =>
          (finish_activity target_date username repos events, svc')
      | (Raise e, svc') => (Raise e, svc')
      end
  end.

End Service.

End Http.

(** *** mcp_server_standup/github.py: the CLI-backed adapter *)

Module Cli.

Section Service.

Variable api : list request -> request -> response.
(** [self.github_org] and [self.github_repos]. *)
Variable github_org : option string.
Variable github_repos : option string.
(** What [get_current_user()], [_get_org_repos()] and
    [_get_user_repos(username)] return. *)
Variable current_user : option string.
Variable org_repos : list string.
Variable user_repos : string -> list string.

Definition _get_repo_events (repo : string) (username : option string)
  (start_time end_time : string) (svc : service)
  : result (list GitHubEvent) * service :=
  GitHub._get_repo_events api username start_time end_time None repo svc.

Definition fetch (username : option string) (start_time end_time : string)
  (repos : list string) (svc : service)
  : result (list GitHubEvent) * service :=
  fetch_repos api username start_time end_time None repos [] svc.

(** The [for event_data in data] loop of [_get_user_events]. *)
Fixpoint scan_user_page (start_time end_time : string)
  (data : list raw_event) (filtered : list GitHubEvent) (seen : seen_set)
  : bool * list GitHubEvent * seen_set :=
  match data with
  | [] => (false, filtered, seen)
  | event_data :: rest =>
      let created_at := get (ev_created_at event_data) "" in
      if negb (String.leb start_time created_at
               && String.leb created_at end_time)
      then
        if String.ltb created_at start_time
        then (true, filtered, seen)
        else scan_user_page start_time end_time rest filtered seen
      else
        let repo := get (ev_repo_name event_data) "" in
        if String.eqb repo ""
        then scan_user_page start_time end_time rest filtered seen
        else
          let github_event :=
            mkEvent (get (ev_type event_data) "") created_at repo
              (get (ev_actor_login event_data) "")
              (get (ev_payload event_data) empty_payload) [] in
          let '(info, seen') := _process_event github_event seen in
          scan_user_page start_time end_time rest
            (filtered ++
             [mkEvent (event_type github_event) created_at repo
                (actor github_event) (payload github_event) info])%list
            seen'
  end.

(** The [while page <= 50] loop of [_get_user_events]. *)
Fixpoint user_pages (username start_time end_time : string)
  (fuel page : nat) (events : list GitHubEvent) (svc : service)
  : result (list GitHubEvent) * service :=
  match fuel with
  | O => (Raise OutOfFuel, svc)
  | S fuel' =>
      if (page <=? 50)%nat then
        let r := UserEvents username page in
        let answer := api (requests svc) r in
        let svc := log_request svc r in
        match answer with
        | CallFailed => (Ok events, svc)
        | BadBody => (Ok events, svc)
        | Body data =>
            match data with
            | [] => (Ok events, svc)
            | _ =>
                let '(returned, filtered, seen') :=
                  scan_user_page start_time end_time data []
                    (_seen_commits svc) in
                let svc := with_seen svc seen' in
                let events := (events ++ filtered)%list in
                if returned then (Ok events, svc)
                else if (List.length data <? 100)%nat then (Ok events, svc)
                else if String.ltb (last_created_at data) start_time
                then (Ok events, svc)
                else user_pages username start_time end_time fuel'
                       (S page) events svc
            end
        end
      else (Ok events, svc)
  end.

Definition _get_user_events (username start_time end_time : string)
  (svc : service) : result (list GitHubEvent) * service :=
  user_pages username start_time end_time 51 1 [] svc.

Definition no_user_error : exn :=
  ValueError "Could not determine current GitHub user. Please provide a username explicitly.".

Definition get_activity (target_date : datetime) (username : option string)
  (repos : option (list string)) (svc : service)
  : result GitHubActivity * service :=
  let svc := clear_seen svc in
  let username := if str_truthy username then username else current_user in
  if negb (str_truthy username) then (Raise no_user_error, svc)
  else
    match get_utc_date_range target_date with
    | None => (Raise OverflowError, svc)
    | Some (start_time, end_time) =>
        let finish fetched :=
          match fetched with
          | (Ok events, svc') =>
              (finish_activity target_date username repos events, svc')
          | (Raise e, svc') => (Raise e, svc')
          end in
        let fetch_or_fail repos_to_process :=
          match repos_to_process with
          | [] => (Raise config_error, svc)
          | _ =>
              finish (fetch username start_time end_time repos_to_process
                        svc)
          end in
        if negb (list_truthy repos) then
          if str_truthy github_repos then
            fetch_or_fail (configured_repos (get github_repos ""))
          else if str_truthy github_org then fetch_or_fail org_repos
          else if str_truthy username then
            match user_repos (get username "") with
            | (_ :: _) as found => fetch_or_fail found
            | [] =>
                finish (_get_user_events (get username "") start_time
                          end_time svc)
            end
          else fetch_or_fail []
        else
          finish (fetch username start_time end_time
                    (stripped_nonblank (get repos [])) svc)
    end.

End Service.

End Cli.

End GitHub.

Import GitHub.

(** ** The [json] module: [dumps] with [indent=2] and [loads]

    The fragment of the standard encoder and decoder that covers [value]:
    integers are the only numbers and a character is a code point below
    256; [loads] answers [None] for any other text. *)

Module Json.

Open Scope Z_scope.

(** The double quote character. *)
Definition dquote : ascii := "034".

(** The encoder's [ensure_ascii] escapes. *)
Definition escape_char (c : ascii) : string :=
  let n := code c in
  if (n =? 34)%nat then String "\" (String dquote "")
  else if (n =? 92)%nat then "\\"
  else if (n =? 10)%nat then "\n"
  else if (n =? 13)%nat then "\r"
  else if (n =? 9)%nat then "\t"
  else if (n =? 8)%nat then "\b"
  else if (n =? 12)%nat then "\f"
  else if ((32 <=? n) && (n <=? 126))%nat then String c ""
  else String "\" (String "u" (String "0" (String "0"
         (String (hex_digit (n / 16)) (String (hex_digit (n mod 16)) ""))))).

Fixpoint escape (s : string) : string :=
  match s with
  | EmptyString => EmptyString
  | String c s' => escape_char c ++ escape s'
  end.

Definition quote (s : string) : string :=
  String dquote (escape s ++ String dquote "").

(** A line break followed by the indentation of nesting depth [level]. *)
Definition newline_indent (level : nat) : string :=
  newline ++ repeat_char " " (2 * level).

Fixpoint encode_at (level : nat) (v : value) : string :=
  match v with
  | VNone => "null"
  | VBool true => "true"
  | VBool false => "false"
  | VInt z => str_of_Z z
  | VStr s => quote s
  | VList [] => "[]"
  | VList items =>
      "[" ++ newline_indent (S level)
      ++ (fix items_at (l : list value) : string :=
            match l with
            | [] => ""
            | [x] => encode_at (S level) x
            | x :: rest =>
                encode_at (S level) x ++ "," ++ newline_indent (S level)
                ++ items_at rest
            end) items
      ++ newline_indent level ++ "]"
  | VDict [] => "{}"
  | VDict members =>
      "{" ++ newline_indent (S level)
      ++ (fix members_at (l : list (string * value)) : string :=
            match l with
            | [] => ""
            | [(k, x)] => quote k ++ ": " ++ encode_at (S level) x
            | (k, x) :: rest =>
                quote k ++ ": " ++ encode_at (S level) x ++ ","
                ++ newline_indent (S level) ++ members_at rest
            end) members
      ++ newline_indent level ++ "}"
  end.

(** [json.dumps(v, indent=2)] *)
Definition dumps (v : value) : string := encode_at 0 v.

(** The decoder. *)
Definition is_ws (c : ascii) : bool :=
  let n := code c in
  (n =? 32)%nat || (n =? 9)%nat || (n =? 10)%nat || (n =? 13)%nat.

Fixpoint skip_ws (s : string) : string :=
  match s with
  | EmptyString => EmptyString
  | String c s' => if is_ws c then skip_ws s' else s
  end.

Definition is_digit (c : ascii) : bool :=
  let n := code c in ((48 <=? n) && (n <=? 57))%nat.

Definition hex_value (c : ascii) : option nat :=
  let n := code c in
  if ((48 <=? n) && (n <=? 57))%nat then Some (n - 48)%nat
  else if ((97 <=? n) && (n <=? 102))%nat then Some (n - 87)%nat
  else if ((65 <=? n) && (n <=? 70))%nat then Some (n - 55)%nat
  else None.

(** The digits at the head of [s], as a number extending [acc]. *)
Fixpoint scan_digits (s : string) (acc : Z) : Z * string :=
  match s with
  | EmptyString => (acc, s)
  | String c s' =>
      if is_digit c
      then scan_digits s' (10 * acc + Z.of_nat (code c - 48))
      else (acc, s)
  end.

(** An unsigned integer literal: [0] or a digit sequence that does not
    start with [0]. *)
Definition scan_natural (s : string) : option (Z * string) :=
  match s with
  | String c s' =>
      if Ascii.eqb c "0" then Some (0, s')
      else if is_digit c then Some (scan_digits s 0)
      else None
  | EmptyString => None
  end.

(** A fraction or an exponent would make the number a float. *)
Definition float_follows (s : string) : bool :=
  match s with
  | String c _ => Ascii.eqb c "." || Ascii.eqb c "e" || Ascii.eqb c "E"
  | EmptyString => false
  end.

Definition scan_number (s : string) : option (Z * string) :=
  let '(negative, digits) :=
    match s with
    | String c s' => if Ascii.eqb c "-" then (true, s') else (false, s)
    | EmptyString => (false, s)
    end in
  match scan_natural digits with
  | Some (n, rest) =>
      if float_follows rest then None
      else Some (if negative then - n else n, rest)
  | None => None
  end.

Definition decode_escape (e : ascii) : option ascii :=
  if Ascii.eqb e dquote then Some dquote
  else if Ascii.eqb e "\" then Some "\"%char
  else if Ascii.eqb e "/" then Some "/"%char
  else if Ascii.eqb e "b" then Some (ascii_of_nat 8)
  else if Ascii.eqb e "f" then Some (ascii_of_nat 12)
  else if Ascii.eqb e "n" then Some (ascii_of_nat 10)
  else if Ascii.eqb e "r" then Some (ascii_of_nat 13)
  else if Ascii.eqb e "t" then Some (ascii_of_nat 9)
  else None.

(** The characters of a string literal after its opening quote. *)
Fixpoint scan_string (s : string) : option (string * string) :=
  match s with
  | EmptyString => None
  | String c s' =>
      if Ascii.eqb c dquote then Some ("", s')
      else if Ascii.eqb c "\" then
        match s' with
        | String "u" (String h1 (String h2 (String h3 (String h4 s'')))) =>
            match hex_value h1, hex_value h2, hex_value h3, hex_value h4 with
            | Some 0%nat, Some 0%nat, Some a, Some b =>
                match scan_string s'' with
                | Some (str, rest) =>
                    Some (String (ascii_of_nat (16 * a + b)) str, rest)
                | None => None
                end
            | _, _, _, _ => None
            end
        | String e s'' =>
            match decode_escape e, scan_string s'' with
            | Some d, Some (str, rest) => Some (String d str, rest)
            | _, _ => None
            end
        | EmptyString => None
        end
      else if (code c <? 32)%nat then None
      else
        match scan_string s' with
        | Some (str, rest) => Some (String c str, rest)
        | None => None
        end
  end.

(** The decoder proper, in the order of the scanner: a string, an
    object, an array, the three literals, a number. *)
Fixpoint scan_value (fuel : nat) (s : string) : option (value * string) :=
  match fuel with
  | O => None
  | S fuel' =>
      match s with
      | EmptyString => None
      | String c rest =>
          if Ascii.eqb c dquote then
            match scan_string rest with
            | Some (str, rest') => Some (VStr str, rest')
            | None => None
            end
          else if Ascii.eqb c "{" then
            match skip_ws rest with
            | EmptyString => None
            | String c' rest' =>
                if Ascii.eqb c' "}" then Some (VDict [], rest')
                else
                  match scan_members fuel' (String c' rest') [] with
                  | Some (members, rest'') => Some (VDict members, rest'')
                  | None => None
                  end
            end
          else if Ascii.eqb c "[" then
            match skip_ws rest with
            | EmptyString => None
            | String c' rest' =>
                if Ascii.eqb c' "]" then Some (VList [], rest')
                else
                  match scan_items fuel' (String c' rest') [] with
                  | Some (items, rest'') => Some (VList items, rest'')
                  | None => None
                  end
            end
          else if startswith "null" s then Some (VNone, drop 4 s)
          else if startswith "true" s then Some (VBool true, drop 4 s)
          else if startswith "false" s then Some (VBool false, drop 5 s)
          else
            match scan_number s with
            | Some (n, rest') => Some (VInt n, rest')
            | None => None
            end
      end
  end

with scan_items (fuel : nat) (s : string) (acc : list value)
  : option (list value * string) :=
  match fuel with
  | O => None
  | S fuel' =>
      match scan_value fuel' s with
      | Some (v, rest) =>
          match skip_ws rest with
          | EmptyString => None
          | String c rest' =>
              if Ascii.eqb c "," then
                scan_items fuel' (skip_ws rest') (acc ++ [v])%list
              else if Ascii.eqb c "]" then Some ((acc ++ [v])%list, rest')
              else None
          end
      | None => None
      end
  end

with scan_members (fuel : nat) (s : string) (acc : dict)
  : option (dict * string) :=
  match fuel with
  | O => None
  | S fuel' =>
      match s with
      | EmptyString => None
      | String q rest =>
          if Ascii.eqb q dquote then
            match scan_string rest with
            | Some (key, rest1) =>
                match skip_ws rest1 with
                | EmptyString => None
                | String c rest2 =>
                    if Ascii.eqb c ":" then
                      match scan_value fuel' (skip_ws rest2) with
                      | Some (v, rest3) =>
                          match skip_ws rest3 with
                          | EmptyString => None
                          | String c' rest4 =>
                              if Ascii.eqb c' "," then
                                scan_members fuel' (skip_ws rest4)
                                  (dict_set acc key v)
                              else if Ascii.eqb c' "}" then
                                Some (dict_set acc key v, rest4)
                              else None
                          end
                      | None => None
                      end
                    else None
                end
            | None => None
            end
          else None
      end
  end.

(** [json.loads(s)] *)
Definition loads (s : string) : option value :=
  match scan_value (S (String.length s)) (skip_ws s) with
  | Some (v, rest) =>
      match skip_ws rest with
      | EmptyString => Some v
      | _ => None
      end
  | None => None
  end.

End Json.


(** ** formatting.py: [StandupFormatter] *)

Module Formatting.

Open Scope Z_scope.

Definition info_get (event : GitHubEvent) (k : string) (default : value)
  : value :=
  dict_get_default (processed_info event) k default.

(** *** The regular expression of the text report

    [re.sub(r"\[([^\]]+)\]\([^)]+\)", r"\1", s)]: a match starts at an
    opening bracket, takes the longest non-empty run without a closing
    bracket, the two characters that close the label and open the target,
    the longest non-empty run without a closing parenthesis, and that
    parenthesis.  Both runs are bounded by the character that must
    follow them, so no shorter run can match. *)

(** The longest prefix of [s] free of [stop], and what follows it. *)
Fixpoint span (stop : ascii) (s : string) : string * string :=
  match s with
  | EmptyString => (EmptyString, EmptyString)
  | String c s' =>
      if Ascii.eqb c stop then (EmptyString, s)
      else let '(run, rest) := span stop s' in (String c run, rest)
  end.

(** A match at the head of [s]: its label and its length. *)
Definition match_link (s : string) : option (string * nat) :=
  match s with
  | String open after_open =>
      if Ascii.eqb open "[" then
        let '(label, after_label) := span "]" after_open in
        match label, after_label with
        | String _ _, String close (String paren after_paren) =>
            if Ascii.eqb close "]" && Ascii.eqb paren "(" then
              let '(target, after_target) := span ")" after_paren in
              match target, after_target with
              | String _ _, String close' _ =>
                  if Ascii.eqb close' ")"
                  then Some (label,
                             (String.length label + String.length target
                              + 4)%nat)
                  else None
              | _, _ => None
              end
            else None
        | _, _ => None
        end
      else None
  | EmptyString => None
  end.

(** The substitution, scanning from the left; [skip] counts the
    characters of the current match that remain to be dropped. *)
Fixpoint collapse_from (s : string) (skip : nat) : string :=
  match s with
  | EmptyString => EmptyString
  | String c s' =>
      match skip with
      | S k => collapse_from s' k
      | O =>
          match match_link s with
          | Some (label, n) => label ++ collapse_from s' (n - 1)
          | None => String c (collapse_from s' 0)
          end
      end
  end.

Definition collapse_links (s : string) : string := collapse_from s 0.

(** [item.replace("**", "").replace("*", "")] and the substitution. *)
Definition clean_item (item : string) : string :=
  collapse_links (replace "*" "" (replace "**" "" item)).

(** *** Standup items *)

Record groups := mkGroups {
  g_commits : list GitHubEvent;
  g_pull_requests : list GitHubEvent;
  g_reviews : list GitHubEvent;
  g_other : list GitHubEvent
}.

Definition is_type (event : GitHubEvent) (t : string) : bool :=
  String.eqb (event_type event) t.

Fixpoint group_loop (events : list GitHubEvent) (g : groups) : groups :=
  match events with
  | [] => g
  | event :: rest =>
      group_loop rest
        (if is_type event "PushEvent"
            && truthy (info_get event "commits" VNone)
         then mkGroups (g_commits g ++ [event]) (g_pull_requests g)
                (g_reviews g) (g_other g)
         else if is_type event "PullRequestEvent"
         then mkGroups (g_commits g) (g_pull_requests g ++ [event])
                (g_reviews g) (g_other g)
         else if is_type event "PullRequestReviewEvent"
                 || is_type event "PullRequestReviewCommentEvent"
         then mkGroups (g_commits g) (g_pull_requests g)
                (g_reviews g ++ [event]) (g_other g)
         else if is_type event "IssueCommentEvent"
                 || is_type event "CreateEvent"
         then mkGroups (g_commits g) (g_pull_requests g) (g_reviews g)
                (g_other g ++ [event])
         else g)%list
  end.

Definition _group_significant_events (events : list GitHubEvent) : groups :=
  group_loop events (mkGroups [] [] [] []).

(** A dictionary from strings to lists, in insertion order:
    [if k not in d: d[k] = []] followed by [d[k].extend(xs)]. *)
Fixpoint extend_at {A : Type} (d : list (string * list A)) (k : string)
  (xs : list A) : list (string * list A) :=
  match d with
  | [] => [(k, xs)]
  | (k', ys) :: d' =>
      if String.eqb k' k then (k', (ys ++ xs)%list) :: d'
      else (k', ys) :: extend_at d' k xs
  end.

Fixpoint commits_by_repo (events : list GitHubEvent)
  (acc : list (string * list value)) : result (list (string * list value)) :=
  match events with
  | [] => Ok acc
  | event :: rest =>
      found <- iterate (info_get event "commits" (VList [])) ;;
      commits_by_repo rest (extend_at acc (repo event) found)
  end.

(** [f"  - {commit['message']} ([{commit['sha']}]({commit['link']}))"] *)
Definition commit_line (commit : value) : result string :=
  m <- subscript commit "message" ;; message <- py_str m ;;
  s <- subscript commit "sha" ;; sha <- py_str s ;;
  l <- subscript commit "link" ;; link <- py_str l ;;
  Ok ("  - " ++ message ++ " ([" ++ sha ++ "](" ++ link ++ "))").

Fixpoint mapM {A B : Type} (f : A -> result B) (xs : list A)
  : result (list B) :=
  match xs with
  | [] => Ok []
  | x :: xs' => y <- f x ;; ys <- mapM f xs' ;; Ok (y :: ys)
  end.

Definition repo_commit_items (repo : string) (commits : list value)
  : result (list string) :=
  match commits with
  | [commit] =>
      m <- subscript commit "message" ;; message <- py_str m ;;
      l <- subscript commit "link" ;; link <- py_str l ;;
      Ok ["- Committed **" ++ message ++ "** to [" ++ repo ++ "](" ++ link
          ++ ")"]
  | _ =>
      let n := List.length commits in
      let head :=
        "- Made **" ++ str_of_nat n ++ " commits** to [" ++ repo
        ++ "](https://github.com/" ++ repo ++ ")" in
      let more :=
        if (3 <? n)%nat
        then ["  - *(and " ++ str_of_nat (n - 3) ++ " more)*"]
        else [] in
      shown <- mapM commit_line (firstn 3 commits) ;;
      Ok (head :: List.app shown more)
  end.

(** [for x in xs: items.extend(f(x))] *)
Fixpoint concatM {A : Type} (f : A -> result (list string)) (xs : list A)
  : result (list string) :=
  match xs with
  | [] => Ok []
  | x :: xs' => ys <- f x ;; zs <- concatM f xs' ;; Ok (ys ++ zs)%list
  end.

Definition _format_commit_items (events : list GitHubEvent)
  : result (list string) :=
  by_repo <- commits_by_repo events [] ;;
  concatM (fun rc => repo_commit_items (fst rc) (snd rc)) by_repo.

(** [links[0] if links else fallback] *)
Definition first_link (links : value) (fallback : result string)
  : result string :=
  if truthy links then l <- first_item links ;; py_str l else fallback.

Definition pull_link (event : GitHubEvent) (pr_number : value)
  : result string :=
  n <- py_str pr_number ;;
  Ok ("https://github.com/" ++ repo event ++ "/pull/" ++ n).

Definition pr_item (event : GitHubEvent) : result (list string) :=
  let action := info_get event "action" (VStr "") in
  let pr_number := info_get event "pr_number" (VStr "") in
  let title := info_get event "title" (VStr "") in
  let links := info_get event "links" (VList []) in
  let line (verb : string) :=
    link <- first_link links (pull_link event pr_number) ;;
    n <- py_str pr_number ;;
    t <- py_str title ;;
    Ok ["- " ++ verb ++ " **[PR #" ++ n ++ "](" ++ link ++ ")**: " ++ t] in
  if value_is_str action "opened" then line "Opened"
  else if value_is_str action "closed" then line (PyStr.title "closed")
  else if value_is_str action "merged" then line (PyStr.title "merged")
  else Ok [].

Definition _format_pr_items (events : list GitHubEvent)
  : result (list string) :=
  concatM pr_item events.

(** [reviews_by_pr]: the review events of every pull request, keyed by
    [f"{event.repo}#{pr_number}"]. *)
Fixpoint reviews_by_pr (events : list GitHubEvent)
  (acc : list (string * list GitHubEvent))
  : result (list (string * list GitHubEvent)) :=
  match events with
  | [] => Ok acc
  | event :: rest =>
      if is_type event "PullRequestReviewEvent" then
        n <- py_str (info_get event "pr_number" (VStr "")) ;;
        reviews_by_pr rest (extend_at acc (repo event ++ "#" ++ n) [event])
      else reviews_by_pr rest acc
  end.

Definition review_item (review_events : list GitHubEvent)
  : result (list string) :=
  match rev review_events with
  | [] => Raise TypeError
  | latest_review :: _ =>
      let pr_number := info_get latest_review "pr_number" (VStr "") in
      let state := info_get latest_review "review_state" (VStr "") in
      let links := info_get latest_review "links" (VList []) in
      link <- first_link links (pull_link latest_review pr_number) ;;
      n <- py_str pr_number ;;
      st <- py_str state ;;
      Ok ["- Reviewed **[PR #" ++ n ++ "](" ++ link ++ ")** (" ++ st ++ ")"]
  end.

Definition _format_review_items (events : list GitHubEvent)
  : result (list string) :=
  by_pr <- reviews_by_pr events [] ;;
  concatM (fun kv => review_item (snd kv)) by_pr.

Definition other_item (event : GitHubEvent) : result (list string) :=
  if is_type event "IssueCommentEvent" then
    let number := info_get event "issue_number" (VStr "") in
    let is_pr := info_get event "is_pull_request" (VBool false) in
    let links := info_get event "links" (VList []) in
    link <- first_link links (Ok "") ;;
    let item_type := if truthy is_pr then "PR" else "issue" in
    n <- py_str number ;;
    Ok ["- Commented on **[" ++ item_type ++ " #" ++ n ++ "](" ++ link
        ++ ")**"]
  else if is_type event "CreateEvent" then
    let ref_type := info_get event "ref_type" (VStr "") in
    let ref := info_get event "ref" (VStr "") in
    if value_is_str ref_type "branch" then
      r <- py_str ref ;;
      Ok ["- Created branch **" ++ r ++ "** in " ++ repo event]
    else Ok []
  else Ok [].

Definition _format_other_items (events : list GitHubEvent)
  : result (list string) :=
  concatM other_item events.

Definition _generate_standup_items (github_activity : GitHubActivity)
  : result (list string) :=
  let significant_events :=
    _group_significant_events (events github_activity) in
  commit_items <- _format_commit_items (g_commits significant_events) ;;
  pr_items <- _format_pr_items (g_pull_requests significant_events) ;;
  review_items <- _format_review_items (g_reviews significant_events) ;;
  other_items <- _format_other_items (g_other significant_events) ;;
  Ok (commit_items ++ pr_items ++ review_items ++ other_items)%list.

(** *** The three reports *)

(** [sorted(v)] for a list of strings: insertion sort.  Python also
    sorts lists of other mutually comparable objects; the model raises
    [TypeError] for them unless there is at most one item. *)
Fixpoint insert_str (x : string) (sorted : list string) : list string :=
  match sorted with
  | [] => [x]
  | y :: rest =>
      if String.leb x y then x :: sorted else y :: insert_str x rest
  end.

Fixpoint all_strings (items : list value) : option (list string) :=
  match items with
  | [] => Some []
  | VStr s :: rest =>
      match all_strings rest with
      | Some ss => Some (s :: ss)
      | None => None
      end
  | _ => None
  end.

Definition py_sorted (v : value) : result (list value) :=
  items <- iterate v ;;
  match all_strings items with
  | Some ss => Ok (map VStr (fold_right insert_str [] ss))
  | None =>
      match items with
      | [_] => Ok items
      | _ => Raise TypeError
      end
  end.

Definition repo_link_line (repo : value) : result string :=
  r <- py_str repo ;;
  Ok ("- [" ++ r ++ "](https://github.com/" ++ r ++ ")").

Definition _format_markdown_report (github_activity : GitHubActivity)
  : result string :=
  let lines :=
    ["# Standup Summary - " ++ strftime_BdY (target_date github_activity);
     ""] in
  standup_items <- _generate_standup_items github_activity ;;
  let lines :=
    (lines ++
     (match standup_items with
      | [] => ["No significant activity to report."]
      | _ => standup_items
      end) ++ [""; "---"; ""])%list in
  match events github_activity with
  | [] => Ok (join newline lines)
  | _ =>
      total <- dict_item (summary github_activity) "total_events" ;;
      total_str <- py_str total ;;
      repositories <- dict_item (summary github_activity) "repositories" ;;
      count <- py_len repositories ;;
      repositories' <- dict_item (summary github_activity) "repositories" ;;
      sorted <- py_sorted repositories' ;;
      repo_lines <- mapM repo_link_line sorted ;;
      let details :=
        ["## GitHub Activity Details";
         "";
         "**" ++ total_str ++ " events** across **" ++ str_of_Z count
         ++ " repositories**";
         ""] in
      Ok (join newline
            (List.app lines (List.app details (List.app repo_lines [""]))))
  end.

Definition _format_text_report (github_activity : GitHubActivity)
  : result string :=
  let lines :=
    ["Standup Summary - " ++ strftime_BdY (target_date github_activity);
     repeat_char "=" 50;
     ""] in
  standup_items <- _generate_standup_items github_activity ;;
  Ok (join newline
        (lines ++
         (match standup_items with
          | [] => ["No significant activity to report."]
          | _ => map clean_item standup_items
          end))%list).

Definition event_json (event : GitHubEvent) : value :=
  VDict [("type", VStr (event_type event));
         ("created_at", VStr (created_at event));
         ("repo", VStr (repo event));
         ("actor", VStr (actor event));
         ("processed_info", VDict (processed_info event))].

(** The dictionary [data] that [_format_json_report] serializes. *)
Definition json_report_data (github_activity : GitHubActivity)
  : result value :=
  standup_items <- _generate_standup_items github_activity ;;
  Ok (VDict
        [("date", VStr (isoformat (target_date github_activity)));
         ("github",
          VDict [("summary", VDict (summary github_activity));
                 ("events", VList (map event_json (events github_activity)))]);
         ("standup_items", VList (map VStr standup_items))]).

Definition _format_json_report (github_activity : GitHubActivity)
  : result string :=
  data <- json_report_data github_activity ;;
  Ok (Json.dumps data).

Definition format_standup_report (github_activity : GitHubActivity)
  (format_type : string) : result string :=
  if String.eqb format_type "json" then _format_json_report github_activity
  else if String.eqb format_type "text"
  then _format_text_report github_activity
  else _format_markdown_report github_activity.

End Formatting.


(** ** server.py: the two tool-call dispatchers *)

Module Server.

(** [mcp.types.TextContent] *)
Record TextContent := mkText {
  type : string;
  text : string
}.

(** What awaiting a coroutine leads to: a returned list of blocks, or a
    raised exception, an instance of [Exception], given by its [str(e)]. *)
Inductive outcome : Type :=
| Returns (blocks : list TextContent)
| Raises (message : string).

Definition handler : Type := dict -> outcome.

(** [try: body except Exception as e: recover(str(e))] *)
Definition try_except (body : outcome) (recover : string -> outcome)
  : outcome :=
  match body with
  | Returns blocks => Returns blocks
  | Raises message => recover message
  end.

(** *** mcp_server_mise/server.py *)

Module Mise.

Section Dispatch.

(** [TOOL_HANDLERS], the mapping from tool names to coroutines. *)
Variable TOOL_HANDLERS : list (string * handler).

Fixpoint lookup (table : list (string * handler)) (name : string)
  : option handler :=
  match table with
  | [] => None
  | (n, h) :: rest => if String.eqb n name then Some h else lookup rest name
  end.

Definition call_tool (name : string) (arguments : dict) : outcome :=
  try_except
    (match lookup TOOL_HANDLERS name with
     | Some h => h arguments
     | None => Returns [mkText "text" ("Unknown tool: " ++ name)]
     end)
    (fun e =>
       Returns [mkText "text" ("Error executing " ++ name ++ ": " ++ e)]).

End Dispatch.

End Mise.

(** *** mcp_server_standup/server.py *)

Module Standup.

Section Dispatch.

(** The four tool coroutines. *)
Variable _get_standup_summary : handler.
Variable _get_github_activity : handler.
Variable _get_workday_date : handler.
Variable _format_standup_report : handler.

Definition handle_call_tool (name : string) (arguments : option dict)
  : outcome :=
  let arguments :=
    match arguments with
    | None => []
    | Some a => a
    end in
  try_except
    (if String.eqb name "get_standup_summary"
     then _get_standup_summary arguments
     else if String.eqb name "get_github_activity"
     then _get_github_activity arguments
     else if String.eqb name "get_workday_date"
     then _get_workday_date arguments
     else if String.eqb name "format_standup_report"
     then _format_standup_report arguments
     else Raises ("Unknown tool: " ++ name))
    (fun e => Returns [mkText "text" ("Error: " ++ e)]).

End Dispatch.

End Standup.

End Server.


(** * Properties *)

Import Formatting.

(** ** The date expression resolver *)

Section DateFacts.

Open Scope Z_scope.

Variable now : datetime.
Variable dateutil_parse : string -> option datetime.

Lemma weekday_midnight : weekday (midnight now) = weekday now.
Proof. reflexivity. Qed.

Lemma sub_days_some (d : datetime) (k : Z) :
  1 <= ordinal d - k <= MAXORDINAL ->
  sub_days d k =
    Some (mkDatetime (ordinal d - k) (hour d) (minute d) (second d)
            (microsecond d)).
Proof.
  intros H. unfold sub_days, add_days.
  replace (ordinal d + - k) with (ordinal d - k) by lia.
  destruct (Z.leb_spec 1 (ordinal d - k)); try lia.
  destruct (Z.leb_spec (ordinal d - k) MAXORDINAL); try lia.
  reflexivity.
Qed.

(** A Monday other than the first day of the calendar is at least a
    week after it. *)
Lemma monday_after_first_week :
  2 <= ordinal now -> weekday now = 0 -> 8 <= ordinal now.
Proof.
  unfold weekday. intros H E.
  pose proof (Z.div_mod (ordinal now + 6) 7 ltac:(lia)) as D.
  rewrite E in D. lia.
Qed.

Lemma last_workday_value :
  2 <= ordinal now <= MAXORDINAL ->
  _get_last_workday now =
    Some (mkDatetime
            (ordinal now - (if weekday now =? 0 then 3 else 1)) 0 0 0 0).
Proof.
  intros H. unfold _get_last_workday.
  rewrite weekday_midnight.
  rewrite sub_days_some; [reflexivity|].
  cbn [ordinal midnight].
  destruct (Z.eqb_spec (weekday now) 0) as [E|E]; [|lia].
  pose proof (monday_after_first_week (proj1 H) E). lia.
Qed.

End DateFacts.

(** C7: for every frozen instant after 0001-01-01 (the first day of the
    calendar, a Monday with no day three days back), [parse_date] of the
    empty string is midnight of the day three days back when today is a
    Monday, and that day is a Friday; it is midnight of the day before on
    any other day, and on a Tuesday that day is a Monday. *)
Theorem parse_date_empty_is_last_workday :
  forall (now : datetime) (dateutil_parse : string -> option datetime),
    (2 <= ordinal now <= MAXORDINAL)%Z ->
    exists d : datetime,
      parse_date now dateutil_parse "" = Some d
      /\ (hour d, minute d, second d, microsecond d) = (0, 0, 0, 0)%Z
      /\ (weekday now = 0 -> ordinal d = ordinal now - 3 /\ weekday d = 4)%Z
      /\ (weekday now <> 0 -> ordinal d = ordinal now - 1)%Z
      /\ (weekday now = 1 -> weekday d = 0)%Z.
Proof.
  intros now parse H.
  unfold parse_date. simpl (String.eqb "" "").
  rewrite last_workday_value by exact H.
  eexists. split; [reflexivity|].
  split; [reflexivity|].
  unfold weekday in *. simpl ordinal.
  pose proof (Z.div_mod (ordinal now + 6) 7 ltac:(lia)) as D.
  refine (conj _ (conj _ _)).
  - intros E. rewrite E in *. simpl. split; [lia|].
    replace (ordinal now - 3 + 6) with (4 + (((ordinal now + 6) / 7) - 1) * 7)
      by lia.
    rewrite Z.mod_add by lia. reflexivity.
  - intros N. destruct (Z.eqb_spec ((ordinal now + 6) mod 7) 0); lia.
  - intros E. rewrite E in *. simpl.
    replace (ordinal now - 1 + 6) with (0 + ((ordinal now + 6) / 7) * 7) by lia.
    rewrite Z.mod_add by lia. reflexivity.
Qed.

(** The instance of C7 at Monday 2024-07-22 15:30 (ordinal 739089). *)
Lemma parse_date_empty_is_last_workday_witness :
  (2 <= 739089 <= MAXORDINAL)%Z
  /\ exists d : datetime,
      parse_date (mkDatetime 739089 15 30 0 0) (fun _ => None) "" = Some d
      /\ (hour d, minute d, second d, microsecond d) = (0, 0, 0, 0)%Z
      /\ (weekday (mkDatetime 739089 15 30 0 0) = 0 ->
          ordinal d = 739089 - 3 /\ weekday d = 4)%Z
      /\ (weekday (mkDatetime 739089 15 30 0 0) <> 0 ->
          ordinal d = 739089 - 1)%Z
      /\ (weekday (mkDatetime 739089 15 30 0 0) = 1 -> weekday d = 0)%Z.
Proof.
  split.
  - unfold MAXORDINAL. lia.
  - apply (parse_date_empty_is_last_workday (mkDatetime 739089 15 30 0 0)
             (fun _ => None)).
    unfold MAXORDINAL. simpl. lia.
Defined.

(** On 0001-01-01 the subtraction of three days leaves the range of
    [datetime]: Python raises [OverflowError]. *)
Example parse_date_empty_first_day :
  parse_date (mkDatetime 1 15 30 0 0) (fun _ => None) "" = None.
Proof. reflexivity. Qed.

(** The two dates of the test suite: Tuesday 2024-07-23 resolves to
    2024-07-22 and Monday 2024-07-22 to 2024-07-19. *)
Example parse_date_empty_tuesday :
  option_map (fun d => (ord2ymd (ordinal d), hour d))
    (parse_date (mkDatetime 739090 15 30 0 0) (fun _ => None) "")
  = Some ((2024, 7, 22), 0)%Z.
Proof. reflexivity. Qed.

Example parse_date_empty_monday :
  option_map (fun d => (ord2ymd (ordinal d), hour d))
    (parse_date (mkDatetime 739089 15 30 0 0) (fun _ => None) "")
  = Some ((2024, 7, 19), 0)%Z.
Proof. reflexivity. Qed.

(** ** The dispatch of report formats *)

(** C10: any format other than ["json"] and ["text"] is rendered as
    markdown, the same result as for ["markdown"] itself. *)
Theorem format_standup_report_falls_back_to_markdown :
  forall (github_activity : GitHubActivity) (format_type : string),
    format_type <> "json" ->
    format_type <> "text" ->
    format_standup_report github_activity format_type
    = format_standup_report github_activity "markdown"
    /\ format_standup_report github_activity format_type
       = _format_markdown_report github_activity.
Proof.
  intros a f Hj Ht. unfold format_standup_report.
  apply String.eqb_neq in Hj. apply String.eqb_neq in Ht.
  rewrite Hj, Ht. split; reflexivity.
Qed.

Lemma format_standup_report_falls_back_to_markdown_witness :
  "html" <> "json" /\ "html" <> "text"
  /\ format_standup_report (mkActivity (mkDatetime 739090 0 0 0 0) None None [] [])
       "html"
     = format_standup_report
         (mkActivity (mkDatetime 739090 0 0 0 0) None None [] []) "markdown".
Proof.
  split; [discriminate|]. split; [discriminate|].
  apply (format_standup_report_falls_back_to_markdown
           (mkActivity (mkDatetime 739090 0 0 0 0) None None [] []) "html");
    discriminate.
Defined.


(** ** The dispatch boundary *)

Import Server.

Section DispatchFacts.

Variable TOOL_HANDLERS : list (string * handler).
Variables summary_tool activity_tool workday_tool report_tool : handler.

Let standup := Standup.handle_call_tool summary_tool activity_tool
                 workday_tool report_tool.

Lemma try_except_returns (body : outcome) (recover : string -> outcome) :
  (forall e, exists blocks, recover e = Returns blocks) ->
  exists blocks, try_except body recover = Returns blocks.
Proof.
  intros H. destruct body as [blocks|e]; simpl; eauto.
Qed.

Lemma mise_call_tool_returns (name : string) (arguments : dict) :
  exists blocks, Mise.call_tool TOOL_HANDLERS name arguments = Returns blocks.
Proof.
  apply try_except_returns. intros e. eauto.
Qed.

Lemma standup_call_tool_returns (name : string) (arguments : option dict) :
  exists blocks, standup name arguments = Returns blocks.
Proof.
  apply try_except_returns. intros e. eauto.
Qed.

Lemma standup_unknown (name : string) (arguments : option dict) :
  name <> "get_standup_summary" ->
  name <> "get_github_activity" ->
  name <> "get_workday_date" ->
  name <> "format_standup_report" ->
  standup name arguments
  = Returns [mkText "text" ("Error: Unknown tool: " ++ name)].
Proof.
  intros H1 H2 H3 H4. unfold standup, Standup.handle_call_tool.
  apply String.eqb_neq in H1, H2, H3, H4.
  rewrite H1, H2, H3, H4. reflexivity.
Qed.

End DispatchFacts.

(** C9: at the dispatch boundary of both services a call always returns
    a list of blocks, never an exception; an unknown name yields exactly one
    text block that names it, and an exception raised by the selected handler
    yields exactly one text block that carries its message. *)
Theorem dispatch_never_raises :
  forall (TOOL_HANDLERS : list (string * handler))
         (summary_tool activity_tool workday_tool report_tool : handler)
         (name : string) (arguments : dict),
    let mise := Mise.call_tool TOOL_HANDLERS in
    let standup :=
      Standup.handle_call_tool summary_tool activity_tool workday_tool
        report_tool in
    (exists blocks, mise name arguments = Returns blocks)
    /\ (Mise.lookup TOOL_HANDLERS name = None ->
        mise name arguments
        = Returns [mkText "text" ("Unknown tool: " ++ name)])
    /\ (forall (h : handler) (e : string),
          Mise.lookup TOOL_HANDLERS name = Some h ->
          h arguments = Raises e ->
          mise name arguments
          = Returns [mkText "text" ("Error executing " ++ name ++ ": " ++ e)])
    /\ (forall args, exists blocks, standup name args = Returns blocks)
    /\ (forall args,
          ~ In name ["get_standup_summary"; "get_github_activity";
                     "get_workday_date"; "format_standup_report"] ->
          standup name args
          = Returns [mkText "text" ("Error: Unknown tool: " ++ name)])
    /\ (forall e,
          (summary_tool arguments = Raises e ->
           standup "get_standup_summary" (Some arguments)
           = Returns [mkText "text" ("Error: " ++ e)])
          /\ (activity_tool arguments = Raises e ->
              standup "get_github_activity" (Some arguments)
              = Returns [mkText "text" ("Error: " ++ e)])
          /\ (workday_tool arguments = Raises e ->
              standup "get_workday_date" (Some arguments)
              = Returns [mkText "text" ("Error: " ++ e)])
          /\ (report_tool arguments = Raises e ->
              standup "format_standup_report" (Some arguments)
              = Returns [mkText "text" ("Error: " ++ e)])).
Proof.
  intros handlers t1 t2 t3 t4 name arguments mise standup.
  split; [apply mise_call_tool_returns|].
  split.
  { intros E. unfold mise, Mise.call_tool. rewrite E. reflexivity. }
  split.
  { intros h e E R. unfold mise, Mise.call_tool. rewrite E, R. reflexivity. }
  split; [intros args; apply standup_call_tool_returns|].
  split.
  { intros args N. apply standup_unknown; intros ->; apply N; simpl; tauto. }
  intros e. unfold standup, Standup.handle_call_tool. simpl.
  repeat split; intros R; rewrite R; reflexivity.
Qed.

(** The two unknown-tool cases of the test suites. *)
Example mise_unknown_tool :
  Mise.call_tool [("mise_list", fun _ => Returns [])] "unknown_tool" []
  = Returns [mkText "text" "Unknown tool: unknown_tool"].
Proof. reflexivity. Qed.

Example standup_handler_exception :
  Standup.handle_call_tool (fun _ => Raises "API Error") (fun _ => Returns [])
    (fun _ => Returns []) (fun _ => Returns []) "get_standup_summary" None
  = Returns [mkText "text" "Error: API Error"].
Proof. reflexivity. Qed.

(** ** The classifier *)

Section ClassifierFacts.

Definition is_list (v : option value) : Prop :=
  exists items, v = Some (VList items).

Definition has_three_keys (info : dict) : Prop :=
  is_list (dict_get info "links")
  /\ is_list (dict_get info "details")
  /\ is_list (dict_get info "commits").

Lemma initial_has_three_keys :
  has_three_keys
    [("links", VList []); ("details", VList []); ("commits", VList [])].
Proof. repeat split; eexists; reflexivity. Qed.

End ClassifierFacts.

(** C8: whatever the type of the raw event, recognized or not, the
    mapping the classifier returns binds [links], [details] and [commits],
    each to a list. *)
Theorem process_event_has_three_keys :
  forall (event : GitHubEvent) (seen : seen_set),
    has_three_keys (fst (_process_event event seen)).
Proof.
  intros event seen. unfold _process_event.
  destruct (String.eqb (event_type event) "PushEvent").
  { unfold _process_push_event.
    destruct (unique_commits _ _ _) as [unique seen'].
    repeat split; eexists; reflexivity. }
  destruct (String.eqb (event_type event) "PullRequestEvent").
  { repeat split; eexists; reflexivity. }
  destruct (String.eqb (event_type event) "IssueCommentEvent").
  { repeat split; eexists; reflexivity. }
  destruct (String.eqb (event_type event) "PullRequestReviewEvent").
  { repeat split; eexists; reflexivity. }
  destruct (String.eqb (event_type event) "CreateEvent"
            || String.eqb (event_type event) "DeleteEvent").
  { repeat split; eexists; reflexivity. }
  apply initial_has_three_keys.
Qed.

(** A ref event supplies only [details]; [links] and [commits] keep the
    empty lists of the initial mapping. *)
Example process_delete_event :
  fst (_process_event
         (mkEvent "DeleteEvent" "2024-07-23T10:00:00Z" "org/repo" "user"
            (mkPayload (Some "old") None None None None None None
               (Some "branch")) []) [])
  = [("links", VList []);
     ("details", VList [VStr "Deleted branch 'old'"]);
     ("commits", VList []);
     ("ref_type", VStr "branch");
     ("ref", VStr "old");
     ("action", VStr "deleted")].
Proof. reflexivity. Qed.


(** ** Commit deduplication within one fetch *)

Section Deduplication.

(** The commits a processed event carries in [processed_info["commits"]],
    and the key of each. *)
Definition emitted (info : dict) : list value :=
  match dict_get info "commits" with
  | Some (VList entries) => entries
  | _ => []
  end.

Definition entry_field (entry : value) (k : string) : string :=
  match entry with
  | VDict d =>
      match dict_get d k with
      | Some (VStr s) => s
      | _ => ""
      end
  | _ => ""
  end.

Definition entry_key (entry : value) : string :=
  commit_key (entry_field entry "message").

Definition emitted_keys (info : dict) : list string :=
  map entry_key (emitted info).

(** The commit list a raw event hands to the deduplication loop. *)
Definition event_commits (event : GitHubEvent) : list raw_commit :=
  if String.eqb (event_type event) "PushEvent"
  then get (commits (payload event)) []
  else [].

Definition stripped_message (c : raw_commit) : string :=
  strip (get (commit_message c) "").

Definition raw_key (c : raw_commit) : string :=
  commit_key (stripped_message c).

(** A commit the loop does not skip: its message and its hash are not
    empty. *)
Definition usable (c : raw_commit) : Prop :=
  stripped_message c <> "" /\ get (commit_sha c) "" <> "".

(** The events of a fetch, classified one after the other. *)
Fixpoint process_all (events : list GitHubEvent) (seen : seen_set)
  : list dict :=
  match events with
  | [] => []
  | event :: rest =>
      let '(info, seen') := _process_event event seen in
      info :: process_all rest seen'
  end.

Definition all_keys (infos : list dict) : list string :=
  concat (map emitted_keys infos).

Lemma seen_mem_In (k : string) (seen : seen_set) :
  seen_mem k seen = true <-> In k seen.
Proof.
  unfold seen_mem. rewrite existsb_exists. split.
  - intros [x [Hin Heq]]. apply String.eqb_eq in Heq. now subst.
  - intros Hin. exists k. split; [assumption | apply String.eqb_refl].
Qed.

Lemma seen_add_In (k k' : string) (seen : seen_set) :
  In k (seen_add k' seen) <-> k = k' \/ In k seen.
Proof.
  unfold seen_add. destruct (seen_mem k' seen) eqn:E.
  - apply seen_mem_In in E. split; [tauto | intros [-> | H]; assumption].
  - simpl. split; intros [H | H]; auto.
Qed.

Lemma entry_key_commit_entry (repo message sha : string) :
  entry_key (commit_entry repo message sha) = commit_key message.
Proof. reflexivity. Qed.

(** What one run of the deduplication loop guarantees. *)
Record loop_spec (repo : string) (cs : list raw_commit) (seen : seen_set)
  (unique : list value) (seen' : seen_set) : Prop := {
  loop_nodup : NoDup (map entry_key unique);
  loop_fresh : forall k, In k (map entry_key unique) -> ~ In k seen;
  loop_seen : forall k, In k seen' <-> In k seen \/ In k (map entry_key unique);
  loop_source :
    forall entry, In entry unique ->
      exists c, In c cs /\ usable c
                /\ entry = commit_entry repo (stripped_message c)
                             (get (commit_sha c) "");
  loop_recorded : forall c, In c cs -> usable c -> In (raw_key c) seen'
}.

Lemma unique_commits_spec (repo : string) (cs : list raw_commit) :
  forall seen unique seen',
    unique_commits repo cs seen = (unique, seen') ->
    loop_spec repo cs seen unique seen'.
Proof.
  induction cs as [|c rest IH]; intros seen unique seen' E; simpl in E.
  - inversion E; subst. constructor; simpl; try tauto; constructor.
  - fold (stripped_message c) in E.
    destruct (String.eqb (stripped_message c) "") eqn:Em.
    { simpl in E. destruct (IH _ _ _ E) as [H1 H2 H3 H4 H5].
      constructor; auto.
      - intros entry Hin. destruct (H4 entry Hin) as [c' [? ?]].
        exists c'. split; [now right | assumption].
      - intros c' [<- | Hin] Hu; [|now apply H5].
        destruct Hu as [Hm _]. apply String.eqb_eq in Em. contradiction. }
    destruct (String.eqb (get (commit_sha c) "") "") eqn:Es.
    { simpl in E. destruct (IH _ _ _ E) as [H1 H2 H3 H4 H5].
      constructor; auto.
      - intros entry Hin. destruct (H4 entry Hin) as [c' [? ?]].
        exists c'. split; [now right | assumption].
      - intros c' [<- | Hin] Hu; [|now apply H5].
        destruct Hu as [_ Hs]. apply String.eqb_eq in Es. contradiction. }
    simpl in E. apply String.eqb_neq in Em, Es.
    fold (raw_key c) in E.
    destruct (seen_mem (raw_key c) seen) eqn:Ek; simpl in E.
    + destruct (IH _ _ _ E) as [H1 H2 H3 H4 H5].
      constructor; auto.
      * intros entry Hin. destruct (H4 entry Hin) as [c' [? ?]].
        exists c'. split; [now right | assumption].
      * intros c' [<- | Hin] Hu; [|now apply H5].
        apply H3. left. now apply seen_mem_In.
    + destruct (unique_commits repo rest (seen_add (raw_key c) seen))
        as [unique0 seen0] eqn:E0.
      inversion E; subst; clear E.
      destruct (IH _ _ _ E0) as [H1 H2 H3 H4 H5].
      assert (Hk : ~ In (raw_key c) seen).
      { intros Hin. apply seen_mem_In in Hin. congruence. }
      constructor; simpl; rewrite ?entry_key_commit_entry.
      * constructor; [|assumption].
        intros Hin. apply (H2 _ Hin). apply seen_add_In. now left.
      * intros k [<- | Hin]; [assumption|].
        intros Hs. apply (H2 _ Hin). apply seen_add_In. now right.
      * intros k. rewrite H3, seen_add_In. unfold raw_key.
        split; [intros [[-> | ?] | ?] | intros [? | [<- | ?]]]; auto.
      * intros entry [<- | Hin].
        -- exists c. repeat split; auto.
        -- destruct (H4 entry Hin) as [c' [? ?]]. exists c'.
           split; [now right | assumption].
      * intros c' [<- | Hin] Hu; [|now apply H5].
        apply H3. left. apply seen_add_In. now left.
Qed.

(** Every branch of the classifier but the push branch leaves the set
    alone and emits no commit. *)
Lemma process_event_emits (event : GitHubEvent) (seen : seen_set) :
  (emitted (fst (_process_event event seen)), snd (_process_event event seen))
  = unique_commits (repo event) (event_commits event) seen.
Proof.
  unfold _process_event, event_commits.
  destruct (String.eqb (event_type event) "PushEvent").
  { unfold _process_push_event.
    destruct (unique_commits _ _ _) as [unique seen']. reflexivity. }
  destruct (String.eqb (event_type event) "PullRequestEvent");
    [reflexivity|].
  destruct (String.eqb (event_type event) "IssueCommentEvent");
    [reflexivity|].
  destruct (String.eqb (event_type event) "PullRequestReviewEvent");
    [reflexivity|].
  destruct (String.eqb (event_type event) "CreateEvent"
            || String.eqb (event_type event) "DeleteEvent");
    reflexivity.
Qed.

Lemma process_event_spec (event : GitHubEvent) (seen : seen_set) :
  loop_spec (repo event) (event_commits event) seen
    (emitted (fst (_process_event event seen)))
    (snd (_process_event event seen)).
Proof.
  apply unique_commits_spec. symmetry. apply process_event_emits.
Qed.

Lemma process_all_cons (event : GitHubEvent) (rest : list GitHubEvent)
  (seen : seen_set) :
  process_all (event :: rest) seen
  = fst (_process_event event seen)
    :: process_all rest (snd (_process_event event seen)).
Proof.
  simpl. destruct (_process_event event seen). reflexivity.
Qed.

(** No key of a fetch is emitted when it is already in the set, and no
    key is emitted twice. *)
Lemma process_all_fresh (events : list GitHubEvent) :
  forall seen,
    NoDup (all_keys (process_all events seen))
    /\ forall k, In k (all_keys (process_all events seen)) -> ~ In k seen.
Proof.
  induction events as [|event rest IH]; intros seen.
  - split; [constructor | intros k []].
  - rewrite process_all_cons. unfold all_keys. simpl.
    fold (all_keys (process_all rest (snd (_process_event event seen)))).
    destruct (process_event_spec event seen) as [H1 H2 H3 H4 H5].
    destruct (IH (snd (_process_event event seen))) as [N F].
    unfold emitted_keys.
    split.
    + apply NoDup_app; [assumption | assumption |].
      intros k Hin Hin'. apply (F k Hin'). apply H3. now right.
    + intros k Hin Hs. apply in_app_or in Hin. destruct Hin as [Hin | Hin].
      * now apply (H2 k).
      * apply (F k Hin). apply H3. now left.
Qed.

(** A usable commit's key is in the set once its event is processed, and
    was then kept by that event or an earlier one. *)
Lemma process_all_recorded (events : list GitHubEvent) :
  forall seen i event c,
    nth_error events i = Some event ->
    In c (event_commits event) -> usable c ->
    In (raw_key c) seen
    \/ In (raw_key c) (all_keys (firstn (S i) (process_all events seen))).
Proof.
  induction events as [|e rest IH]; intros seen i event c Hn Hc Hu.
  - destruct i; discriminate.
  - rewrite process_all_cons.
    destruct (process_event_spec e seen) as [H1 H2 H3 H4 H5].
    destruct i as [|i]; simpl in Hn.
    + inversion Hn; subst. apply (H5 c Hc) in Hu. apply H3 in Hu.
      destruct Hu as [Hs | Hk]; [now left | right].
      unfold all_keys. simpl. rewrite app_nil_r. exact Hk.
    + destruct (IH (snd (_process_event e seen)) i event c Hn Hc Hu)
        as [Hs | Hk].
      * apply H3 in Hs. destruct Hs as [Hs | Hk]; [now left | right].
        unfold all_keys. simpl. apply in_or_app. now left.
      * right. unfold all_keys in *. simpl. apply in_or_app. now right.
Qed.

(** Once an event held a usable commit, no later event of the fetch emits
    a commit with that key. *)
Lemma process_all_repeated (events : list GitHubEvent) :
  forall seen i j event info c,
    (i < j)%nat ->
    nth_error events i = Some event ->
    nth_error (process_all events seen) j = Some info ->
    In c (event_commits event) -> usable c ->
    ~ In (raw_key c) (emitted_keys info).
Proof.
  induction events as [|e rest IH]; intros seen i j event info c Hij Hi Hj Hc Hu.
  - destruct i; discriminate.
  - rewrite process_all_cons in Hj.
    destruct j as [|j]; [lia|]. simpl in Hj.
    destruct i as [|i]; simpl in Hi.
    + inversion Hi; subst.
      destruct (process_event_spec event seen) as [H1 H2 H3 H4 H5].
      pose proof (H5 c Hc Hu) as Hs.
      destruct (process_all_fresh rest (snd (_process_event event seen)))
        as [_ F].
      intros Hin. apply (F (raw_key c)); [|exact Hs].
      unfold all_keys. apply in_concat. exists (emitted_keys info).
      split; [|exact Hin]. apply in_map. eapply nth_error_In; eauto.
    + apply (IH (snd (_process_event e seen)) i j event info c); auto. lia.
Qed.

End Deduplication.

(** C1: in a fetch, which starts from the cleared set, no commit key is
    emitted twice, whatever the hashes; an event emits no commit whose key
    an earlier event of the fetch already produced, so the first event that
    produces a key is the one that keeps its commit; every emitted commit
    comes from a commit of its event with a non-empty message and a
    non-empty hash, so commits with an empty message or hash are skipped. *)
Theorem commit_deduplication_within_fetch :
  forall (events : list GitHubEvent),
    let infos := process_all events [] in
    NoDup (all_keys infos)
    /\ (forall i j event info c,
          (i < j)%nat ->
          nth_error events i = Some event ->
          nth_error infos j = Some info ->
          In c (event_commits event) -> usable c ->
          ~ In (raw_key c) (emitted_keys info))
    /\ (forall i event c,
          nth_error events i = Some event ->
          In c (event_commits event) -> usable c ->
          In (raw_key c) (all_keys (firstn (S i) infos)))
    /\ (forall i event info entry,
          nth_error events i = Some event ->
          nth_error infos i = Some info ->
          In entry (emitted info) ->
          exists c, In c (event_commits event) /\ usable c
                    /\ entry = commit_entry (repo event) (stripped_message c)
                                 (get (commit_sha c) "")).
Proof.
  intros events infos. unfold infos.
  split; [apply process_all_fresh|].
  split; [apply process_all_repeated|].
  split.
  - intros i event c Hn Hc Hu.
    destruct (process_all_recorded events [] i event c Hn Hc Hu) as [[] | H].
    exact H.
  - generalize (@nil string) as seen.
    induction events as [|e rest IH]; intros seen i event info entry Hi Hj Hin.
    + destruct i; discriminate.
    + rewrite process_all_cons in Hj. destruct i as [|i]; simpl in Hi, Hj.
      * inversion Hi; inversion Hj; subst.
        destruct (process_event_spec event seen) as [H1 H2 H3 H4 H5].
        now apply H4.
      * eapply IH; eauto.
Qed.

(** The force-push scenario of the test suite: the same message under
    another hash contributes no commit to the second event. *)
Example commit_deduplication_force_push :
  map emitted_keys
    (process_all
       [mkEvent "PushEvent" "2024-07-23T10:00:00Z" "test_org/repo1" "testuser"
          (mkPayload (Some "refs/heads/main") (Some 1%Z)
             (Some [mkCommit (Some "Test commit") (Some "abc123def456")])
             None None None None None) [];
        mkEvent "PushEvent" "2024-07-23T11:00:00Z" "test_org/repo1" "testuser"
          (mkPayload (Some "refs/heads/main") (Some 1%Z)
             (Some [mkCommit (Some "Test commit") (Some "def456ghi789");
                    mkCommit (Some "") (Some "0123456789")])
             None None None None None) []] [])
  = [["test_commit"]; []].
Proof. reflexivity. Qed.

(** *** The events of a fetch are classified one after the other *)

Section FetchFacts.

(** An event as the adapters build it, before it is classified. *)
Definition unprocessed (e : GitHubEvent) : GitHubEvent :=
  mkEvent (event_type e) (created_at e) (repo e) (actor e) (payload e) [].

(** The set after the events are classified from [seen]. *)
Definition seen_after (events : list GitHubEvent) (seen : seen_set)
  : seen_set :=
  fold_left (fun s e => snd (_process_event e s)) events seen.

(** [events] carry what classifying them in turn from [seen] yields, and
    that leaves the set [seen']. *)
Definition classified (seen : seen_set) (events : list GitHubEvent)
  (seen' : seen_set) : Prop :=
  map processed_info events = process_all (map unprocessed events) seen
  /\ seen' = seen_after (map unprocessed events) seen.

Lemma process_all_app (first second : list GitHubEvent) :
  forall seen,
    process_all (first ++ second) seen
    = (process_all first seen
       ++ process_all second (seen_after first seen))%list.
Proof.
  induction first as [|e first IH]; intros seen; [reflexivity|].
  rewrite <- app_comm_cons, !process_all_cons, IH. reflexivity.
Qed.

Lemma classified_nil (seen : seen_set) : classified seen [] seen.
Proof. split; reflexivity. Qed.

Lemma classified_app (seen seen1 seen2 : seen_set)
  (first second : list GitHubEvent) :
  classified seen first seen1 -> classified seen1 second seen2 ->
  classified seen (first ++ second) seen2.
Proof.
  intros [H1 S1] [H2 S2]. unfold classified.
  rewrite !map_app, process_all_app. unfold seen_after.
  rewrite fold_left_app. fold (seen_after (map unprocessed first) seen).
  rewrite <- S1. split; [now rewrite H1, H2 | exact S2].
Qed.

Lemma classified_one (event_type created_at repo actor : string)
  (payload : raw_payload) (seen : seen_set) :
  let github_event := mkEvent event_type created_at repo actor payload [] in
  classified seen
    [mkEvent event_type created_at repo actor payload
       (fst (_process_event github_event seen))]
    (snd (_process_event github_event seen)).
Proof.
  intros github_event. unfold classified. cbn [map unprocessed].
  rewrite process_all_cons. split; reflexivity.
Qed.

Variable api : list request -> request -> response.

Lemma scan_repo_page_classified (username : option string)
  (start_time end_time repo : string) (data : list raw_event) :
  forall filtered seen returned filtered' seen',
    scan_repo_page username start_time end_time repo data filtered seen
    = (returned, filtered', seen') ->
    exists new,
      filtered' = (filtered ++ new)%list /\ classified seen new seen'.
Proof.
  induction data as [|event_data rest IH];
    intros filtered seen returned filtered' seen' E; cbn [scan_repo_page] in E.
  - injection E as _ <- <-. exists []. rewrite app_nil_r.
    split; [reflexivity | apply classified_nil].
  - cbv zeta in E.
    destruct (negb (String.leb start_time (get (ev_created_at event_data) "")
                    && String.leb (get (ev_created_at event_data) "")
                         end_time)).
    { destruct (String.ltb (get (ev_created_at event_data) "") start_time);
        [|exact (IH _ _ _ _ _ E)].
      injection E as _ <- <-. exists []. rewrite app_nil_r.
      split; [reflexivity | apply classified_nil]. }
    destruct (str_truthy username
              && negb (_matches_username
                         (get (ev_actor_login event_data) "")
                         (get username "")));
      [exact (IH _ _ _ _ _ E)|].
    pose proof (classified_one (get (ev_type event_data) "")
                  (get (ev_created_at event_data) "") repo
                  (get (ev_actor_login event_data) "")
                  (get (ev_payload event_data) empty_payload) seen) as Hone.
    cbv zeta in Hone. revert E Hone.
    destruct (_process_event _ seen) as [info seen1]. cbn [fst snd].
    intros E Hone.
    destruct (IH _ _ _ _ _ E) as [new [Hf Hc]].
    eexists. rewrite <- app_assoc in Hf. split; [exact Hf|].
    exact (classified_app _ _ _ _ _ Hone Hc).
Qed.

Lemma repo_pages_classified (username : option string)
  (start_time end_time : string) (on_bad_body : option exn) (repo : string) :
  forall fuel page events svc found svc',
    repo_pages api username start_time end_time on_bad_body repo fuel page
      events svc = (Ok found, svc') ->
    exists new,
      found = (events ++ new)%list
      /\ classified (_seen_commits svc) new (_seen_commits svc').
Proof.
  assert (Hnone : forall (events found : list GitHubEvent)
                         (svc svc' : service) (r : request),
             (Ok events, log_request svc r) = (Ok found, svc') ->
             exists new,
               found = (events ++ new)%list
               /\ classified (_seen_commits svc) new (_seen_commits svc')).
  { intros events found svc svc' r E. injection E as <- <-.
    exists []. rewrite app_nil_r.
    split; [reflexivity | apply classified_nil]. }
  induction fuel as [|fuel IH]; intros page events svc found svc' E;
    cbn [repo_pages] in E; [discriminate|].
  cbv zeta in E.
  destruct (page <=? 50)%nat.
  2:{ injection E as <- <-. exists []. rewrite app_nil_r.
      split; [reflexivity | apply classified_nil]. }
  destruct (api (requests svc) (RepoEvents repo page)) as [| |data].
  - exact (Hnone _ _ _ _ _ E).
  - destruct on_bad_body; [discriminate | exact (Hnone _ _ _ _ _ E)].
  - destruct data as [|record more]; [exact (Hnone _ _ _ _ _ E)|].
    destruct (scan_repo_page username start_time end_time repo
                (record :: more) []
                (_seen_commits (log_request svc (RepoEvents repo page))))
      as [[returned filtered] seen1] eqn:Es.
    apply scan_repo_page_classified in Es.
    destruct Es as [new [Hf Hc]]. cbn [app] in Hf. subst filtered.
    cbn [log_request _seen_commits] in Hc.
    assert (Hstop : forall stopped,
               (Ok (events ++ new)%list,
                with_seen (log_request svc (RepoEvents repo page)) seen1)
               = (Ok stopped, svc') ->
               exists new',
                 stopped = (events ++ new')%list
                 /\ classified (_seen_commits svc) new' (_seen_commits svc')).
    { intros stopped Ei. injection Ei as <- <-. exists new.
      split; [reflexivity | exact Hc]. }
    destruct returned; [exact (Hstop _ E)|].
    destruct (List.length (record :: more) <? 100)%nat; [exact (Hstop _ E)|].
    destruct (String.ltb (last_created_at (record :: more)) start_time);
      [exact (Hstop _ E)|].
    destruct (IH _ _ _ _ _ E) as [new' [Hf' Hc']].
    cbn [with_seen _seen_commits] in Hc'.
    exists (new ++ new')%list. rewrite app_assoc. split; [exact Hf'|].
    exact (classified_app _ _ _ _ _ Hc Hc').
Qed.

Lemma fetch_repos_classified (username : option string)
  (start_time end_time : string) (on_bad_body : option exn)
  (repos : list string) :
  forall events svc found svc',
    fetch_repos api username start_time end_time on_bad_body repos events svc
    = (Ok found, svc') ->
    exists new,
      found = (events ++ new)%list
      /\ classified (_seen_commits svc) new (_seen_commits svc').
Proof.
  induction repos as [|repo rest IH]; intros events svc found svc' E;
    cbn [fetch_repos] in E.
  - injection E as <- <-. exists []. rewrite app_nil_r.
    split; [reflexivity | apply classified_nil].
  - destruct (GitHub._get_repo_events api username start_time end_time
                on_bad_body repo svc) as [[got|e] svc1] eqn:Eg;
      [|discriminate].
    apply repo_pages_classified in Eg. destruct Eg as [new [Hg Hc]].
    cbn [app] in Hg. subst got.
    destruct (IH _ _ _ _ E) as [new' [Hf' Hc']].
    exists (new ++ new')%list. rewrite app_assoc. split; [exact Hf'|].
    exact (classified_app _ _ _ _ _ Hc Hc').
Qed.

(** What the HTTP adapter returns: the events fetched, sorted, which were
    classified one after the other from the cleared set. *)
Lemma http_get_activity_classified
  (github_org GITHUB_REPOS : option string) (org_repos : list string)
  (target_date : datetime) (username : option string)
  (repos : option (list string)) (svc svc' : service)
  (github_activity : GitHubActivity) :
  Http.get_activity api github_org GITHUB_REPOS org_repos target_date
    username repos svc = (Ok github_activity, svc') ->
  exists fetched,
    events github_activity = sort_events fetched
    /\ classified [] fetched (_seen_commits svc').
Proof.
  unfold Http.get_activity, Http.fetch. cbv zeta.
  destruct (get_utc_date_range target_date) as [[start_time end_time]|];
    [|discriminate].
  assert (Hfetch : forall rs,
    match fetch_repos api username start_time end_time (Some JSONDecodeError)
            rs [] (clear_seen svc) with
    | (Ok events, svc1) =>
        (finish_activity target_date username repos events, svc1)
    | (Raise e, svc1) => (Raise e, svc1)
    end = (Ok github_activity, svc') ->
    exists fetched,
      events github_activity = sort_events fetched
      /\ classified [] fetched (_seen_commits svc')).
  { intros rs E.
    destruct (fetch_repos api username start_time end_time
                (Some JSONDecodeError) rs [] (clear_seen svc))
      as [[found|e] svc1] eqn:Ef; [|discriminate].
    apply fetch_repos_classified in Ef. destruct Ef as [new [Hf Hc]].
    cbn [app] in Hf. subst found. cbn [clear_seen _seen_commits] in Hc.
    unfold finish_activity in E. cbv zeta in E.
    destruct (_generate_summary (sort_events new)); [|discriminate].
    cbn [bind] in E. injection E as <- <-.
    exists new. split; [reflexivity | exact Hc]. }
  destruct (list_truthy repos); [apply Hfetch|].
  destruct (str_truthy github_org); [apply Hfetch|].
  destruct (str_truthy GITHUB_REPOS); [apply Hfetch | discriminate].
Qed.

Lemma insert_event_permutation (e : GitHubEvent)
  (sorted : list GitHubEvent) :
  Permutation (insert_event e sorted) (e :: sorted).
Proof.
  induction sorted as [|e' rest IH]; cbn [insert_event]; [reflexivity|].
  destruct (String.leb (created_at e) (created_at e')); [reflexivity|].
  rewrite IH. apply perm_swap.
Qed.

Lemma sort_events_permutation (events : list GitHubEvent) :
  Permutation (sort_events events) events.
Proof.
  induction events as [|e rest IH]; [constructor|].
  unfold sort_events in *. cbn [fold_right].
  rewrite insert_event_permutation. now constructor.
Qed.

(** In what the HTTP adapter returns no commit key occurs twice. *)
Lemma http_get_activity_distinct_keys
  (github_org GITHUB_REPOS : option string) (org_repos : list string)
  (target_date : datetime) (username : option string)
  (repos : option (list string)) (svc svc' : service)
  (github_activity : GitHubActivity) :
  Http.get_activity api github_org GITHUB_REPOS org_repos target_date
    username repos svc = (Ok github_activity, svc') ->
  NoDup (all_keys (map processed_info (events github_activity))).
Proof.
  intros E. apply http_get_activity_classified in E.
  destruct E as [fetched [He [Hc _]]].
  assert (N : NoDup (all_keys (map processed_info fetched))).
  { rewrite Hc. apply process_all_fresh. }
  revert N. unfold all_keys. rewrite He, !map_map, <- !flat_map_concat_map.
  apply Permutation_NoDup. apply Permutation_flat_map. symmetry.
  apply sort_events_permutation.
Qed.

End FetchFacts.


(** ** Pagination of repository events *)

Section PaginationFacts.

Variable api : list request -> request -> response.
Variable username : option string.
Variables start_time end_time : string.
Variable on_bad_body : option exn.
Variable repo : string.

(** The requests for the [n] pages from [page] on. *)
Definition page_requests (page n : nat) : list request :=
  map (RepoEvents repo) (seq page n).

(** The answer to the [k]-th request of a run that starts at [page] with
    the log [log] is a page whose last record is older than the window. *)
Definition past_window (log : list request) (page k : nat) : Prop :=
  match api (log ++ page_requests page k) (RepoEvents repo (page + k)) with
  | Body (record :: more) =>
      String.ltb (last_created_at (record :: more)) start_time = true
  | _ => False
  end.

Lemma page_requests_succ (page n : nat) :
  page_requests page (S n) = RepoEvents repo page :: page_requests (S page) n.
Proof. reflexivity. Qed.

Lemma past_window_shift (log : list request) (page k : nat) :
  past_window log page (S k)
  <-> past_window (log ++ [RepoEvents repo page]) (S page) k.
Proof.
  unfold past_window. rewrite page_requests_succ.
  rewrite <- app_assoc. simpl.
  replace (page + S k)%nat with (S (page + k)) by lia. reflexivity.
Qed.

(** The adapters pass a Python exception or none. *)
Hypothesis bad_body_is_python : on_bad_body <> Some OutOfFuel.

(** What a run of the page loop from [page] with the log [log] leads to:
    a result other than fuel exhaustion, requests for [n] consecutive pages
    that end at page 50 at the latest, and no request after a page whose
    last record is older than the window. *)
Definition run_ok (log : list request) (page : nat)
  (r : result (list GitHubEvent) * service) : Prop :=
  fst r <> Raise OutOfFuel
  /\ exists n,
       requests (snd r) = (log ++ page_requests page n)%list
       /\ (n = 0 \/ page + n <= 51)%nat
       /\ forall k, (k < n)%nat -> past_window log page k -> S k = n.

Lemma run_ok_none (page : nat) (events : list GitHubEvent) (svc : service) :
  run_ok (requests svc) page (Ok events, svc).
Proof.
  split; [discriminate|]. exists 0%nat. simpl.
  rewrite app_nil_r. repeat split; auto. intros k Hk. lia.
Qed.

Lemma run_ok_one (page : nat) (log : list request)
  (outcome : result (list GitHubEvent)) (svc : service) :
  (page <= 50)%nat ->
  outcome <> Raise OutOfFuel ->
  requests svc = (log ++ [RepoEvents repo page])%list ->
  run_ok log page (outcome, svc).
Proof.
  intros Hp Ho Hr. split; [exact Ho|]. exists 1%nat. simpl.
  repeat split; auto; [right; lia | intros k Hk _; lia].
Qed.

Lemma run_ok_more (page : nat) (log : list request)
  (r : result (list GitHubEvent) * service) :
  (page <= 50)%nat ->
  ~ past_window log page 0 ->
  run_ok (log ++ [RepoEvents repo page]) (S page) r ->
  run_ok log page r.
Proof.
  intros Hp Hnot [Ho [n [Hr [Hn Hk]]]]. split; [exact Ho|].
  exists (S n). rewrite page_requests_succ.
  rewrite <- app_assoc in Hr. simpl in Hr.
  split; [exact Hr|]. split.
  - right. destruct Hn as [-> | Hn]; lia.
  - intros [|k] Hlt Hw; [contradiction|].
    apply past_window_shift in Hw. f_equal. apply Hk; [lia | exact Hw].
Qed.

(** One run of the page loop, started with more fuel than pages left. *)
Lemma repo_pages_run_ok :
  forall fuel page events svc,
    (51 - page < fuel)%nat ->
    run_ok (requests svc) page
      (repo_pages api username start_time end_time on_bad_body repo fuel page
         events svc).
Proof.
  induction fuel as [|fuel IH]; intros page events svc Hfuel; [lia|].
  simpl.
  destruct (Nat.leb_spec page 50) as [Hle | Hgt]; [|apply run_ok_none].
  destruct (api (requests svc) (RepoEvents repo page)) as [| |data] eqn:Ea.
  - apply run_ok_one; auto. discriminate.
  - destruct on_bad_body as [e|] eqn:Eb.
    + apply run_ok_one; auto. intros E. apply bad_body_is_python. congruence.
    + apply run_ok_one; auto. discriminate.
  - destruct data as [|record more]; [apply run_ok_one; auto; discriminate|].
    destruct (scan_repo_page username start_time end_time repo
                (record :: more) [] (_seen_commits svc))
      as [[returned filtered] seen'].
    destruct returned; [apply run_ok_one; auto; discriminate|].
    destruct (Nat.ltb_spec (List.length (record :: more)) 100);
      [apply run_ok_one; auto; discriminate|].
    destruct (String.ltb (last_created_at (record :: more)) start_time)
      eqn:El; [apply run_ok_one; auto; discriminate|].
    apply run_ok_more; auto.
    + unfold past_window. simpl. rewrite app_nil_r, Nat.add_0_r, Ea.
      rewrite El. discriminate.
    + apply (IH (S page) _
               (with_seen (log_request svc (RepoEvents repo page)) seen')).
      lia.
Qed.

End PaginationFacts.

(** C6: for every repository and every behaviour of the external source,
    in both adapters, [_get_repo_events] returns after asking for the pages
    1 to [n] in turn with [n <= 50], and a page whose last record is older
    than the start of the window is the last page it asks for. *)
Theorem repo_event_pagination_is_bounded :
  forall (api : list request -> request -> response)
         (repo : string) (username : option string)
         (start_time end_time : string) (svc : service),
    let bounded (run : result (list GitHubEvent) * service) :=
      fst run <> Raise OutOfFuel
      /\ exists n,
           requests (snd run)
           = (requests svc ++ map (RepoEvents repo) (seq 1 n))%list
           /\ (n <= 50)%nat
           /\ forall k, (k < n)%nat ->
                        past_window api start_time repo (requests svc) 1 k ->
                        S k = n in
    bounded (Http._get_repo_events api repo username start_time end_time svc)
    /\ bounded (Cli._get_repo_events api repo username start_time end_time
                  svc).
Proof.
  intros api repo username start_time end_time svc bounded.
  assert (H : forall on_bad_body,
             on_bad_body <> Some OutOfFuel ->
             bounded (GitHub._get_repo_events api username start_time
                        end_time on_bad_body repo svc)).
  { intros b Hb.
    destruct (repo_pages_run_ok api username start_time end_time b repo Hb
                51 1 [] svc ltac:(lia)) as [Ho [n [Hr [Hn Hk]]]].
    split; [exact Ho|]. exists n. repeat split; auto.
    destruct Hn as [-> | Hn]; lia. }
  split; apply H; discriminate.
Qed.


(** A source that never runs dry: every page holds a hundred records of
    the window.  The loop stops after page 50. *)
Example endless_source_stops_at_page_50 :
  let record :=
    mkRaw (Some "WatchEvent") (Some "2024-07-23T10:00:00Z") (Some "user")
      None None in
  let api := fun (_ : list request) (_ : request) =>
               Body (List.repeat record 100) in
  let run :=
    Http._get_repo_events api "org/repo" None "2024-07-23T00:00:00Z"
      "2024-07-24T07:59:59Z" (mkService [] []) in
  requests (snd run) = map (RepoEvents "org/repo") (seq 1 50)
  /\ option_map (@List.length GitHubEvent)
       (match fst run with Ok events => Some events | Raise _ => None end)
     = Some 5000%nat.
Proof. vm_compute. split; reflexivity. Qed.

(** ** The precedence of repository sources *)

Section SourcePrecedence.

(** Where the repositories of a fetch come from. *)
Inductive source : Type :=
| ExplicitRepos (repos : list string)
| ConfiguredRepos (repos : list string)
| OrgListing (repos : list string)
| UserRepos (repos : list string)
| UserFeed (username : string).

(** The first candidate that is available. *)
Fixpoint first_available {A : Type} (candidates : list (option A))
  : option A :=
  match candidates with
  | [] => None
  | Some a :: _ => Some a
  | None :: rest => first_available rest
  end.

Variable api : list request -> request -> response.
Variables github_org github_repos current_user : option string.
Variable org_repos : list string.
Variable user_repos : string -> list string.

Definition explicit_candidate (repos : option (list string)) : option source :=
  if list_truthy repos
  then Some (ExplicitRepos (stripped_nonblank (get repos [])))
  else None.

Definition configured_candidate : option source :=
  if str_truthy github_repos
  then Some (ConfiguredRepos (configured_repos (get github_repos "")))
  else None.

Definition org_candidate : option source :=
  if str_truthy github_org then Some (OrgListing org_repos) else None.

Definition user_repos_candidate (username : string) : option source :=
  match user_repos username with
  | [] => None
  | found => Some (UserRepos found)
  end.

(** Modelled from the spec: the precedence the specification states for
    both adapters, with the last two sources for the CLI adapter only. *)
Definition stated_candidates (cli : bool) (repos : option (list string))
  (username : string) : list (option source) :=
  [explicit_candidate repos; configured_candidate; org_candidate]
  ++ (if cli then [user_repos_candidate username; Some (UserFeed username)]
      else []).

(** The precedence of the CLI adapter. *)
Definition cli_candidates (repos : option (list string)) (username : string)
  : list (option source) :=
  [explicit_candidate repos; configured_candidate; org_candidate;
   user_repos_candidate username; Some (UserFeed username)].

(** The precedence of the HTTP adapter: the organization comes before the
    configured list. *)
Definition http_candidates (repos : option (list string))
  : list (option source) :=
  [explicit_candidate repos; org_candidate; configured_candidate].

(** Fetching from a selected source with the CLI adapter: a configured,
    organization or user listing without any repository is a configuration
    error. *)
Definition cli_fetch_from (selected : option source)
  (username : option string) (start_time end_time : string) (svc : service)
  : result (list GitHubEvent) * service :=
  match selected with
  | Some (ExplicitRepos rs) =>
      Cli.fetch api username start_time end_time rs svc
  | Some (ConfiguredRepos rs) | Some (OrgListing rs) | Some (UserRepos rs) =>
      match rs with
      | [] => (Raise config_error, svc)
      | _ => Cli.fetch api username start_time end_time rs svc
      end
  | Some (UserFeed user) =>
      Cli._get_user_events api user start_time end_time svc
  | None => (Raise config_error, svc)
  end.

(** Fetching from a selected source with the HTTP adapter. *)
Definition http_fetch_from (selected : option source)
  (username : option string) (start_time end_time : string) (svc : service)
  : result (list GitHubEvent) * service :=
  match selected with
  | Some (ExplicitRepos rs) | Some (ConfiguredRepos rs)
  | Some (OrgListing rs) | Some (UserRepos rs) =>
      Http.fetch api username start_time end_time rs svc
  | Some (UserFeed _) | None => (Raise config_error, svc)
  end.

(** The tail of [get_activity] on the outcome of the fetch. *)
Definition finish (target_date : datetime) (username : option string)
  (repos : option (list string))
  (fetched : result (list GitHubEvent) * service)
  : result GitHubActivity * service :=
  match fetched with
  | (Ok events, svc') =>
      (finish_activity target_date username repos events, svc')
  | (Raise e, svc') => (Raise e, svc')
  end.

Lemma http_get_activity_precedence (target_date : datetime)
  (username : option string) (repos : option (list string)) (svc : service)
  (start_time end_time : string) :
  get_utc_date_range target_date = Some (start_time, end_time) ->
  Http.get_activity api github_org github_repos org_repos target_date
    username repos svc
  = finish target_date username repos
      (http_fetch_from (first_available (http_candidates repos)) username
         start_time end_time (clear_seen svc)).
Proof.
  intros Hr. unfold Http.get_activity. rewrite Hr.
  unfold http_candidates, explicit_candidate, org_candidate,
    configured_candidate, finish.
  destruct (list_truthy repos); [reflexivity|].
  destruct (str_truthy github_org); [reflexivity|].
  destruct (str_truthy github_repos); reflexivity.
Qed.

Lemma cli_get_activity_precedence (target_date : datetime)
  (username : option string) (user : string) (repos : option (list string))
  (svc : service) (start_time end_time : string) :
  (if str_truthy username then username else current_user) = Some user ->
  user <> "" ->
  get_utc_date_range target_date = Some (start_time, end_time) ->
  Cli.get_activity api github_org github_repos current_user org_repos
    user_repos target_date username repos svc
  = finish target_date (Some user) repos
      (cli_fetch_from (first_available (cli_candidates repos user))
         (Some user) start_time end_time (clear_seen svc)).
Proof.
  intros Hn Hu Hr. unfold Cli.get_activity.
  assert (Ht : str_truthy (Some user) = true).
  { simpl. apply String.eqb_neq in Hu. now rewrite Hu. }
  cbv zeta. rewrite Hn, Ht. cbn [negb]. cbv iota.
  rewrite Hr.
  unfold cli_candidates, explicit_candidate, org_candidate,
    configured_candidate, user_repos_candidate, finish.
  destruct (list_truthy repos); [reflexivity|]. cbn [negb]. cbv iota.
  destruct (str_truthy github_repos).
  { simpl. destruct (configured_repos (get github_repos "")); reflexivity. }
  destruct (str_truthy github_org).
  { simpl. destruct org_repos; reflexivity. }
  cbn [get]. destruct (user_repos user); reflexivity.
Qed.

End SourcePrecedence.


(** C4, as stated, fails for the HTTP adapter: with an organization and a
    repository list both configured and no [repos] argument, the stated
    precedence selects the configured list, and the adapter asks the
    organization's repository instead. *)
Lemma http_adapter_prefers_organization :
  let api := fun (_ : list request) (_ : request) => Body [] in
  first_available
    (stated_candidates (Some "acme") (Some "tools/cli") ["acme/site"]
       (fun _ => []) false None "")
  = Some (ConfiguredRepos ["tools/cli"])
  /\ requests
       (snd (Http.get_activity api (Some "acme") (Some "tools/cli")
               ["acme/site"] (mkDatetime 739090 0 0 0 0) None None
               (mkService [] [])))
     = [RepoEvents "acme/site" 1].
Proof. split; reflexivity. Qed.

(** C4, amended: each adapter fetches from the first available source of
    its own precedence.  For the CLI adapter that is the [repos] argument,
    the configured list, the organization's listing, the user's own
    repositories, the user's public feed; for the HTTP adapter it is the
    [repos] argument, the organization's listing, the configured list, and
    a configuration error when none is available. *)
Theorem repository_source_precedence :
  forall (api : list request -> request -> response)
         (github_org github_repos current_user : option string)
         (org_repos : list string) (user_repos : string -> list string)
         (target_date : datetime) (username : option string) (user : string)
         (repos : option (list string)) (svc : service)
         (start_time end_time : string),
    (if str_truthy username then username else current_user) = Some user ->
    user <> "" ->
    get_utc_date_range target_date = Some (start_time, end_time) ->
    Cli.get_activity api github_org github_repos current_user org_repos
      user_repos target_date username repos svc
    = finish target_date (Some user) repos
        (cli_fetch_from api
           (first_available
              (cli_candidates github_org github_repos org_repos user_repos
                 repos user))
           (Some user) start_time end_time (clear_seen svc))
    /\ Http.get_activity api github_org github_repos org_repos target_date
         username repos svc
       = finish target_date username repos
           (http_fetch_from api
              (first_available
                 (http_candidates github_org github_repos org_repos repos))
              username start_time end_time (clear_seen svc)).
Proof.
  intros. split.
  - now apply cli_get_activity_precedence.
  - now apply http_get_activity_precedence.
Qed.

(** The instance of C4 with both an organization and a list configured:
    the CLI adapter reads the list, the HTTP adapter the organization. *)
Lemma repository_source_precedence_witness :
  let api := fun (_ : list request) (_ : request) => Body [] in
  let date := mkDatetime 739090 0 0 0 0 in
  ((if str_truthy (Some "octocat") then Some "octocat" else None)
   = Some "octocat"
   /\ "octocat" <> ""
   /\ get_utc_date_range date
      = Some ("2024-07-23T00:00:00Z", "2024-07-24T07:59:59Z"))
  /\ Cli.get_activity api (Some "acme") (Some "tools/cli") None ["acme/site"]
       (fun _ => []) date (Some "octocat") None (mkService [] [])
     = finish date (Some "octocat") None
         (cli_fetch_from api
            (first_available
               (cli_candidates (Some "acme") (Some "tools/cli") ["acme/site"]
                  (fun _ => []) None "octocat"))
            (Some "octocat") "2024-07-23T00:00:00Z" "2024-07-24T07:59:59Z"
            (clear_seen (mkService [] [])))
  /\ Http.get_activity api (Some "acme") (Some "tools/cli") ["acme/site"]
       date (Some "octocat") None (mkService [] [])
     = finish date (Some "octocat") None
         (http_fetch_from api
            (first_available
               (http_candidates (Some "acme") (Some "tools/cli")
                  ["acme/site"] None))
            (Some "octocat") "2024-07-23T00:00:00Z" "2024-07-24T07:59:59Z"
            (clear_seen (mkService [] []))).
Proof.
  intros api date.
  split.
  - split; [reflexivity|]. split; [discriminate | reflexivity].
  - apply (repository_source_precedence api (Some "acme") (Some "tools/cli")
             None ["acme/site"] (fun _ => []) date (Some "octocat") "octocat"
             None (mkService [] []) "2024-07-23T00:00:00Z"
             "2024-07-24T07:59:59Z").
    + reflexivity.
    + discriminate.
    + reflexivity.
Defined.

(** With the same configuration the two adapters ask different
    repositories. *)
Example adapters_disagree :
  let api := fun (_ : list request) (_ : request) => Body [] in
  let date := mkDatetime 739090 0 0 0 0 in
  requests
    (snd (Cli.get_activity api (Some "acme") (Some "tools/cli") None
            ["acme/site"] (fun _ => []) date (Some "octocat") None
            (mkService [] [])))
  = [RepoEvents "tools/cli" 1]
  /\ requests
       (snd (Http.get_activity api (Some "acme") (Some "tools/cli")
               ["acme/site"] date (Some "octocat") None (mkService [] [])))
     = [RepoEvents "acme/site" 1].
Proof. split; reflexivity. Qed.


(** ** Strings *)

Section StringFacts.

Lemma append_assoc (a b c : string) : (a ++ b) ++ c = a ++ (b ++ c).
Proof. induction a as [|x a IH]; simpl; [reflexivity | now rewrite IH]. Qed.

Lemma append_nil_r (a : string) : a ++ "" = a.
Proof. induction a as [|x a IH]; simpl; [reflexivity | now rewrite IH]. Qed.

Lemma length_append (a b : string) :
  String.length (a ++ b) = (String.length a + String.length b)%nat.
Proof. induction a as [|x a IH]; simpl; [reflexivity | now rewrite IH]. Qed.

Lemma digit_char_spec (d : nat) :
  (d < 10)%nat ->
  Json.is_digit (digit_char d) = true /\ (code (digit_char d) - 48 = d)%nat.
Proof.
  intros H. do 10 (destruct d as [|d]; [split; reflexivity|]). lia.
Qed.

Lemma digits_fuel_S (fuel n : nat) (acc : string) :
  digits_fuel (S fuel) n acc
  = if (n <? 10)%nat then String (digit_char (n mod 10)) acc
    else digits_fuel fuel (n / 10) (String (digit_char (n mod 10)) acc).
Proof. reflexivity. Qed.

Lemma digits_fuel_append (fuel n : nat) (acc rest : string) :
  digits_fuel fuel n acc ++ rest = digits_fuel fuel n (acc ++ rest).
Proof.
  revert n acc. induction fuel as [|fuel IH]; intros n acc;
    [reflexivity|].
  rewrite !digits_fuel_S.
  destruct (n <? 10)%nat; [reflexivity|]. now rewrite IH.
Qed.

Lemma digits_fuel_nonempty (fuel n : nat) (acc : string) :
  (n < fuel)%nat -> (1 <= String.length (digits_fuel fuel n acc))%nat.
Proof.
  revert n acc. induction fuel as [|fuel IH]; intros n acc H; [lia|].
  rewrite digits_fuel_S.
  destruct (Nat.ltb_spec n 10); [cbn [String.length]; lia|].
  apply IH. pose proof (Nat.div_lt n 10). lia.
Qed.

End StringFacts.

(** ** The JSON encoder and decoder *)

Section JsonFacts.

Import Json.

Open Scope Z_scope.

(** Scanning the decimal digits of [n] multiplies the number scanned so
    far by a power of ten and adds [n]. *)
Lemma scan_digits_fuel (fuel n : nat) (acc : string) :
  (n < fuel)%nat ->
  exists m : Z, forall a,
    scan_digits (digits_fuel fuel n acc) a
    = scan_digits acc (a * m + Z.of_nat n).
Proof.
  revert n acc. induction fuel as [|fuel IH]; intros n acc H; [lia|].
  rewrite digits_fuel_S.
  destruct (digit_char_spec (n mod 10)) as [Hd Hc];
    [apply Nat.mod_upper_bound; lia|].
  destruct (Nat.ltb_spec n 10) as [Hlt | Hge].
  - exists 10. intros a. cbn [scan_digits].
    rewrite Hd, Hc. rewrite Nat.mod_small by lia. f_equal. lia.
  - destruct (IH (n / 10)%nat (String (digit_char (n mod 10)) acc))
      as [m Hm].
    { pose proof (Nat.div_lt n 10). lia. }
    exists (10 * m). intros a. rewrite Hm. cbn [scan_digits].
    rewrite Hd, Hc. f_equal.
    pose proof (Nat.div_mod_eq n 10) as E.
    apply (f_equal Z.of_nat) in E. rewrite Nat2Z.inj_add, Nat2Z.inj_mul in E.
    change (Z.of_nat 10) with 10 in E. lia.
Qed.

(** The decimal form of a positive number starts with a digit other than
    zero. *)
Lemma digits_fuel_head (fuel n : nat) (acc : string) :
  (n < fuel)%nat -> (0 < n)%nat ->
  exists c s, digits_fuel fuel n acc = String c s
              /\ is_digit c = true /\ Ascii.eqb c "0" = false.
Proof.
  revert n acc. induction fuel as [|fuel IH]; intros n acc H Hpos; [lia|].
  rewrite digits_fuel_S. destruct (Nat.ltb_spec n 10) as [Hlt | Hge].
  - exists (digit_char (n mod 10)), acc. split; [reflexivity|].
    rewrite Nat.mod_small by lia.
    do 10 (destruct n as [|n]; [try lia; split; reflexivity|]). lia.
  - apply IH.
    + pose proof (Nat.div_lt n 10). lia.
    + apply Nat.div_str_pos. lia.
Qed.

(** What may follow a number: not a digit and nothing that would turn it
    into a float. *)
Definition ends_number (rest : string) : Prop :=
  match rest with
  | EmptyString => True
  | String c _ => is_digit c = false /\ float_follows rest = false
  end.

Lemma scan_digits_stop (rest : string) (a : Z) :
  ends_number rest -> scan_digits rest a = (a, rest).
Proof.
  destruct rest as [|c rest]; simpl; [reflexivity|].
  intros [Hd _]. now rewrite Hd.
Qed.

Lemma float_follows_stop (rest : string) :
  ends_number rest -> float_follows rest = false.
Proof.
  destruct rest as [|c rest]; [reflexivity|]. intros [_ H]. exact H.
Qed.

Lemma scan_natural_str_of_nat (n : nat) (rest : string) :
  (0 < n)%nat -> ends_number rest ->
  scan_natural (str_of_nat n ++ rest) = Some (Z.of_nat n, rest).
Proof.
  intros Hpos Hrest. unfold str_of_nat.
  rewrite digits_fuel_append. simpl append.
  destruct (digits_fuel_head (S n) n rest) as (c & s & E & Hd & Hz);
    [lia | exact Hpos |].
  destruct (scan_digits_fuel (S n) n rest) as [m Hm]; [lia|].
  specialize (Hm 0). rewrite E in Hm |- *.
  unfold scan_natural. rewrite Hz, Hd, Hm.
  rewrite scan_digits_stop by exact Hrest. reflexivity.
Qed.

Lemma is_digit_not_minus (c : ascii) :
  is_digit c = true -> Ascii.eqb c "-" = false.
Proof.
  destruct c as [[] [] [] [] [] [] [] []]; intros H;
    solve [reflexivity | discriminate H].
Qed.

Lemma scan_number_str_of_Z (z : Z) (rest : string) :
  ends_number rest ->
  scan_number (str_of_Z z ++ rest) = Some (z, rest).
Proof.
  intros Hrest. destruct z as [|p|p].
  - cbn -[float_follows]. now rewrite (float_follows_stop rest Hrest).
  - unfold str_of_Z.
    pose proof (scan_natural_str_of_nat (Pos.to_nat p) rest
                  (Pos2Nat.is_pos p) Hrest) as E.
    unfold str_of_nat in *. rewrite digits_fuel_append in *.
    destruct (digits_fuel_head (S (Pos.to_nat p)) (Pos.to_nat p)
                ("" ++ rest)%string) as (c & s & Ec & Hd & _);
      [lia | apply Pos2Nat.is_pos |].
    rewrite Ec in *. unfold scan_number.
    rewrite (is_digit_not_minus c Hd), E.
    rewrite (float_follows_stop rest Hrest).
    now rewrite positive_nat_Z.
  - unfold str_of_Z. simpl append. unfold scan_number.
    simpl (Ascii.eqb "-" "-"). cbv iota beta.
    rewrite (scan_natural_str_of_nat (Pos.to_nat p) rest
               (Pos2Nat.is_pos p) Hrest).
    rewrite (float_follows_stop rest Hrest).
    now rewrite positive_nat_Z.
Qed.

(** A character and its escape. *)
Lemma scan_string_escape_char (c : ascii) (tail : string) :
  scan_string (escape_char c ++ tail)
  = match scan_string tail with
    | Some (str, rest) => Some (String c str, rest)
    | None => None
    end.
Proof.
  destruct c as [[] [] [] [] [] [] [] []]; reflexivity.
Qed.

Lemma scan_string_escape (s rest : string) :
  scan_string (escape s ++ String dquote rest) = Some (s, rest).
Proof.
  induction s as [|c s IH]; [reflexivity|].
  simpl escape. rewrite append_assoc, scan_string_escape_char, IH.
  reflexivity.
Qed.

(** *** Well-formed values and their size *)

(** A dictionary has no key twice. *)
Fixpoint wf (v : value) : Prop :=
  match v with
  | VList items =>
      (fix all (l : list value) : Prop :=
         match l with
         | [] => True
         | x :: rest => wf x /\ all rest
         end) items
  | VDict members =>
      NoDup (map fst members)
      /\ (fix all (l : list (string * value)) : Prop :=
            match l with
            | [] => True
            | kv :: rest => wf (snd kv) /\ all rest
            end) members
  | _ => True
  end.

Definition wf_dict (d : dict) : Prop := wf (VDict d).

Lemma wf_list (items : list value) : wf (VList items) <-> Forall wf items.
Proof.
  induction items as [|x rest IH]; simpl.
  - split; constructor.
  - split.
    + intros [Hx Hr]. constructor; [exact Hx | now apply IH].
    + intros H. inversion H; subst. split; [assumption | now apply IH].
Qed.

Lemma wf_members (members : dict) :
  wf (VDict members)
  <-> NoDup (map fst members) /\ Forall (fun kv => wf (snd kv)) members.
Proof.
  simpl. apply and_iff_compat_l.
  induction members as [|kv rest IH].
  - split; constructor.
  - split.
    + intros [Hx Hr]. constructor; [exact Hx | now apply IH].
    + intros H. inversion H; subst. split; [assumption | now apply IH].
Qed.

(** The fuel the decoder needs for a value. *)
Fixpoint size (v : value) : nat :=
  match v with
  | VList items =>
      S ((fix total (l : list value) : nat :=
            match l with
            | [] => 0%nat
            | x :: rest => (S (size x) + total rest)%nat
            end) items)
  | VDict members =>
      S ((fix total (l : list (string * value)) : nat :=
            match l with
            | [] => 0%nat
            | kv :: rest => (S (size (snd kv)) + total rest)%nat
            end) members)
  | _ => 1%nat
  end.

Definition items_size (items : list value) : nat :=
  fold_right (fun x n => S (size x) + n)%nat 0%nat items.

Definition members_size (members : dict) : nat :=
  fold_right (fun kv n => S (size (snd kv)) + n)%nat 0%nat members.

Lemma size_list (items : list value) :
  size (VList items) = S (items_size items).
Proof.
  reflexivity.
Qed.

Lemma size_dict (members : dict) :
  size (VDict members) = S (members_size members).
Proof.
  reflexivity.
Qed.

(** Induction on values, with the items of a list and the members of a
    dictionary covered by [Forall]. *)
Fixpoint value_induction (P : value -> Prop)
  (HNone : P VNone) (HBool : forall b, P (VBool b))
  (HInt : forall z, P (VInt z)) (HStr : forall s, P (VStr s))
  (HList : forall items, Forall P items -> P (VList items))
  (HDict : forall members,
      Forall (fun kv => P (snd kv)) members -> P (VDict members))
  (v : value) {struct v} : P v :=
  match v with
  | VNone => HNone
  | VBool b => HBool b
  | VInt z => HInt z
  | VStr s => HStr s
  | VList items =>
      HList items
        ((fix go (l : list value) : Forall P l :=
            match l with
            | [] => Forall_nil P
            | x :: rest =>
                Forall_cons x
                  (value_induction P HNone HBool HInt HStr HList HDict x)
                  (go rest)
            end) items)
  | VDict members =>
      HDict members
        ((fix go (l : list (string * value))
            : Forall (fun kv => P (snd kv)) l :=
            match l with
            | [] => Forall_nil _
            | kv :: rest =>
                Forall_cons kv
                  (value_induction P HNone HBool HInt HStr HList HDict
                     (snd kv))
                  (go rest)
            end) members)
  end.

(** *** The encoder, item by item *)

Definition encode_items (level : nat) : list value -> string :=
  fix items_at (l : list value) : string :=
    match l with
    | [] => ""
    | [x] => encode_at level x
    | x :: rest =>
        encode_at level x ++ "," ++ newline_indent level ++ items_at rest
    end.

Definition encode_members (level : nat) : dict -> string :=
  fix members_at (l : list (string * value)) : string :=
    match l with
    | [] => ""
    | [(k, x)] => quote k ++ ": " ++ encode_at level x
    | (k, x) :: rest =>
        quote k ++ ": " ++ encode_at level x ++ "," ++ newline_indent level
        ++ members_at rest
    end.

Lemma encode_items_cons (level : nat) (x y : value) (rest : list value) :
  encode_items level (x :: y :: rest)
  = encode_at level x ++ "," ++ newline_indent level
    ++ encode_items level (y :: rest).
Proof. reflexivity. Qed.

Lemma encode_members_cons (level : nat) (k : string) (x : value)
  (kv : string * value) (rest : dict) :
  encode_members level ((k, x) :: kv :: rest)
  = quote k ++ ": " ++ encode_at level x ++ "," ++ newline_indent level
    ++ encode_members level (kv :: rest).
Proof. reflexivity. Qed.

Lemma encode_at_list (level : nat) (x : value) (rest : list value) :
  encode_at level (VList (x :: rest))
  = "[" ++ newline_indent (S level) ++ encode_items (S level) (x :: rest)
    ++ newline_indent level ++ "]".
Proof. reflexivity. Qed.

Lemma encode_at_dict (level : nat) (kv : string * value) (rest : dict) :
  encode_at level (VDict (kv :: rest))
  = "{" ++ newline_indent (S level) ++ encode_members (S level) (kv :: rest)
    ++ newline_indent level ++ "}".
Proof. reflexivity. Qed.

(** *** Decoding what was encoded *)

(** The first character of an encoded value: no white space and no
    closing bracket. *)
Definition starts_value (s : string) : Prop :=
  exists c s', s = String c s'
               /\ is_ws c = false
               /\ Ascii.eqb c "]" = false /\ Ascii.eqb c "}" = false.

Lemma digit_starts_value (c : ascii) (s : string) :
  is_digit c = true -> starts_value (String c s).
Proof.
  intros H. exists c, s. split; [reflexivity|].
  destruct c as [[] [] [] [] [] [] [] []];
    solve [discriminate H | repeat split; reflexivity].
Qed.

Lemma encode_at_starts (level : nat) (v : value) (rest : string) :
  starts_value (encode_at level v ++ rest).
Proof.
  destruct v as [|[]|z|s|[|x l]|[|kv d]];
    try (eexists; eexists; split; [reflexivity|];
         repeat split; reflexivity).
  destruct z as [|p|p];
    try (eexists; eexists; split; [reflexivity|];
         repeat split; reflexivity).
  cbn [encode_at str_of_Z]. unfold str_of_nat.
  destruct (digits_fuel_head (S (Pos.to_nat p)) (Pos.to_nat p) "")
    as (c & s & E & Hd & _); [lia | apply Pos2Nat.is_pos |].
  rewrite E. now apply digit_starts_value.
Qed.

Lemma skip_ws_starts (s : string) : starts_value s -> skip_ws s = s.
Proof.
  intros (c & s' & -> & Hw & _). simpl. now rewrite Hw.
Qed.

Lemma skip_ws_nonws (c : ascii) (s : string) :
  is_ws c = false -> skip_ws (String c s) = String c s.
Proof. intros H. simpl. now rewrite H. Qed.

Lemma skip_ws_spaces (n : nat) (s : string) :
  skip_ws (repeat_char " " n ++ s) = skip_ws s.
Proof. induction n as [|n IH]; [reflexivity | exact IH]. Qed.

Lemma skip_ws_newline_indent (level : nat) (s : string) :
  skip_ws (newline_indent level ++ s) = skip_ws s.
Proof.
  unfold newline_indent. rewrite append_assoc.
  change (skip_ws (newline ++ repeat_char " " (2 * level) ++ s))
    with (skip_ws (repeat_char " " (2 * level) ++ s)).
  apply skip_ws_spaces.
Qed.

Lemma ends_number_newline_indent (level : nat) (s : string) :
  ends_number (newline_indent level ++ s).
Proof. split; reflexivity. Qed.

(** A string that starts like a number is scanned as a number. *)
Lemma scan_value_number (fuel : nat) (c : ascii) (s : string) :
  is_digit c = true \/ c = "-"%char ->
  scan_value (S fuel) (String c s)
  = match scan_number (String c s) with
    | Some (n, rest) => Some (VInt n, rest)
    | None => None
    end.
Proof.
  destruct c as [[] [] [] [] [] [] [] []]; intros [H | H];
    solve [discriminate H | reflexivity].
Qed.

Lemma str_of_Z_head (z : Z) (rest : string) :
  exists c s, str_of_Z z ++ rest = String c s
              /\ (is_digit c = true \/ c = "-"%char).
Proof.
  destruct z as [|p|p].
  - exists "0"%char, rest. split; [reflexivity | now left].
  - unfold str_of_Z, str_of_nat.
    destruct (digits_fuel_head (S (Pos.to_nat p)) (Pos.to_nat p) "")
      as (c & s & E & Hd & _); [lia | apply Pos2Nat.is_pos |].
    rewrite E. exists c, (s ++ rest)%string. split; [reflexivity | now left].
  - eexists. eexists. split; [reflexivity | now right].
Qed.

Lemma dict_set_fresh (d : dict) (k : string) (v : value) :
  ~ In k (map fst d) -> dict_set d k v = (d ++ [(k, v)])%list.
Proof.
  induction d as [|[k' v'] d IH]; intros H; simpl; [reflexivity|].
  destruct (String.eqb_spec k' k) as [-> | Hne].
  - exfalso. apply H. now left.
  - rewrite IH; [reflexivity|]. intros Hin. apply H. now right.
Qed.

(** A value decodes when the decoder, given the fuel of its size, reads
    it back from its encoding and stops right after it. *)
Definition decodes (v : value) : Prop :=
  wf v ->
  forall level rest fuel,
    (size v <= fuel)%nat -> ends_number rest ->
    scan_value fuel (encode_at level v ++ rest) = Some (v, rest).

Lemma scan_items_encode (level : nat) :
  forall items,
    items <> [] -> Forall decodes items -> Forall wf items ->
    forall acc tail rest fuel,
      (items_size items <= fuel)%nat ->
      ends_number tail ->
      skip_ws tail = String "]" rest ->
      scan_items fuel (encode_items level items ++ tail) acc
      = Some ((acc ++ items)%list, rest).
Proof.
  induction items as [|x more IH]; intros Hne Hdec Hwf acc tail rest fuel
    Hfuel Htail Hclose; [contradiction|].
  inversion Hdec as [|? ? Hx Hmore]; subst.
  inversion Hwf as [|? ? Wx Wmore]; subst.
  destruct fuel as [|fuel]; [simpl in Hfuel; lia|].
  simpl in Hfuel.
  destruct more as [|y more].
  - cbn [scan_items encode_items].
    rewrite (Hx Wx level tail fuel) by (auto; lia).
    rewrite Hclose. reflexivity.
  - rewrite encode_items_cons. rewrite !append_assoc.
    cbn [scan_items].
    rewrite (Hx Wx level _ fuel); [|lia | split; reflexivity].
    cbn [append]. rewrite (skip_ws_nonws "," _ eq_refl).
    rewrite Ascii.eqb_refl.
    rewrite skip_ws_newline_indent.
    rewrite skip_ws_starts.
    2:{ destruct more; [|rewrite encode_items_cons, !append_assoc];
        apply encode_at_starts. }
    rewrite (IH ltac:(discriminate) Hmore Wmore (acc ++ [x])%list tail rest
               fuel); auto; [|simpl in *; lia].
    now rewrite <- app_assoc.
Qed.

Lemma scan_members_encode (level : nat) :
  forall members,
    members <> [] ->
    Forall (fun kv => decodes (snd kv)) members ->
    Forall (fun kv => wf (snd kv)) members ->
    forall acc tail rest fuel,
      NoDup (map fst (acc ++ members)) ->
      (members_size members <= fuel)%nat ->
      ends_number tail ->
      skip_ws tail = String "}" rest ->
      scan_members fuel (encode_members level members ++ tail) acc
      = Some ((acc ++ members)%list, rest).
Proof.
  induction members as [|[k x] more IH]; intros Hne Hdec Hwf acc tail rest
    fuel Hnd Hfuel Htail Hclose; [contradiction|].
  inversion Hdec as [|? ? Hx Hmore]; subst.
  inversion Hwf as [|? ? Wx Wmore]; subst.
  simpl in Hx, Wx.
  destruct fuel as [|fuel]; [simpl in Hfuel; lia|].
  simpl in Hfuel.
  assert (Hfresh : ~ In k (map fst acc)).
  { rewrite map_app in Hnd. simpl in Hnd.
    apply NoDup_remove_2 in Hnd. intros Hin. apply Hnd.
    apply in_or_app. now left. }
  assert (Hscan :
    forall after,
      scan_members (S fuel)
        ((quote k ++ ": " ++ encode_at level x) ++ after) acc
      = match scan_value fuel (encode_at level x ++ after) with
        | Some (v, rest3) =>
            match skip_ws rest3 with
            | EmptyString => None
            | String c' rest4 =>
                if Ascii.eqb c' ","
                then scan_members fuel (skip_ws rest4) (dict_set acc k v)
                else if Ascii.eqb c' "}"
                then Some (dict_set acc k v, rest4)
                else None
            end
        | None => None
        end).
  { intros after. unfold quote. cbn [append scan_members].
    simpl (Ascii.eqb dquote dquote). cbv iota.
    rewrite !append_assoc. cbn [append]. rewrite scan_string_escape.
    rewrite (skip_ws_nonws ":" _ eq_refl). rewrite Ascii.eqb_refl.
    change (skip_ws (String " " (encode_at level x ++ after)))
      with (skip_ws (encode_at level x ++ after)).
    rewrite skip_ws_starts by apply encode_at_starts. reflexivity. }
  destruct more as [|kv more].
  - change (encode_members level [(k, x)])
      with (quote k ++ ": " ++ encode_at level x).
    rewrite Hscan.
    rewrite (Hx Wx level tail fuel) by (auto; lia).
    rewrite Hclose. change (Ascii.eqb "}" ",") with false.
    rewrite Ascii.eqb_refl. cbv iota.
    now rewrite dict_set_fresh.
  - destruct kv as [k' y].
    rewrite encode_members_cons.
    replace ((quote k ++ ": " ++ encode_at level x ++ "," ++
              newline_indent level ++
              encode_members level ((k', y) :: more)) ++ tail)%string
      with ((quote k ++ ": " ++ encode_at level x)
            ++ ("," ++ newline_indent level
                ++ encode_members level ((k', y) :: more) ++ tail))%string
      by (rewrite !append_assoc; reflexivity).
    rewrite Hscan.
    rewrite (Hx Wx level _ fuel); [|lia | split; reflexivity].
    cbn [append]. rewrite (skip_ws_nonws "," _ eq_refl).
    rewrite Ascii.eqb_refl.
    rewrite skip_ws_newline_indent.
    rewrite skip_ws_starts.
    2:{ destruct more as [|kv' more];
          [|destruct kv'; rewrite encode_members_cons].
        - exists dquote. eexists. split; [reflexivity|].
          repeat split; reflexivity.
        - exists dquote. eexists. split; [reflexivity|].
          repeat split; reflexivity. }
    rewrite dict_set_fresh by exact Hfresh.
    rewrite (IH ltac:(discriminate) Hmore Wmore (acc ++ [(k, x)])%list tail
               rest fuel); auto.
    + now rewrite <- app_assoc.
    + now rewrite <- app_assoc.
    + simpl in *. lia.
Qed.

(** Every well-formed value decodes. *)
Lemma scan_value_encode : forall v, decodes v.
Proof.
  induction v as [|b|z|s|items IH|members IH] using value_induction;
    intros Hwf level rest fuel Hfuel Hrest.
  - destruct fuel; [simpl in Hfuel; lia | reflexivity].
  - destruct fuel; [simpl in Hfuel; lia|]. destruct b; reflexivity.
  - destruct fuel; [simpl in Hfuel; lia|].
    cbn [encode_at].
    destruct (str_of_Z_head z rest) as (c & s' & E & Hc).
    rewrite E. rewrite (scan_value_number fuel c s' Hc).
    rewrite <- E. now rewrite scan_number_str_of_Z.
  - destruct fuel; [simpl in Hfuel; lia|].
    cbn [encode_at]. unfold quote. cbn [append scan_value].
    simpl (Ascii.eqb dquote dquote). cbv iota.
    rewrite append_assoc. cbn [append].
    now rewrite scan_string_escape.
  - destruct fuel; [simpl in Hfuel; lia|].
    destruct items as [|x more]; [reflexivity|].
    rewrite size_list in Hfuel.
    apply wf_list in Hwf.
    rewrite encode_at_list. rewrite !append_assoc.
    cbn [append scan_value]. simpl (Ascii.eqb "[" dquote).
    simpl (Ascii.eqb "[" "{"). simpl (Ascii.eqb "[" "["). cbv iota.
    rewrite skip_ws_newline_indent.
    destruct (encode_at_starts (S level) x
                (match more with
                 | [] => ""
                 | _ => "," ++ newline_indent (S level)
                        ++ encode_items (S level) more
                 end ++ newline_indent level ++ String "]" rest)%string)
      as (c & s' & E & Hw & Hb & _).
    assert (Eitems :
      (encode_items (S level) (x :: more)
       ++ newline_indent level ++ String "]" rest)%string = String c s').
    { rewrite <- E. destruct more; [reflexivity|].
      rewrite encode_items_cons, !append_assoc. reflexivity. }
    rewrite Eitems. cbn [skip_ws]. rewrite Hw, Hb. rewrite <- Eitems.
    rewrite (scan_items_encode (S level) (x :: more) ltac:(discriminate) IH
               Hwf [] (newline_indent level ++ String "]" rest)%string rest
               fuel); auto.
    + lia.
    + apply ends_number_newline_indent.
    + now rewrite skip_ws_newline_indent.
  - destruct fuel; [simpl in Hfuel; lia|].
    destruct members as [|kv more]; [reflexivity|].
    rewrite size_dict in Hfuel.
    apply wf_members in Hwf. destruct Hwf as [Hnd Hwf].
    rewrite encode_at_dict. rewrite !append_assoc.
    cbn [append scan_value]. simpl (Ascii.eqb "{" dquote).
    simpl (Ascii.eqb "{" "{"). cbv iota.
    rewrite skip_ws_newline_indent.
    assert (Emembers :
      exists s',
        (encode_members (S level) (kv :: more)
         ++ newline_indent level ++ String "}" rest)%string
        = String dquote s').
    { destruct kv as [k x].
      destruct more as [|kv' more];
        [|destruct kv'; rewrite encode_members_cons];
        eexists; reflexivity. }
    destruct Emembers as [s' Emembers].
    rewrite Emembers. rewrite (skip_ws_nonws dquote s' eq_refl).
    change (Ascii.eqb dquote "}") with false. cbv iota.
    rewrite <- Emembers.
    rewrite (scan_members_encode (S level) (kv :: more) ltac:(discriminate)
               IH Hwf [] (newline_indent level ++ String "}" rest)%string
               rest fuel); auto.
    + lia.
    + apply ends_number_newline_indent.
    + now rewrite skip_ws_newline_indent.
Qed.

(** The encoding of a value is at least as long as the fuel it needs. *)
Lemma str_of_Z_nonempty (z : Z) : (1 <= String.length (str_of_Z z))%nat.
Proof.
  destruct z as [|p|p]; simpl; [lia | | lia].
  apply digits_fuel_nonempty. lia.
Qed.

Lemma items_size_le (level : nat) (items : list value) :
  Forall (fun x => forall l, (size x <= String.length (encode_at l x))%nat)
    items ->
  (items_size items <= String.length (encode_items level items) + 1)%nat.
Proof.
  induction 1 as [|x more Hx Hmore IH]; [simpl; lia|].
  destruct more as [|y more].
  - specialize (Hx level). simpl in *. lia.
  - rewrite encode_items_cons. rewrite !length_append.
    specialize (Hx level).
    change (items_size (x :: y :: more))
      with (S (size x) + items_size (y :: more))%nat.
    simpl (String.length ","). lia.
Qed.

Lemma members_size_le (level : nat) (members : dict) :
  Forall (fun kv =>
            forall l, (size (snd kv) <= String.length (encode_at l (snd kv)))%nat)
    members ->
  (members_size members
   <= String.length (encode_members level members) + 1)%nat.
Proof.
  induction 1 as [|[k x] more Hx Hmore IH]; [simpl; lia|].
  simpl in Hx. specialize (Hx level).
  destruct more as [|kv more].
  - change (encode_members level [(k, x)])
      with (quote k ++ ": " ++ encode_at level x).
    rewrite !length_append. simpl in *. lia.
  - destruct kv as [k' y]. rewrite encode_members_cons.
    rewrite !length_append.
    change (members_size ((k, x) :: (k', y) :: more))
      with (S (size x) + members_size ((k', y) :: more))%nat.
    simpl (String.length ","). lia.
Qed.

Lemma size_le_length (v : value) :
  forall level, (size v <= String.length (encode_at level v))%nat.
Proof.
  induction v as [|b|z|s|items IH|members IH] using value_induction;
    intros level.
  - simpl. lia.
  - destruct b; simpl; lia.
  - apply str_of_Z_nonempty.
  - simpl. lia.
  - destruct items as [|x more]; [simpl; lia|].
    rewrite size_list, encode_at_list, !length_append.
    pose proof (items_size_le (S level) (x :: more) IH).
    simpl (String.length "["). simpl (String.length "]").
    unfold newline_indent. rewrite !length_append.
    simpl (String.length newline). lia.
  - destruct members as [|kv more]; [simpl; lia|].
    rewrite size_dict, encode_at_dict, !length_append.
    pose proof (members_size_le (S level) (kv :: more) IH).
    simpl (String.length "{"). simpl (String.length "}").
    unfold newline_indent. rewrite !length_append.
    simpl (String.length newline). lia.
Qed.

(** [json.loads(json.dumps(v, indent=2)) == v] *)
Theorem loads_dumps (v : value) : wf v -> loads (dumps v) = Some v.
Proof.
  intros Hwf. unfold loads, dumps.
  pose proof (encode_at_starts 0 v "") as Hs. rewrite append_nil_r in Hs.
  rewrite (skip_ws_starts _ Hs).
  rewrite <- (append_nil_r (encode_at 0 v)) at 2.
  rewrite (scan_value_encode v Hwf 0%nat "" (S (String.length (encode_at 0 v))));
    [reflexivity | | exact I].
  pose proof (size_le_length v 0). lia.
Qed.

End JsonFacts.


(** ** Standup items *)

Section StandupItemFacts.

(** An event that yields a standup item. *)
Definition reportable (event : GitHubEvent) : bool :=
  (is_type event "PushEvent" && truthy (info_get event "commits" VNone))
  || (is_type event "PullRequestEvent"
      && (value_is_str (info_get event "action" (VStr "")) "opened"
          || value_is_str (info_get event "action" (VStr "")) "closed"
          || value_is_str (info_get event "action" (VStr "")) "merged"))
  || is_type event "PullRequestReviewEvent"
  || is_type event "IssueCommentEvent"
  || (is_type event "CreateEvent"
      && value_is_str (info_get event "ref_type" (VStr "")) "branch").

Lemma is_type_eq (event : GitHubEvent) (t : string) :
  is_type event t = true -> event_type event = t.
Proof. apply String.eqb_eq. Qed.

(** Grouping never drops an event it has placed, and places every event
    according to its type. *)
Lemma group_loop_keeps (events : list GitHubEvent) :
  forall g e,
    (In e (g_commits g) -> In e (g_commits (group_loop events g)))
    /\ (In e (g_pull_requests g) ->
        In e (g_pull_requests (group_loop events g)))
    /\ (In e (g_reviews g) -> In e (g_reviews (group_loop events g)))
    /\ (In e (g_other g) -> In e (g_other (group_loop events g))).
Proof.
  induction events as [|event rest IH]; intros g e; [simpl; tauto|].
  cbn [group_loop].
  repeat split; intros H; apply IH;
    repeat match goal with
           | |- context [if ?b then _ else _] => destruct b
           end; simpl; try apply in_or_app; auto.
Qed.

Lemma group_loop_places (events : list GitHubEvent) :
  forall g e,
    In e events ->
    (is_type e "PushEvent" && truthy (info_get e "commits" VNone) = true ->
     In e (g_commits (group_loop events g)))
    /\ (is_type e "PullRequestEvent" = true ->
        In e (g_pull_requests (group_loop events g)))
    /\ (is_type e "PullRequestReviewEvent" = true ->
        In e (g_reviews (group_loop events g)))
    /\ (is_type e "IssueCommentEvent" = true
        \/ is_type e "CreateEvent" = true ->
        In e (g_other (group_loop events g))).
Proof.
  induction events as [|event rest IH]; intros g e Hin; [destruct Hin|].
  destruct Hin as [-> | Hin]; [|cbn [group_loop]; now apply IH].
  cbn [group_loop].
  repeat split; intros H.
  - rewrite H. apply group_loop_keeps. simpl. apply in_or_app. simpl. auto.
  - unfold is_type in *. apply String.eqb_eq in H. rewrite H.
    apply group_loop_keeps. simpl. apply in_or_app. simpl. auto.
  - unfold is_type in *. apply String.eqb_eq in H. rewrite H.
    apply group_loop_keeps. simpl. apply in_or_app. simpl. auto.
  - unfold is_type in *.
    destruct H as [H | H]; apply String.eqb_eq in H; rewrite H;
      apply group_loop_keeps; simpl; apply in_or_app; simpl; auto.
Qed.

Lemma concatM_nonempty {A : Type} (f : A -> result (list string))
  (xs : list A) (ys : list string) (x : A) :
  concatM f xs = Ok ys ->
  In x xs ->
  (forall zs, f x = Ok zs -> zs <> []) ->
  ys <> [].
Proof.
  revert ys. induction xs as [|a xs IH]; intros ys E Hin Hx; [destruct Hin|].
  simpl in E. destruct (f a) as [zs|] eqn:Ea; [|discriminate].
  simpl in E. destruct (concatM f xs) as [ws|] eqn:Ew; [|discriminate].
  simpl in E. inversion E; subst.
  destruct Hin as [-> | Hin].
  - specialize (Hx zs Ea). destruct zs; [contradiction | discriminate].
  - specialize (IH ws eq_refl Hin Hx).
    destruct zs; simpl; [assumption | discriminate].
Qed.

Lemma extend_at_nonempty {A : Type} (d : list (string * list A))
  (k : string) (xs : list A) : extend_at d k xs <> [].
Proof.
  destruct d as [|[k' ys] d]; simpl; [discriminate|].
  destruct (String.eqb k' k); discriminate.
Qed.

Lemma commits_by_repo_nonempty (events : list GitHubEvent) :
  forall acc by_repo,
    commits_by_repo events acc = Ok by_repo ->
    acc <> [] \/ events <> [] -> by_repo <> [].
Proof.
  induction events as [|event rest IH]; intros acc by_repo E H.
  - simpl in E. inversion E; subst. destruct H; [assumption | contradiction].
  - simpl in E.
    destruct (iterate (info_get event "commits" (VList []))) as [found|];
      [|discriminate].
    simpl in E. apply (IH _ _ E). left. apply extend_at_nonempty.
Qed.

Lemma repo_commit_items_nonempty (repo : string) (commits : list value)
  (zs : list string) :
  repo_commit_items repo commits = Ok zs -> zs <> [].
Proof.
  unfold repo_commit_items. intros E.
  destruct commits as [|c [|c' more]].
  - simpl in E. inversion E. discriminate.
  - destruct (subscript c "message") as [m|]; [|discriminate]. simpl in E.
    destruct (py_str m); [|discriminate]. simpl in E.
    destruct (subscript c "link") as [l|]; [|discriminate]. simpl in E.
    destruct (py_str l); [|discriminate]. simpl in E.
    inversion E. discriminate.
  - destruct (mapM commit_line (firstn 3 (c :: c' :: more)));
      [|discriminate].
    simpl in E. inversion E. discriminate.
Qed.

Lemma format_commit_items_nonempty (events : list GitHubEvent)
  (ys : list string) :
  _format_commit_items events = Ok ys -> events <> [] -> ys <> [].
Proof.
  unfold _format_commit_items. intros E Hne.
  destruct (commits_by_repo events []) as [by_repo|] eqn:Eb; [|discriminate].
  simpl in E.
  pose proof (commits_by_repo_nonempty events [] by_repo Eb (or_intror Hne))
    as Hb.
  destruct by_repo as [|rc by_repo]; [contradiction|].
  apply (concatM_nonempty _ _ _ rc E); [now left|].
  intros zs. apply repo_commit_items_nonempty.
Qed.

Lemma pr_item_nonempty (event : GitHubEvent) (zs : list string) :
  value_is_str (info_get event "action" (VStr "")) "opened"
  || value_is_str (info_get event "action" (VStr "")) "closed"
  || value_is_str (info_get event "action" (VStr "")) "merged" = true ->
  pr_item event = Ok zs -> zs <> [].
Proof.
  unfold pr_item. intros Ha E.
  assert (Hline : forall verb,
    (link <- first_link (info_get event "links" (VList []))
               (pull_link event (info_get event "pr_number" (VStr ""))) ;;
     n <- py_str (info_get event "pr_number" (VStr "")) ;;
     t <- py_str (info_get event "title" (VStr "")) ;;
     Ok ["- " ++ verb ++ " **[PR #" ++ n ++ "](" ++ link ++ ")**: " ++ t])
    = Ok zs -> zs <> []).
  { intros verb E'.
    destruct (first_link _ _); [|discriminate]. simpl in E'.
    destruct (py_str (info_get event "pr_number" (VStr "")));
      [|discriminate]. simpl in E'.
    destruct (py_str (info_get event "title" (VStr ""))); [|discriminate].
    simpl in E'. inversion E'. discriminate. }
  destruct (value_is_str (info_get event "action" (VStr "")) "opened");
    [now apply (Hline "Opened")|].
  destruct (value_is_str (info_get event "action" (VStr "")) "closed");
    [now apply (Hline (PyStr.title "closed"))|].
  destruct (value_is_str (info_get event "action" (VStr "")) "merged");
    [now apply (Hline (PyStr.title "merged")) | discriminate].
Qed.

Lemma reviews_by_pr_nonempty (events : list GitHubEvent) :
  forall acc by_pr,
    reviews_by_pr events acc = Ok by_pr ->
    acc <> []
    \/ (exists e, In e events /\ is_type e "PullRequestReviewEvent" = true) ->
    by_pr <> [].
Proof.
  induction events as [|event rest IH]; intros acc by_pr E H.
  - simpl in E. inversion E; subst.
    destruct H as [H | [e [[] _]]]. exact H.
  - simpl in E.
    destruct (is_type event "PullRequestReviewEvent") eqn:Et.
    + destruct (py_str (info_get event "pr_number" (VStr "")));
        [|discriminate].
      simpl in E. apply (IH _ _ E). left. apply extend_at_nonempty.
    + apply (IH _ _ E). destruct H as [H | [e [[-> | Hin] He]]].
      * now left.
      * congruence.
      * right. now exists e.
Qed.

Lemma review_item_nonempty (review_events : list GitHubEvent)
  (zs : list string) :
  review_item review_events = Ok zs -> zs <> [].
Proof.
  unfold review_item. intros E.
  destruct (rev review_events) as [|latest_review more]; [discriminate|].
  destruct (first_link _ _); [|discriminate]. simpl in E.
  destruct (py_str (info_get latest_review "pr_number" (VStr "")));
    [|discriminate]. simpl in E.
  destruct (py_str (info_get latest_review "review_state" (VStr "")));
    [|discriminate]. simpl in E.
  inversion E. discriminate.
Qed.

Lemma other_item_nonempty (event : GitHubEvent) (zs : list string) :
  is_type event "IssueCommentEvent" = true
  \/ (is_type event "CreateEvent" = true
      /\ value_is_str (info_get event "ref_type" (VStr "")) "branch" = true) ->
  other_item event = Ok zs -> zs <> [].
Proof.
  unfold other_item. intros H E.
  destruct (is_type event "IssueCommentEvent") eqn:Ec.
  - destruct (first_link _ _); [|discriminate]. simpl in E.
    destruct (py_str (info_get event "issue_number" (VStr "")));
      [|discriminate]. simpl in E.
    inversion E. discriminate.
  - destruct H as [H | [Ht Hb]]; [discriminate|].
    rewrite Ht, Hb in E.
    destruct (py_str (info_get event "ref" (VStr ""))); [|discriminate].
    simpl in E. inversion E. discriminate.
Qed.

(** A collection with a reportable event has a standup item. *)
Lemma standup_items_nonempty (github_activity : GitHubActivity)
  (items : list string) :
  _generate_standup_items github_activity = Ok items ->
  existsb reportable (events github_activity) = true ->
  items <> [].
Proof.
  unfold _generate_standup_items, _group_significant_events.
  intros E Hex. apply existsb_exists in Hex. destruct Hex as [e [Hin Hr]].
  set (g := group_loop (events github_activity) (mkGroups [] [] [] [])) in *.
  destruct (group_loop_places (events github_activity) (mkGroups [] [] [] [])
              e Hin) as (Pc & Pp & Pr & Po).
  fold g in Pc, Pp, Pr, Po.
  destruct (_format_commit_items (g_commits g)) as [cs|] eqn:Ecs;
    [|discriminate]. simpl in E.
  destruct (_format_pr_items (g_pull_requests g)) as [ps|] eqn:Eps;
    [|discriminate]. simpl in E.
  destruct (_format_review_items (g_reviews g)) as [rs|] eqn:Ers;
    [|discriminate]. simpl in E.
  destruct (_format_other_items (g_other g)) as [os|] eqn:Eos;
    [|discriminate]. simpl in E.
  inversion E; subst; clear E.
  assert (Hsome : cs <> [] \/ ps <> [] \/ rs <> [] \/ os <> []).
  { unfold reportable in Hr.
    repeat (apply orb_true_iff in Hr; destruct Hr as [Hr | Hr]).
    - left. apply (format_commit_items_nonempty _ _ Ecs).
      specialize (Pc Hr). intros Hn. rewrite Hn in Pc. destruct Pc.
    - right. left. apply andb_true_iff in Hr. destruct Hr as [Ht Ha].
      apply (concatM_nonempty _ _ _ e Eps (Pp Ht)).
      intros zs. now apply pr_item_nonempty.
    - right. right. left.
      unfold _format_review_items in Ers.
      destruct (reviews_by_pr (g_reviews g) []) as [by_pr|] eqn:Eb;
        [|discriminate].
      simpl in Ers.
      assert (Hb : by_pr <> []).
      { apply (reviews_by_pr_nonempty _ _ _ Eb). right. exists e.
        split; [now apply Pr | exact Hr]. }
      destruct by_pr as [|kv by_pr]; [contradiction|].
      apply (concatM_nonempty _ _ _ kv Ers); [now left|].
      intros zs. apply review_item_nonempty.
    - right. right. right.
      apply (concatM_nonempty _ _ _ e Eos (Po (or_introl Hr))).
      intros zs. apply other_item_nonempty. now left.
    - right. right. right. apply andb_true_iff in Hr.
      destruct Hr as [Ht Hb].
      apply (concatM_nonempty _ _ _ e Eos (Po (or_intror Ht))).
      intros zs. apply other_item_nonempty. now right. }
  intros Hnil.
  apply app_eq_nil in Hnil. destruct Hnil as [H1 Hnil].
  apply app_eq_nil in Hnil. destruct Hnil as [H2 Hnil].
  apply app_eq_nil in Hnil. destruct Hnil as [H3 H4].
  tauto.
Qed.

End StandupItemFacts.


(** ** The JSON report *)

Lemma no_dup_keys (keys : list string) :
  forallb (fun k => Nat.eqb (count_occ string_dec keys k) 1) keys = true ->
  NoDup keys.
Proof.
  intros H. apply (NoDup_count_occ' string_dec). intros k Hin.
  rewrite forallb_forall in H. now apply Nat.eqb_eq, H.
Qed.

(** The members of a literal dictionary, one by one; scalars are well
    formed. *)
Ltac each_member :=
  repeat (apply Forall_cons; [simpl snd; try exact I |]);
  try apply Forall_nil.

Ltac literal_dict :=
  apply wf_members; split; [apply no_dup_keys; reflexivity | each_member].

Section JsonReportFacts.

(** [v[k1][k2]...] on nested dictionaries. *)
Fixpoint lookup_path (v : value) (path : list string) : option value :=
  match path with
  | [] => Some v
  | k :: rest =>
      match v with
      | VDict d =>
          match dict_get d k with
          | Some x => lookup_path x rest
          | None => None
          end
      | _ => None
      end
  end.

(** The dictionaries of a collection have no key twice, as any Python
    dictionary. *)
Definition wf_activity (github_activity : GitHubActivity) : Prop :=
  wf_dict (summary github_activity)
  /\ Forall (fun e => wf_dict (processed_info e)) (events github_activity).

(** What the report keeps of an event. *)
Definition event_view (event : GitHubEvent)
  : string * string * string * string * dict :=
  (event_type event, created_at event, repo event, actor event,
   processed_info event).

Lemma wf_event_json (event : GitHubEvent) :
  wf_dict (processed_info event) -> wf (event_json event).
Proof.
  intros H. unfold event_json. literal_dict. exact H.
Qed.

Lemma wf_json_report_data (github_activity : GitHubActivity)
  (data : value) :
  wf_activity github_activity ->
  json_report_data github_activity = Ok data ->
  wf data.
Proof.
  intros [Hs He] E. unfold json_report_data in E.
  destruct (_generate_standup_items github_activity) as [items|];
    [|discriminate].
  simpl in E. inversion E; subst; clear E.
  literal_dict.
  - literal_dict; [exact Hs|].
    apply wf_list. apply Forall_map.
    eapply Forall_impl; [|exact He]. apply wf_event_json.
  - apply wf_list. apply Forall_map. apply Forall_forall. intros x _. exact I.
Qed.

(** Parsing the JSON report gives back the dictionary that was
    serialized. *)
Lemma json_report_loads (github_activity : GitHubActivity) (text : string) :
  wf_activity github_activity ->
  format_standup_report github_activity "json" = Ok text ->
  exists data,
    json_report_data github_activity = Ok data /\ Json.loads text = Some data.
Proof.
  intros Hwf E. unfold format_standup_report in E. simpl in E.
  unfold _format_json_report in E.
  destruct (json_report_data github_activity) as [data|] eqn:Ed;
    [|discriminate].
  simpl in E. inversion E; subst. exists data. split; [reflexivity|].
  apply loads_dumps. now apply (wf_json_report_data github_activity).
Qed.

Lemma event_json_view (e1 e2 : GitHubEvent) :
  event_json e1 = event_json e2 -> event_view e1 = event_view e2.
Proof.
  unfold event_json, event_view. intros H. inversion H. reflexivity.
Qed.

Lemma map_event_json_view (l1 l2 : list GitHubEvent) :
  map event_json l1 = map event_json l2 ->
  map event_view l1 = map event_view l2.
Proof.
  revert l2. induction l1 as [|e1 l1 IH]; intros [|e2 l2] H;
    try discriminate; [reflexivity|].
  simpl in H.
  remember (event_json e1) as j1 eqn:J1.
  remember (event_json e2) as j2 eqn:J2.
  injection H as H1 H2. subst. simpl.
  f_equal; [now apply event_json_view | now apply IH].
Qed.

End JsonReportFacts.

(** C3, as stated, fails: a collection whose only event is the deletion
    of a branch has a non-empty events list, and its JSON report parses to
    an empty [standup_items] list. *)
Lemma json_report_with_no_standup_item :
  let event :=
    mkEvent "DeleteEvent" "2024-07-23T10:00:00Z" "org/repo" "user"
      (mkPayload (Some "old") None None None None None None (Some "branch"))
      [("links", VList []);
       ("details", VList [VStr "Deleted branch 'old'"]);
       ("commits", VList []);
       ("ref_type", VStr "branch");
       ("ref", VStr "old");
       ("action", VStr "deleted")] in
  let collection :=
    mkActivity (mkDatetime 739090 0 0 0 0) (Some "user") None [event]
      [("total_events", VInt 1);
       ("event_types", VDict [("DeleteEvent", VInt 1)]);
       ("repositories", VList [VStr "org/repo"]);
       ("commit_count", VInt 0);
       ("pr_count", VInt 0)] in
  List.length (events collection) = 1%nat
  /\ _generate_summary (events collection) = Ok (summary collection)
  /\ match format_standup_report collection "json" with
     | Ok text =>
         match Json.loads text with
         | Some parsed => lookup_path parsed ["standup_items"]
         | None => None
         end
     | Raise _ => None
     end = Some (VList []).
Proof. vm_compute. repeat split; reflexivity. Qed.

(** C3, amended: when the report is rendered for a collection, parsing
    it gives back [summary.total_events], an events array as long as the
    events list, and the list of standup items; that list is non-empty
    whenever some event is reportable (a push that carries commits, a pull
    request opened, closed or merged, a review, an issue comment, the
    creation of a branch). *)
Theorem json_report_parses_back :
  forall (github_activity : GitHubActivity) (items : list string),
    wf_activity github_activity ->
    _generate_standup_items github_activity = Ok items ->
    exists text parsed parsed_events,
      format_standup_report github_activity "json" = Ok text
      /\ Json.loads text = Some parsed
      /\ lookup_path parsed ["github"; "summary"; "total_events"]
         = dict_get (summary github_activity) "total_events"
      /\ lookup_path parsed ["github"; "events"] = Some (VList parsed_events)
      /\ List.length parsed_events = List.length (events github_activity)
      /\ lookup_path parsed ["standup_items"] = Some (VList (map VStr items))
      /\ (existsb reportable (events github_activity) = true -> items <> []).
Proof.
  intros a items Hwf Hitems.
  assert (Ed : json_report_data a
               = Ok (VDict
                       [("date", VStr (isoformat (target_date a)));
                        ("github",
                         VDict [("summary", VDict (summary a));
                                ("events", VList (map event_json (events a)))]);
                        ("standup_items", VList (map VStr items))])).
  { unfold json_report_data. rewrite Hitems. reflexivity. }
  assert (Et : format_standup_report a "json"
               = Ok (Json.dumps
                       (VDict
                          [("date", VStr (isoformat (target_date a)));
                           ("github",
                            VDict [("summary", VDict (summary a));
                                   ("events",
                                    VList (map event_json (events a)))]);
                           ("standup_items", VList (map VStr items))]))).
  { unfold format_standup_report. simpl. unfold _format_json_report.
    rewrite Ed. reflexivity. }
  destruct (json_report_loads a _ Hwf Et) as [data [Ed' El]].
  rewrite Ed in Ed'. inversion Ed'; subst data.
  eexists. eexists. exists (map event_json (events a)).
  split; [exact Et|]. split; [exact El|].
  split.
  { simpl. destruct (dict_get (summary a) "total_events"); reflexivity. }
  split; [reflexivity|].
  split; [apply length_map|].
  split; [reflexivity|].
  now apply standup_items_nonempty.
Qed.

(** The instance of C3 at a collection with one opened pull request. *)
Lemma json_report_parses_back_witness :
  let event :=
    mkEvent "PullRequestEvent" "2024-07-23T11:00:00Z" "org/repo" "user"
      empty_payload
      [("links", VList [VStr "https://github.com/org/repo/pull/7"]);
       ("details", VList [VStr "PR #7: opened - Fix"]);
       ("commits", VList []);
       ("pr_number", VInt 7);
       ("action", VStr "opened");
       ("title", VStr "Fix")] in
  let collection :=
    mkActivity (mkDatetime 739090 0 0 0 0) (Some "user") None [event]
      [("total_events", VInt 1);
       ("repositories", VList [VStr "org/repo"])] in
  let items :=
    ["- Opened **[PR #7](https://github.com/org/repo/pull/7)**: Fix"] in
  (_generate_standup_items collection = Ok items)
  /\ exists text parsed parsed_events,
       format_standup_report collection "json" = Ok text
       /\ Json.loads text = Some parsed
       /\ lookup_path parsed ["github"; "summary"; "total_events"]
          = dict_get (summary collection) "total_events"
       /\ lookup_path parsed ["github"; "events"]
          = Some (VList parsed_events)
       /\ List.length parsed_events = List.length (events collection)
       /\ lookup_path parsed ["standup_items"]
          = Some (VList (map VStr items))
       /\ (existsb reportable (events collection) = true -> items <> []).
Proof.
  intros event collection items.
  split; [reflexivity|].
  apply (json_report_parses_back collection items).
  - split.
    + literal_dict. apply wf_list. each_member.
    + each_member. literal_dict; apply wf_list; each_member.
  - reflexivity.
Defined.

(** C2, as stated, fails: two collections that differ in the raw payload
    of an event, in the user name and in the repository filter have the
    same JSON report. *)
Lemma json_report_drops_payload :
  let info :=
    [("links", VList []); ("details", VList []); ("commits", VList [])] in
  let first_event :=
    mkEvent "WatchEvent" "2024-07-23T10:00:00Z" "org/repo" "user"
      empty_payload info in
  let second_event :=
    mkEvent "WatchEvent" "2024-07-23T10:00:00Z" "org/repo" "user"
      (mkPayload (Some "refs/heads/main") None None None (Some "started")
         None None None) info in
  let summary := [("total_events", VInt 1)] in
  let first :=
    mkActivity (mkDatetime 739090 0 0 0 0) None None [first_event] summary in
  let second :=
    mkActivity (mkDatetime 739090 0 0 0 0) (Some "user") (Some ["org/repo"])
      [second_event] summary in
  format_standup_report first "json" = format_standup_report second "json"
  /\ (exists text, format_standup_report first "json" = Ok text)
  /\ payload first_event <> payload second_event
  /\ username first <> username second
  /\ repos first <> repos second.
Proof.
  cbv zeta. split; [reflexivity|]. split; [eexists; reflexivity|].
  repeat split; discriminate.
Qed.

(** C2, amended: the JSON report keeps the ISO form of the date, the
    summary and, of every event, the type, the creation time, the
    repository, the actor and the processed information: two collections
    with the same report agree on all of them.  The raw payload of the
    events, the user name and the repository filter are not serialized. *)
Theorem json_report_keeps_serialized_fields :
  forall (first second : GitHubActivity) (text : string),
    wf_activity first -> wf_activity second ->
    format_standup_report first "json" = Ok text ->
    format_standup_report second "json" = Ok text ->
    isoformat (target_date first) = isoformat (target_date second)
    /\ summary first = summary second
    /\ map event_view (events first) = map event_view (events second).
Proof.
  intros a1 a2 text W1 W2 E1 E2.
  destruct (json_report_loads a1 text W1 E1) as [d1 [D1 L1]].
  destruct (json_report_loads a2 text W2 E2) as [d2 [D2 L2]].
  rewrite L1 in L2. inversion L2; subst d2; clear L2.
  unfold json_report_data in D1, D2.
  destruct (_generate_standup_items a1); [|discriminate].
  destruct (_generate_standup_items a2); [|discriminate].
  simpl in D1, D2. rewrite <- D1 in D2. inversion D2 as [[Hd Hs He Hi]].
  split; [now symmetry|]. split; [now symmetry|].
  symmetry. now apply map_event_json_view.
Qed.

(** The instance of C2 at a collection with one event, compared with
    itself. *)
Lemma json_report_keeps_serialized_fields_witness :
  let info :=
    [("links", VList []); ("details", VList []); ("commits", VList [])] in
  let collection :=
    mkActivity (mkDatetime 739090 0 0 0 0) None None
      [mkEvent "WatchEvent" "2024-07-23T10:00:00Z" "org/repo" "user"
         empty_payload info]
      [("total_events", VInt 1)] in
  (exists text, format_standup_report collection "json" = Ok text)
  /\ isoformat (target_date collection) = isoformat (target_date collection)
  /\ summary collection = summary collection
  /\ map event_view (events collection) = map event_view (events collection).
Proof.
  intros info collection.
  assert (W : wf_activity collection).
  { split.
    - literal_dict.
    - each_member. literal_dict; apply wf_list; each_member. }
  split; [eexists; reflexivity|].
  destruct (format_standup_report collection "json") as [text|] eqn:E.
  - exact (json_report_keeps_serialized_fields collection collection text
             W W E E).
  - repeat split.
Defined.


(** ** Markdown links and the text report *)

Section LinkFacts.

(** [c in s] for a character. *)
Fixpoint has_char (c : ascii) (s : string) : bool :=
  match s with
  | EmptyString => false
  | String x s' => Ascii.eqb x c || has_char c s'
  end.

(** [s] without its asterisks. *)
Fixpoint remove_stars (s : string) : string :=
  match s with
  | EmptyString => EmptyString
  | String c s' =>
      if Ascii.eqb c "*" then remove_stars s' else String c (remove_stars s')
  end.

Lemma has_char_append (c : ascii) (a b : string) :
  has_char c (a ++ b) = has_char c a || has_char c b.
Proof.
  induction a as [|x a IH]; simpl; [reflexivity|].
  now rewrite IH, orb_assoc.
Qed.

Lemma remove_stars_append (a b : string) :
  remove_stars (a ++ b) = remove_stars a ++ remove_stars b.
Proof.
  induction a as [|x a IH]; simpl; [reflexivity|].
  destruct (Ascii.eqb x "*"); simpl; now rewrite IH.
Qed.

Lemma startswith_has_char (sub s : string) (c : ascii) (sub' : string) :
  sub = String c sub' -> startswith sub s = true -> has_char c s = true.
Proof.
  intros -> H. destruct s as [|x s]; simpl in H; [discriminate|].
  apply andb_true_iff in H. destruct H as [H _]. simpl.
  rewrite Ascii.eqb_sym. now rewrite H.
Qed.

(** A string that holds a substring holds its first character. *)
Lemma contains_has_char (c : ascii) (sub' s : string) :
  contains (String c sub') s = true -> has_char c s = true.
Proof.
  induction s as [|x s IH]; intros H.
  - simpl in H. discriminate.
  - cbn [contains] in H. apply orb_true_iff in H. destruct H as [H | H].
    + now apply (startswith_has_char (String c sub') _ c sub').
    + simpl. rewrite (IH H). apply orb_true_r.
Qed.

Lemma contains_append_r (sub a b : string) :
  contains sub b = true -> contains sub (a ++ b) = true.
Proof.
  intros H. induction a as [|x a IH]; [exact H|].
  cbn [append contains]. rewrite IH. apply orb_true_r.
Qed.

Lemma startswith_append (sub a b : string) :
  startswith sub a = true -> startswith sub (a ++ b) = true.
Proof.
  revert a. induction sub as [|c sub IH]; intros a H; [reflexivity|].
  destruct a as [|x a]; simpl in *; [discriminate|].
  apply andb_true_iff in H. destruct H as [H1 H2].
  now rewrite H1, (IH a H2).
Qed.

Lemma contains_append_l (sub a b : string) :
  contains sub a = true -> contains sub (a ++ b) = true.
Proof.
  induction a as [|x a IH]; intros H.
  - destruct sub; simpl in H; [|discriminate].
    destruct b; reflexivity.
  - cbn [append contains] in *. apply orb_true_iff in H.
    destruct H as [H | H].
    + pose proof (startswith_append sub (String x a) b H) as S.
      cbn [append] in S. now rewrite S.
    + rewrite (IH H). apply orb_true_r.
Qed.

Lemma contains_join (sub sep line : string) (lines : list string) :
  In line lines -> contains sub line = true ->
  contains sub (join sep lines) = true.
Proof.
  induction lines as [|l lines IH]; intros Hin H; [destruct Hin|].
  destruct lines as [|l' lines].
  - destruct Hin as [-> | []]. exact H.
  - change (join sep (l :: l' :: lines))
      with (l ++ sep ++ join sep (l' :: lines)).
    destruct Hin as [-> | Hin].
    + now apply contains_append_l.
    + apply contains_append_r, contains_append_r. now apply IH.
Qed.

Lemma has_char_join (c : ascii) (sep : string) (lines : list string) :
  has_char c sep = false ->
  Forall (fun line => has_char c line = false) lines ->
  has_char c (join sep lines) = false.
Proof.
  intros Hsep H. induction H as [|l lines Hl Hlines IH]; [reflexivity|].
  destruct lines as [|l' lines]; [exact Hl|].
  change (join sep (l :: l' :: lines))
    with (l ++ sep ++ join sep (l' :: lines)).
  now rewrite !has_char_append, Hl, Hsep, IH.
Qed.

(** *** Removing the emphasis markers *)

Lemma replace_one_star (s : string) : replace "*" "" s = remove_stars s.
Proof.
  unfold replace. induction s as [|c s IH]; [reflexivity|].
  cbn [replace_from remove_stars startswith]. rewrite Ascii.eqb_sym.
  destruct (Ascii.eqb c "*"); simpl; now rewrite IH.
Qed.

Lemma replace_two_stars_bounded (n : nat) :
  forall s, (String.length s <= n)%nat ->
            remove_stars (replace_from "**" "" s 0) = remove_stars s.
Proof.
  induction n as [|n IH]; intros s Hlen.
  - destruct s; [reflexivity | simpl in Hlen; lia].
  - destruct s as [|c s]; [reflexivity|].
    cbn [replace_from].
    destruct (startswith "**" (String c s)) eqn:E.
    + cbn [startswith] in E.
      destruct s as [|c' s]; [rewrite andb_false_r in E; discriminate|].
      apply andb_true_iff in E. destruct E as [E1 E2].
      apply andb_true_iff in E2. destruct E2 as [E2 _].
      apply Ascii.eqb_eq in E1, E2. subst c c'.
      cbn [append String.length Nat.sub replace_from remove_stars].
      simpl (Ascii.eqb "*" "*"). cbv iota.
      apply IH. simpl in Hlen. lia.
    + cbn [remove_stars].
      rewrite (IH s) by (simpl in Hlen; lia).
      destruct (Ascii.eqb c "*"); reflexivity.
Qed.

(** The two replacements of the text report remove every asterisk. *)
Lemma replace_stars (s : string) :
  replace "*" "" (replace "**" "" s) = remove_stars s.
Proof.
  rewrite replace_one_star. unfold replace.
  now apply (replace_two_stars_bounded (String.length s)).
Qed.

Lemma clean_item_spec (item : string) :
  clean_item item = collapse_links (remove_stars item).
Proof. unfold clean_item. now rewrite replace_stars. Qed.

(** *** Collapsing well-formed links *)

Lemma span_stop (stop : ascii) (a b : string) :
  has_char stop a = false ->
  span stop (a ++ String stop b) = (a, String stop b).
Proof.
  induction a as [|x a IH]; intros H.
  - simpl. now rewrite Ascii.eqb_refl.
  - simpl in H. apply orb_false_iff in H. destruct H as [Hx Ha].
    simpl. rewrite Hx, (IH Ha). reflexivity.
Qed.

Lemma match_link_link (label target rest : string) :
  label <> "" -> has_char "]" label = false ->
  target <> "" -> has_char ")" target = false ->
  match_link ("[" ++ label ++ "](" ++ target ++ ")" ++ rest)
  = Some (label, (String.length label + String.length target + 4)%nat).
Proof.
  intros Hl Hlc Ht Htc. cbn [append match_link].
  rewrite Ascii.eqb_refl.
  change (label ++ String "]" (String "(" (target ++ String ")" rest)))
    with (label ++ String "]" (String "(" (target ++ String ")" rest))).
  rewrite (span_stop "]" label _ Hlc).
  destruct label as [|l label]; [contradiction|].
  rewrite !Ascii.eqb_refl. cbn [andb].
  rewrite (span_stop ")" target _ Htc).
  destruct target as [|u target]; [contradiction|].
  rewrite Ascii.eqb_refl. reflexivity.
Qed.

Lemma match_link_not_open (c : ascii) (s : string) :
  Ascii.eqb c "[" = false -> match_link (String c s) = None.
Proof. intros H. simpl. now rewrite H. Qed.

Lemma collapse_text (t s : string) :
  has_char "[" t = false ->
  collapse_from (t ++ s) 0 = t ++ collapse_from s 0.
Proof.
  induction t as [|c t IH]; intros H; [reflexivity|].
  simpl in H. apply orb_false_iff in H. destruct H as [Hc Ht].
  cbn [append collapse_from].
  rewrite (match_link_not_open c _ Hc). now rewrite (IH Ht).
Qed.

Lemma collapse_skip (a s : string) :
  collapse_from (a ++ s) (String.length a) = collapse_from s 0.
Proof.
  induction a as [|c a IH]; [reflexivity|].
  cbn [append String.length collapse_from]. exact IH.
Qed.

Lemma collapse_link (label target rest : string) :
  label <> "" -> has_char "]" label = false ->
  target <> "" -> has_char ")" target = false ->
  collapse_from ("[" ++ label ++ "](" ++ target ++ ")" ++ rest) 0
  = label ++ collapse_from rest 0.
Proof.
  intros Hl Hlc Ht Htc.
  pose proof (match_link_link label target rest Hl Hlc Ht Htc) as E.
  cbn [append] in E |- *. cbn [collapse_from]. rewrite E. f_equal.
  replace (label ++ String "]" (String "(" (target ++ String ")" rest)))
    with ((label ++ "](" ++ target ++ ")") ++ rest)
    by (rewrite !append_assoc; reflexivity).
  replace (String.length label + String.length target + 4 - 1)%nat
    with (String.length (label ++ "](" ++ target ++ ")")).
  - apply collapse_skip.
  - rewrite !length_append. simpl. lia.
Qed.

(** A string made of text without square brackets and of links with a
    non-empty label and a non-empty target. *)
Inductive linked : string -> Prop :=
| linked_text (t : string) :
    has_char "[" t = false -> has_char "]" t = false -> linked t
| linked_link (t label target rest : string) :
    has_char "[" t = false -> has_char "]" t = false ->
    label <> "" -> has_char "]" label = false ->
    target <> "" -> has_char ")" target = false ->
    linked rest ->
    linked (t ++ "[" ++ label ++ "](" ++ target ++ ")" ++ rest).

(** Collapsing the links of such a string leaves no closing bracket. *)
Lemma collapse_linked (s : string) :
  linked s -> has_char "]" (collapse_links s) = false.
Proof.
  unfold collapse_links.
  induction 1 as [t Ho Hc | t label target rest Ho Hc Hl Hlc Ht Htc Hr IH].
  - rewrite <- (append_nil_r t). rewrite (collapse_text t "" Ho).
    simpl. now rewrite append_nil_r.
  - rewrite (collapse_text t _ Ho).
    rewrite (collapse_link label target rest Hl Hlc Ht Htc).
    now rewrite !has_char_append, Hc, Hlc, IH.
Qed.

End LinkFacts.


(** ** The text and the markdown report *)

Section ReportFacts.

Lemma is_digit_not_bracket (c : ascii) :
  Json.is_digit c = true -> Ascii.eqb c "]" = false.
Proof.
  destruct c as [[] [] [] [] [] [] [] []]; intros H;
    solve [reflexivity | discriminate H].
Qed.

Lemma digits_fuel_no_bracket (fuel n : nat) (acc : string) :
  has_char "]" (digits_fuel fuel n acc) = has_char "]" acc.
Proof.
  revert n acc. induction fuel as [|fuel IH]; intros n acc; [reflexivity|].
  rewrite digits_fuel_S.
  assert (Hd : Ascii.eqb (digit_char (n mod 10)) "]" = false).
  { apply is_digit_not_bracket. apply digit_char_spec.
    apply Nat.mod_upper_bound. lia. }
  destruct (n <? 10)%nat; [|rewrite IH]; cbn [has_char]; now rewrite Hd.
Qed.

Lemma str_of_Z_no_bracket (z : Z) : has_char "]" (str_of_Z z) = false.
Proof.
  destruct z as [|p|p]; [reflexivity| |];
    unfold str_of_Z, str_of_nat; cbn [has_char];
    now rewrite digits_fuel_no_bracket.
Qed.

Lemma repeat_char_no_bracket (c : ascii) (n : nat) :
  Ascii.eqb c "]" = false -> has_char "]" (repeat_char c n) = false.
Proof.
  intros H. induction n as [|n IH]; [reflexivity|]. simpl. now rewrite H.
Qed.

Lemma pad_no_bracket (w : nat) (z : Z) : has_char "]" (pad w z) = false.
Proof.
  unfold pad. rewrite has_char_append, str_of_Z_no_bracket.
  now rewrite repeat_char_no_bracket.
Qed.

Lemma month_name_no_bracket (m : Z) : has_char "]" (month_name m) = false.
Proof.
  unfold month_name.
  repeat match goal with
         | |- context [match ?x with _ => _ end] => destruct x
         end; reflexivity.
Qed.

Lemma strftime_BdY_no_bracket (d : datetime) :
  has_char "]" (strftime_BdY d) = false.
Proof.
  unfold strftime_BdY.
  rewrite !has_char_append, month_name_no_bracket, !pad_no_bracket.
  reflexivity.
Qed.

Lemma Ok_inj {A : Type} (a b : A) : Ok a = Ok b -> a = b.
Proof. intros H. now inversion H. Qed.

Lemma format_text (github_activity : GitHubActivity) :
  format_standup_report github_activity "text"
  = _format_text_report github_activity.
Proof. reflexivity. Qed.

Lemma format_markdown (github_activity : GitHubActivity) :
  format_standup_report github_activity "markdown"
  = _format_markdown_report github_activity.
Proof. reflexivity. Qed.

(** The lines of the two reports made of the standup items. *)
Definition text_lines (github_activity : GitHubActivity)
  (items : list string) : list string :=
  ["Standup Summary - " ++ strftime_BdY (target_date github_activity);
   repeat_char "=" 50;
   ""]
  ++ match items with
     | [] => ["No significant activity to report."]
     | _ => map (fun item => collapse_links (remove_stars item)) items
     end.

Definition markdown_lines (github_activity : GitHubActivity)
  (items : list string) : list string :=
  ["# Standup Summary - " ++ strftime_BdY (target_date github_activity);
   ""]
  ++ match items with
     | [] => ["No significant activity to report."]
     | _ => items
     end
  ++ [""; "---"; ""].

Lemma text_report_lines (github_activity : GitHubActivity)
  (items : list string) :
  _generate_standup_items github_activity = Ok items ->
  format_standup_report github_activity "text"
  = Ok (join newline (text_lines github_activity items)).
Proof.
  intros E. rewrite format_text.
  unfold _format_text_report. rewrite E. cbn [bind]. unfold text_lines.
  do 3 f_equal. destruct items as [|item items]; [reflexivity|].
  apply map_ext. intros x. apply clean_item_spec.
Qed.

Lemma markdown_report_lines (github_activity : GitHubActivity)
  (items : list string) (md : string) :
  _generate_standup_items github_activity = Ok items ->
  format_standup_report github_activity "markdown" = Ok md ->
  exists details,
    md = join newline (markdown_lines github_activity items ++ details).
Proof.
  intros E Hmd. rewrite format_markdown in Hmd.
  unfold _format_markdown_report in Hmd. rewrite E in Hmd.
  cbn [bind] in Hmd.
  destruct (events github_activity) as [|event events].
  - inversion Hmd; subst. exists []. now rewrite app_nil_r.
  - destruct (dict_item (summary github_activity) "total_events")
      as [total|]; [|discriminate]. cbn [bind] in Hmd.
    destruct (py_str total) as [total_str|]; [|discriminate].
    cbn [bind] in Hmd.
    destruct (dict_item (summary github_activity) "repositories")
      as [repositories|]; [|discriminate]. cbn [bind] in Hmd.
    destruct (py_len repositories) as [count|]; [|discriminate].
    cbn [bind] in Hmd.
    destruct (py_sorted repositories) as [sorted|]; [|discriminate].
    cbn [bind] in Hmd.
    destruct (mapM repo_link_line sorted) as [repo_lines|]; [|discriminate].
    cbn [bind] in Hmd. inversion Hmd; subst. eexists. reflexivity.
Qed.

Lemma text_report_no_link (github_activity : GitHubActivity)
  (items : list string) :
  Forall (fun item => linked (remove_stars item)) items ->
  contains "](http" (join newline (text_lines github_activity items)) = false.
Proof.
  intros H.
  destruct (contains "](http" (join newline (text_lines github_activity items)))
    eqn:E; [|reflexivity].
  apply contains_has_char in E.
  rewrite has_char_join in E; [discriminate | reflexivity |].
  unfold text_lines. apply Forall_app. split.
  - repeat constructor.
    rewrite has_char_append. now rewrite strftime_BdY_no_bracket.
  - destruct items as [|item items]; [repeat constructor|].
    apply Forall_map. eapply Forall_impl; [|exact H].
    intros x. apply collapse_linked.
Qed.

Lemma insert_str_nonempty (x : string) (sorted : list string) :
  insert_str x sorted <> [].
Proof.
  destruct sorted as [|y rest]; simpl; [discriminate|].
  destruct (String.leb x y); discriminate.
Qed.

Lemma py_sorted_nonempty (first : value) (more sorted : list value) :
  py_sorted (VList (first :: more)) = Ok sorted -> sorted <> [].
Proof.
  unfold py_sorted. cbn [iterate bind].
  destruct (all_strings (first :: more)) as [ss|] eqn:E.
  - intros H. inversion H; subst.
    destruct ss as [|s ss].
    + simpl in E. destruct first; try discriminate.
      destruct (all_strings more); discriminate.
    + simpl. intros Hn. apply map_eq_nil in Hn.
      now apply insert_str_nonempty in Hn.
  - destruct more; intros H; inversion H; discriminate.
Qed.

Lemma repo_link_line_has_link (repo : value) (line : string) :
  repo_link_line repo = Ok line -> contains "](http" line = true.
Proof.
  unfold repo_link_line. destruct (py_str repo) as [r|]; [|discriminate].
  simpl. intros H. inversion H; subst.
  apply (contains_append_r _ "- ["), (contains_append_r _ r).
  reflexivity.
Qed.

(** With an event and a repository in its summary, the markdown report
    holds a link. *)
Lemma markdown_report_has_link (github_activity : GitHubActivity)
  (md : string) (first : value) (more : list value) :
  events github_activity <> [] ->
  dict_get (summary github_activity) "repositories"
  = Some (VList (first :: more)) ->
  format_standup_report github_activity "markdown" = Ok md ->
  contains "](http" md = true.
Proof.
  intros He Hr Hmd. rewrite format_markdown in Hmd.
  unfold _format_markdown_report in Hmd.
  destruct (_generate_standup_items github_activity) as [items|];
    [|discriminate]. cbn [bind] in Hmd.
  destruct (events github_activity) as [|event events]; [contradiction|].
  destruct (dict_item (summary github_activity) "total_events")
    as [total|]; [|discriminate]. cbn [bind] in Hmd.
  destruct (py_str total) as [total_str|]; [|discriminate].
  cbn [bind] in Hmd.
  unfold dict_item in Hmd. rewrite Hr in Hmd. cbn [bind] in Hmd.
  destruct (py_len (VList (first :: more))) as [count|]; [|discriminate].
  cbn [bind] in Hmd.
  destruct (py_sorted (VList (first :: more))) as [sorted|] eqn:Es;
    [|discriminate].
  cbn [bind] in Hmd.
  destruct (mapM repo_link_line sorted) as [repo_lines|] eqn:El;
    [|discriminate].
  cbn [bind] in Hmd. apply Ok_inj in Hmd. rewrite <- Hmd. clear Hmd.
  apply py_sorted_nonempty in Es.
  destruct sorted as [|x sorted]; [contradiction|].
  simpl in El. destruct (repo_link_line x) as [line|] eqn:Ex; [|discriminate].
  simpl in El. destruct (mapM repo_link_line sorted) as [lines|];
    [|discriminate].
  simpl in El. inversion El; subst.
  apply (contains_join _ _ line); [|now apply (repo_link_line_has_link x)].
  apply in_or_app. right. apply in_or_app. right. now left.
Qed.

(** The summary the adapters generate for a collection with an event
    lists a repository, so the markdown report of what [get_activity]
    returns with an event holds a link. *)
Lemma summary_loop_repositories (events : list GitHubEvent) :
  forall event_types repositories commit_count pr_count acc,
    summary_loop events event_types repositories commit_count pr_count
    = Ok acc ->
    repositories <> [] \/ events <> [] ->
    snd (fst (fst acc)) <> [].
Proof.
  induction events as [|event rest IH];
    intros event_types repositories commit_count pr_count acc E H.
  - cbn [summary_loop] in E. apply Ok_inj in E. subst acc. cbn [fst snd].
    destruct H as [H | H]; [exact H | contradiction].
  - cbn [summary_loop] in E. cbv zeta in E.
    destruct (match dict_get_default event_types (event_type event) (VInt 0)
              with VInt n => Ok n | _ => Raise TypeError end)
      as [count|]; [|discriminate].
    cbn [bind] in E.
    assert (Hr : (if existsb (String.eqb (repo event)) repositories
                  then repositories
                  else (repositories ++ [repo event])%list) <> []).
    { destruct (existsb (String.eqb (repo event)) repositories) eqn:Ex.
      - destruct repositories; [discriminate Ex | discriminate].
      - destruct repositories; discriminate. }
    destruct (String.eqb (event_type event) "PushEvent").
    + destruct (py_len _) as [n|]; [|discriminate]. cbn [bind] in E.
      exact (IH _ _ _ _ _ E (or_introl Hr)).
    + destruct (String.eqb (event_type event) "PullRequestEvent");
        exact (IH _ _ _ _ _ E (or_introl Hr)).
Qed.

Lemma generated_summary_lists_repository (events : list GitHubEvent)
  (generated : dict) :
  events <> [] ->
  _generate_summary events = Ok generated ->
  exists first more,
    dict_get generated "repositories" = Some (VList (first :: more)).
Proof.
  intros He E. unfold _generate_summary in E.
  destruct (summary_loop events [] [] 0 0) as [acc|] eqn:El; [|discriminate].
  cbn [bind] in E.
  pose proof (summary_loop_repositories events _ _ _ _ _ El (or_intror He))
    as Hr.
  destruct acc as [[[event_types repositories] commit_count] pr_count].
  apply Ok_inj in E. subst generated. cbn [fst snd] in Hr.
  destruct repositories as [|r rs]; [contradiction|].
  exists (VStr r), (map VStr rs). reflexivity.
Qed.

Lemma insert_event_nonempty (e : GitHubEvent) (sorted : list GitHubEvent) :
  insert_event e sorted <> [].
Proof.
  destruct sorted as [|e' rest]; cbn [insert_event]; [discriminate|].
  destruct (String.leb (created_at e) (created_at e')); discriminate.
Qed.

Lemma fetched_markdown_report_has_link (target_date : datetime)
  (username : option string) (repos : option (list string))
  (fetched : list GitHubEvent) (github_activity : GitHubActivity)
  (md : string) :
  fetched <> [] ->
  finish_activity target_date username repos fetched = Ok github_activity ->
  format_standup_report github_activity "markdown" = Ok md ->
  contains "](http" md = true.
Proof.
  intros He E Hmd. unfold finish_activity in E. cbv zeta in E.
  destruct (_generate_summary (sort_events fetched)) as [generated|] eqn:Es;
    [|discriminate].
  cbn [bind] in E. apply Ok_inj in E. subst github_activity.
  assert (Hs : sort_events fetched <> []).
  { destruct fetched as [|e rest]; [contradiction|].
    apply insert_event_nonempty. }
  destruct (generated_summary_lists_repository _ _ Hs Es)
    as (first & more & Hr).
  exact (markdown_report_has_link
           (mkActivity target_date username repos (sort_events fetched)
              generated) md first more Hs Hr Hmd).
Qed.

End ReportFacts.


(** ** Tidy collections

    A collection is tidy when the strings its standup items interpolate
    hold no square bracket, no asterisk and no closing parenthesis, and when
    repositories, hashes and link targets are not empty.  The classifier
    produces such events from tidy raw strings. *)

Section TidyFacts.

Definition plainb (s : string) : bool :=
  negb (has_char "[" s) && negb (has_char "]" s)
  && negb (has_char "*" s) && negb (has_char ")" s).

Definition solidb (s : string) : bool :=
  plainb s && negb (String.eqb s "").

(** A check on what an f-string shows of a value. *)
Definition rendered (check : string -> bool) (v : value) : bool :=
  match py_str v with
  | Ok s => check s
  | Raise _ => true
  end.

Definition tidy_result (r : result string) : bool :=
  match r with
  | Ok s => solidb s
  | Raise _ => true
  end.

Definition tidy_field (check : string -> bool) (c : value) (k : string)
  : bool :=
  match subscript c k with
  | Ok v => rendered check v
  | Raise _ => true
  end.

Definition tidy_commit (c : value) : bool :=
  tidy_field plainb c "message" && tidy_field solidb c "sha"
  && tidy_field solidb c "link".

Definition tidy_event (e : GitHubEvent) : bool :=
  solidb (repo e)
  && rendered plainb (info_get e "pr_number" (VStr ""))
  && rendered plainb (info_get e "title" (VStr ""))
  && rendered plainb (info_get e "review_state" (VStr ""))
  && rendered plainb (info_get e "issue_number" (VStr ""))
  && rendered plainb (info_get e "ref" (VStr ""))
  && (negb (is_type e "PullRequestEvent"
            || is_type e "PullRequestReviewEvent")
      || tidy_result
           (first_link (info_get e "links" (VList []))
              (pull_link e (info_get e "pr_number" (VStr "")))))
  && (negb (is_type e "IssueCommentEvent")
      || tidy_result (first_link (info_get e "links" (VList [])) (Ok "")))
  && match iterate (info_get e "commits" (VList [])) with
     | Ok cs => forallb tidy_commit cs
     | Raise _ => true
     end.

Definition text_only (s : string) : Prop :=
  has_char "[" s = false /\ has_char "]" s = false.

Lemma plainb_spec (s : string) :
  plainb s = true ->
  has_char "[" s = false /\ has_char "]" s = false
  /\ has_char "*" s = false /\ has_char ")" s = false.
Proof.
  unfold plainb. intros H.
  repeat (apply andb_true_iff in H; destruct H as [H ?]).
  repeat split; now apply negb_true_iff.
Qed.

Lemma solidb_spec (s : string) :
  solidb s = true -> plainb s = true /\ s <> "".
Proof.
  unfold solidb. intros H. apply andb_true_iff in H. destruct H as [H N].
  split; [exact H|]. apply negb_true_iff in N. now apply String.eqb_neq.
Qed.

Lemma remove_stars_plain (s : string) :
  has_char "*" s = false -> remove_stars s = s.
Proof.
  induction s as [|c s IH]; intros H; [reflexivity|].
  cbn [has_char] in H. apply orb_false_iff in H. destruct H as [Hc Hs].
  cbn [remove_stars]. now rewrite Hc, (IH Hs).
Qed.

Lemma digits_fuel_has_char (c : ascii) (fuel n : nat) (acc : string) :
  Json.is_digit c = false ->
  has_char c (digits_fuel fuel n acc) = has_char c acc.
Proof.
  intros Hc. revert n acc.
  induction fuel as [|fuel IH]; intros n acc; [reflexivity|].
  rewrite digits_fuel_S.
  assert (Hd : Ascii.eqb (digit_char (n mod 10)) c = false).
  { destruct (Ascii.eqb (digit_char (n mod 10)) c) eqn:E; [|reflexivity].
    apply Ascii.eqb_eq in E. subst c.
    destruct (digit_char_spec (n mod 10)) as [Hd _];
      [apply Nat.mod_upper_bound; lia | congruence]. }
  destruct (n <? 10)%nat; [|rewrite IH]; cbn [has_char]; now rewrite Hd.
Qed.

Lemma str_of_nat_plain (n : nat) : plainb (str_of_nat n) = true.
Proof.
  unfold plainb, str_of_nat.
  now rewrite !digits_fuel_has_char by reflexivity.
Qed.

Lemma str_of_Z_plain (z : Z) : plainb (str_of_Z z) = true.
Proof.
  destruct z as [|p|p]; [reflexivity | apply str_of_nat_plain |].
  unfold plainb, str_of_Z, str_of_nat. cbn [has_char].
  now rewrite !digits_fuel_has_char by reflexivity.
Qed.

(** Text may be put in front of a linked string. *)
Lemma linked_prepend (t s : string) :
  text_only t -> linked s -> linked (t ++ s).
Proof.
  intros [To Tc] H.
  destruct H as [t' Ho Hc | t' label target rest Ho Hc Hl Hlc Ht Htc Hr].
  - apply linked_text; rewrite has_char_append; [now rewrite To, Ho|].
    now rewrite Tc, Hc.
  - rewrite <- append_assoc.
    apply linked_link; auto; rewrite has_char_append;
      [now rewrite To, Ho | now rewrite Tc, Hc].
Qed.

Lemma linked_one_link (label target rest : string) :
  label <> "" -> has_char "]" label = false ->
  target <> "" -> has_char ")" target = false ->
  linked rest ->
  linked ("[" ++ label ++ "](" ++ target ++ ")" ++ rest).
Proof.
  intros. now apply (linked_link "" label target rest).
Qed.

(** An item whose asterisks are removed and that reads as text, a link
    and a linked remainder. *)
Lemma linked_item (item t label target rest : string) :
  remove_stars item = t ++ "[" ++ label ++ "](" ++ target ++ ")" ++ rest ->
  text_only t ->
  label <> "" -> has_char "]" label = false ->
  target <> "" -> has_char ")" target = false ->
  linked rest ->
  linked (remove_stars item).
Proof.
  intros -> Ht Hl Hlc Hg Hgc Hr.
  apply linked_prepend; [exact Ht|]. now apply linked_one_link.
Qed.

Lemma append_nonempty_l (a b : string) : a <> "" -> a ++ b <> "".
Proof. destruct a; [contradiction | discriminate]. Qed.

End TidyFacts.

(** Solves [has_char c s = false] for a concatenation of literals and of
    strings known to be free of [c]. *)
Ltac no_char :=
  rewrite ?has_char_append;
  repeat match goal with
         | H : has_char _ _ = false |- _ => rewrite H
         end;
  reflexivity.

(** Splits the hypotheses [plainb s = true] and [solidb s = true]. *)
Ltac split_plain :=
  repeat match goal with
         | H : solidb _ = true |- _ =>
             apply solidb_spec in H; destruct H as [H ?]
         | H : plainb _ = true |- _ =>
             apply plainb_spec in H; destruct H as (? & ? & ? & ?)
         end.

(** Proves that an item without its asterisks is a given concatenation. *)
Ltac stars :=
  rewrite ?remove_stars_append;
  repeat match goal with
         | H : has_char "*" ?s = false |- _ =>
             rewrite (remove_stars_plain s H)
         end;
  rewrite ?append_assoc; reflexivity.

Section TidyItems.

Definition linked_item_line (item : string) : Prop :=
  linked (remove_stars item).

Lemma concatM_Forall {A : Type} (P : string -> Prop)
  (f : A -> result (list string)) (xs : list A) :
  forall ys,
    (forall x zs, In x xs -> f x = Ok zs -> Forall P zs) ->
    concatM f xs = Ok ys -> Forall P ys.
Proof.
  induction xs as [|x xs IH]; intros ys Hf E.
  - cbn [concatM] in E. apply Ok_inj in E. subst. constructor.
  - cbn [concatM] in E.
    destruct (f x) as [zs|] eqn:Ex; [|discriminate]. cbn [bind] in E.
    destruct (concatM f xs) as [ws|] eqn:Ew; [|discriminate].
    cbn [bind] in E. apply Ok_inj in E. subst.
    apply Forall_app. split.
    + apply (Hf x zs); [now left | exact Ex].
    + apply IH; [|reflexivity]. intros x' zs' Hin. apply Hf. now right.
Qed.

Lemma mapM_Forall {A : Type} (P : string -> Prop) (f : A -> result string)
  (xs : list A) :
  forall ys,
    (forall x z, In x xs -> f x = Ok z -> P z) ->
    mapM f xs = Ok ys -> Forall P ys.
Proof.
  induction xs as [|x xs IH]; intros ys Hf E.
  - cbn [mapM] in E. apply Ok_inj in E. subst. constructor.
  - cbn [mapM] in E.
    destruct (f x) as [z|] eqn:Ex; [|discriminate]. cbn [bind] in E.
    destruct (mapM f xs) as [zs|] eqn:Ez; [|discriminate].
    cbn [bind] in E. apply Ok_inj in E. subst.
    constructor.
    + apply (Hf x z); [now left | exact Ex].
    + apply IH; [|reflexivity]. intros x' z' Hin. apply Hf. now right.
Qed.

Lemma firstn_subset {A : Type} (n : nat) (l : list A) (x : A) :
  In x (firstn n l) -> In x l.
Proof.
  revert l. induction n as [|n IH]; intros [|y l] H; simpl in H;
    try contradiction.
  destruct H as [-> | H]; [now left | right; now apply IH].
Qed.

Lemma commit_line_linked (c : value) (line : string) :
  tidy_commit c = true -> commit_line c = Ok line -> linked_item_line line.
Proof.
  unfold tidy_commit, tidy_field, rendered, commit_line, linked_item_line.
  destruct (subscript c "message") as [m|]; [|discriminate 2].
  cbn [bind]. destruct (py_str m) as [message|]; [|discriminate 2].
  cbn [bind]. destruct (subscript c "sha") as [h|]; [|discriminate 2].
  cbn [bind]. destruct (py_str h) as [sha|]; [|discriminate 2].
  cbn [bind]. destruct (subscript c "link") as [l|]; [|discriminate 2].
  cbn [bind]. destruct (py_str l) as [link|]; [|discriminate 2].
  cbn [bind]. intros T E. apply Ok_inj in E. subst line.
  apply andb_true_iff in T. destruct T as [T Tl].
  apply andb_true_iff in T. destruct T as [Tm Ts].
  split_plain.
  apply (linked_item _ ("  - " ++ message ++ " (") sha link ")"); auto.
  - stars.
  - split; no_char.
  - apply linked_text; reflexivity.
Qed.

Lemma repo_commit_items_linked (repo : string) (commits : list value)
  (zs : list string) :
  solidb repo = true ->
  forallb tidy_commit commits = true ->
  repo_commit_items repo commits = Ok zs ->
  Forall linked_item_line zs.
Proof.
  intros Hrepo Hc E. unfold repo_commit_items in E.
  assert (Hmany :
    (let n := List.length commits in
     let head :=
       "- Made **" ++ str_of_nat n ++ " commits** to [" ++ repo
       ++ "](https://github.com/" ++ repo ++ ")" in
     let more :=
       if (3 <? n)%nat
       then ["  - *(and " ++ str_of_nat (n - 3) ++ " more)*"]
       else [] in
     shown <- mapM commit_line (firstn 3 commits) ;;
     Ok (head :: List.app shown more)) = Ok zs ->
    Forall linked_item_line zs).
  { clear E. cbv zeta. intros E.
    destruct (mapM commit_line (firstn 3 commits)) as [shown|] eqn:Es;
      [|discriminate].
    cbn [bind] in E. apply Ok_inj in E. subst zs.
    pose proof (str_of_nat_plain (List.length commits)) as Hn.
    pose proof (str_of_nat_plain (List.length commits - 3)) as Hk.
    split_plain.
    constructor; [|apply Forall_app; split].
    - apply (linked_item _
               ("- Made " ++ str_of_nat (List.length commits)
                ++ " commits to ")
               repo ("https://github.com/" ++ repo) ""); auto.
      + stars.
      + split; no_char.
      + discriminate.
      + apply linked_text; reflexivity.
    - apply (mapM_Forall _ _ _ _ (fun x z Hin => commit_line_linked x z
               (proj1 (forallb_forall _ _) Hc x
                  (firstn_subset 3 commits x Hin))) Es).
    - destruct (3 <? List.length commits)%nat; [|constructor].
      constructor; [|constructor].
      apply linked_text.
      + replace (remove_stars
                   ("  - *(and " ++ str_of_nat (List.length commits - 3)
                    ++ " more)*"))
          with ("  - (and " ++ str_of_nat (List.length commits - 3)
                ++ " more)") by (symmetry; stars).
        no_char.
      + replace (remove_stars
                   ("  - *(and " ++ str_of_nat (List.length commits - 3)
                    ++ " more)*"))
          with ("  - (and " ++ str_of_nat (List.length commits - 3)
                ++ " more)") by (symmetry; stars).
        no_char. }
  destruct commits as [|c [|c' more]]; [now apply Hmany | | now apply Hmany].
  clear Hmany. cbn [forallb] in Hc. rewrite andb_true_r in Hc.
  unfold tidy_commit, tidy_field, rendered in Hc.
  revert Hc E.
  destruct (subscript c "message") as [m|]; [|discriminate 2].
  cbn [bind]. destruct (py_str m) as [message|]; [|discriminate 2].
  cbn [bind]. destruct (subscript c "link") as [l|]; [|discriminate 2].
  cbn [bind]. destruct (py_str l) as [link|]; [|discriminate 2].
  cbn [bind]. intros T E. apply Ok_inj in E. subst zs.
  apply andb_true_iff in T. destruct T as [T Tl].
  apply andb_true_iff in T. destruct T as [Tm _].
  split_plain.
  constructor; [|constructor].
  apply (linked_item _ ("- Committed " ++ message ++ " to ") repo link "");
    auto.
  - stars.
  - split; no_char.
  - apply linked_text; reflexivity.
Qed.

Lemma tidy_event_spec (e : GitHubEvent) :
  tidy_event e = true ->
  solidb (repo e) = true
  /\ rendered plainb (info_get e "pr_number" (VStr "")) = true
  /\ rendered plainb (info_get e "title" (VStr "")) = true
  /\ rendered plainb (info_get e "review_state" (VStr "")) = true
  /\ rendered plainb (info_get e "issue_number" (VStr "")) = true
  /\ rendered plainb (info_get e "ref" (VStr "")) = true
  /\ (is_type e "PullRequestEvent" = true
      \/ is_type e "PullRequestReviewEvent" = true ->
      tidy_result
        (first_link (info_get e "links" (VList []))
           (pull_link e (info_get e "pr_number" (VStr "")))) = true)
  /\ (is_type e "IssueCommentEvent" = true ->
      tidy_result (first_link (info_get e "links" (VList [])) (Ok ""))
      = true)
  /\ (forall cs, iterate (info_get e "commits" (VList [])) = Ok cs ->
                 forallb tidy_commit cs = true).
Proof.
  unfold tidy_event. intros H.
  apply andb_true_iff in H; destruct H as [H Hcommits].
  apply andb_true_iff in H; destruct H as [H Hcomment].
  apply andb_true_iff in H; destruct H as [H Hpull].
  apply andb_true_iff in H; destruct H as [H Href].
  apply andb_true_iff in H; destruct H as [H Hissue].
  apply andb_true_iff in H; destruct H as [H Hreview].
  apply andb_true_iff in H; destruct H as [H Htitle].
  apply andb_true_iff in H; destruct H as [Hrepo Hnumber].
  refine (conj Hrepo (conj Hnumber (conj Htitle (conj Hreview
            (conj Hissue (conj Href (conj _ (conj _ _)))))))).
  - intros Ht.
    apply orb_true_iff in Hpull; destruct Hpull as [G | G]; [|exact G].
    apply negb_true_iff in G.
    destruct Ht as [Ht | Ht]; rewrite Ht in G;
      [discriminate | rewrite orb_true_r in G; discriminate].
  - intros Ht. rewrite Ht in Hcomment. exact Hcomment.
  - intros cs E. rewrite E in Hcommits. exact Hcommits.
Qed.

(** The commits grouped by repository are tidy. *)
Definition tidy_group (rc : string * list value) : Prop :=
  solidb (fst rc) = true /\ forallb tidy_commit (snd rc) = true.

Lemma extend_at_tidy (d : list (string * list value)) (k : string)
  (xs : list value) :
  Forall tidy_group d -> solidb k = true ->
  forallb tidy_commit xs = true ->
  Forall tidy_group (extend_at d k xs).
Proof.
  intros Hd Hk Hx. induction Hd as [|[k' ys] d [Hk' Hy] Hd IH].
  - repeat constructor; assumption.
  - cbn [extend_at]. destruct (String.eqb k' k).
    + constructor; [|exact Hd]. split; [exact Hk'|].
      cbn [snd] in *. now rewrite forallb_app, Hy, Hx.
    + constructor; [now split | exact IH].
Qed.

Lemma commits_by_repo_tidy (events : list GitHubEvent) :
  forall acc by_repo,
    Forall tidy_group acc ->
    (forall e, In e events -> tidy_event e = true) ->
    commits_by_repo events acc = Ok by_repo ->
    Forall tidy_group by_repo.
Proof.
  induction events as [|event rest IH]; intros acc by_repo Hacc Ht E.
  - cbn [commits_by_repo] in E. apply Ok_inj in E. now subst.
  - cbn [commits_by_repo] in E.
    destruct (iterate (info_get event "commits" (VList []))) as [found|]
      eqn:Ef; [|discriminate].
    cbn [bind] in E.
    destruct (tidy_event_spec event (Ht event (or_introl eq_refl)))
      as (Hr & _ & _ & _ & _ & _ & _ & _ & Hc).
    apply (IH _ _ (extend_at_tidy acc (repo event) found Hacc Hr
                     (Hc found Ef))); [|exact E].
    intros e Hin. apply Ht. now right.
Qed.

Lemma format_commit_items_linked (events : list GitHubEvent)
  (ys : list string) :
  (forall e, In e events -> tidy_event e = true) ->
  _format_commit_items events = Ok ys ->
  Forall linked_item_line ys.
Proof.
  intros Ht E. unfold _format_commit_items in E.
  destruct (commits_by_repo events []) as [by_repo|] eqn:Eb; [|discriminate].
  cbn [bind] in E.
  pose proof (commits_by_repo_tidy events [] by_repo (Forall_nil _) Ht Eb)
    as Hb.
  apply (concatM_Forall _ _ _ _
           (fun rc zs Hin Ez =>
              repo_commit_items_linked (fst rc) (snd rc) zs
                (proj1 (proj1 (Forall_forall _ _) Hb rc Hin))
                (proj2 (proj1 (Forall_forall _ _) Hb rc Hin)) Ez) E).
Qed.

(** The line of a pull request or of a review. *)
Lemma pull_line_linked (before label_head number link after : string) :
  text_only before -> has_char "*" before = false ->
  has_char "]" label_head = false -> has_char "*" label_head = false ->
  label_head <> "" ->
  plainb number = true -> solidb link = true ->
  text_only after -> has_char "*" after = false ->
  linked_item_line
    (before ++ "**[" ++ label_head ++ number ++ "](" ++ link ++ ")**"
     ++ after).
Proof.
  intros Hb Hbs Hl Hls Hne Hn Hk Ha Has. unfold linked_item_line.
  split_plain.
  apply (linked_item _ before (label_head ++ number) link after); auto.
  - stars.
  - now apply append_nonempty_l.
  - no_char.
  - destruct Ha. now apply linked_text.
Qed.

Lemma pr_item_linked (event : GitHubEvent) (zs : list string) :
  tidy_event event = true ->
  is_type event "PullRequestEvent" = true ->
  pr_item event = Ok zs -> Forall linked_item_line zs.
Proof.
  intros Ht Hty E.
  destruct (tidy_event_spec event Ht)
    as (_ & Hn & Htitle & _ & _ & _ & Hl & _ & _).
  specialize (Hl (or_introl Hty)).
  unfold pr_item in E. unfold rendered in Hn, Htitle.
  unfold tidy_result in Hl.
  assert (Hline : forall verb,
    text_only ("- " ++ verb ++ " ") ->
    has_char "*" ("- " ++ verb ++ " ") = false ->
    (link <- first_link (info_get event "links" (VList []))
               (pull_link event (info_get event "pr_number" (VStr ""))) ;;
     n <- py_str (info_get event "pr_number" (VStr "")) ;;
     t <- py_str (info_get event "title" (VStr "")) ;;
     Ok ["- " ++ verb ++ " **[PR #" ++ n ++ "](" ++ link ++ ")**: " ++ t])
    = Ok zs -> Forall linked_item_line zs).
  { intros verb Hv Hvs E'. revert Hl E'.
    destruct (first_link _ _) as [link|]; [|discriminate 2]. cbn [bind].
    revert Hn.
    destruct (py_str (info_get event "pr_number" (VStr ""))) as [n|];
      [|discriminate 3]. cbn [bind].
    revert Htitle.
    destruct (py_str (info_get event "title" (VStr ""))) as [t|];
      [|discriminate 4]. cbn [bind].
    intros Htitle Hn Hl E'. apply Ok_inj in E'. subst zs.
    constructor; [|constructor].
    replace ("- " ++ verb ++ " **[PR #" ++ n ++ "](" ++ link ++ ")**: " ++ t)
      with (("- " ++ verb ++ " ") ++ "**[" ++ "PR #" ++ n ++ "](" ++ link
            ++ ")**" ++ ": " ++ t)
      by (rewrite !append_assoc; reflexivity).
    apply pull_line_linked; auto; try reflexivity; try discriminate;
      split_plain; [split|]; no_char. }
  clear Hl Hn Htitle.
  destruct (value_is_str (info_get event "action" (VStr "")) "opened");
    [apply (Hline "Opened");
     [split; reflexivity | reflexivity | exact E]|].
  destruct (value_is_str (info_get event "action" (VStr "")) "closed");
    [apply (Hline (PyStr.title "closed"));
     [split; reflexivity | reflexivity | exact E]|].
  destruct (value_is_str (info_get event "action" (VStr "")) "merged");
    [apply (Hline (PyStr.title "merged"));
     [split; reflexivity | reflexivity | exact E]|].
  apply Ok_inj in E. subst. constructor.
Qed.

Definition tidy_review (e : GitHubEvent) : Prop :=
  tidy_event e = true /\ is_type e "PullRequestReviewEvent" = true.

Lemma review_item_linked (review_events : list GitHubEvent)
  (zs : list string) :
  Forall tidy_review review_events ->
  review_item review_events = Ok zs -> Forall linked_item_line zs.
Proof.
  intros Hall E. unfold review_item in E.
  destruct (rev review_events) as [|latest_review others] eqn:Er;
    [discriminate|].
  assert (Hin : In latest_review review_events).
  { apply in_rev. rewrite Er. now left. }
  destruct (proj1 (Forall_forall _ _) Hall latest_review Hin) as [Ht Hty].
  destruct (tidy_event_spec latest_review Ht)
    as (_ & Hn & _ & Hst & _ & _ & Hl & _ & _).
  specialize (Hl (or_intror Hty)).
  unfold rendered in Hn, Hst. unfold tidy_result in Hl.
  cbv zeta in E. revert Hl E.
  destruct (first_link _ _) as [link|]; [|discriminate 2]. cbn [bind].
  revert Hn.
  destruct (py_str (info_get latest_review "pr_number" (VStr ""))) as [n|];
    [|discriminate 3]. cbn [bind].
  revert Hst.
  destruct (py_str (info_get latest_review "review_state" (VStr "")))
    as [st|]; [|discriminate 4]. cbn [bind].
  intros Hst Hn Hl E. apply Ok_inj in E. subst zs.
  constructor; [|constructor].
  apply (pull_line_linked "- Reviewed " "PR #" n link (" (" ++ st ++ ")"));
    auto; try reflexivity; try discriminate;
    split_plain;
    match goal with
    | |- text_only _ => split
    | _ => idtac
    end; no_char.
Qed.

Lemma extend_at_Forall {A : Type} (P : A -> Prop)
  (d : list (string * list A)) (k : string) (xs : list A) :
  Forall (fun kv => Forall P (snd kv)) d -> Forall P xs ->
  Forall (fun kv => Forall P (snd kv)) (extend_at d k xs).
Proof.
  intros Hd Hx. induction Hd as [|[k' ys] d Hy Hd IH].
  - repeat constructor; assumption.
  - cbn [extend_at]. destruct (String.eqb k' k).
    + constructor; [|exact Hd]. cbn [snd] in *.
      apply Forall_app. now split.
    + constructor; [exact Hy | exact IH].
Qed.

Lemma reviews_by_pr_tidy (events : list GitHubEvent) :
  forall acc by_pr,
    Forall (fun kv => Forall tidy_review (snd kv)) acc ->
    (forall e, In e events -> tidy_event e = true) ->
    reviews_by_pr events acc = Ok by_pr ->
    Forall (fun kv => Forall tidy_review (snd kv)) by_pr.
Proof.
  induction events as [|event rest IH]; intros acc by_pr Hacc Ht E.
  - cbn [reviews_by_pr] in E. apply Ok_inj in E. now subst.
  - cbn [reviews_by_pr] in E.
    assert (Hrest : forall e, In e rest -> tidy_event e = true)
      by (intros e Hin; apply Ht; now right).
    destruct (is_type event "PullRequestReviewEvent") eqn:Hty;
      [|exact (IH _ _ Hacc Hrest E)].
    destruct (py_str (info_get event "pr_number" (VStr ""))) as [n|];
      [|discriminate].
    cbn [bind] in E.
    refine (IH _ _ _ Hrest E).
    apply extend_at_Forall; [exact Hacc|].
    constructor; [|constructor].
    split; [apply Ht; now left | exact Hty].
Qed.

Lemma format_review_items_linked (events : list GitHubEvent)
  (ys : list string) :
  (forall e, In e events -> tidy_event e = true) ->
  _format_review_items events = Ok ys ->
  Forall linked_item_line ys.
Proof.
  intros Ht E. unfold _format_review_items in E.
  destruct (reviews_by_pr events []) as [by_pr|] eqn:Eb; [|discriminate].
  cbn [bind] in E.
  pose proof (reviews_by_pr_tidy events [] by_pr (Forall_nil _) Ht Eb) as Hb.
  apply (concatM_Forall _ _ _ _
           (fun kv zs Hin Ez =>
              review_item_linked (snd kv) zs
                (proj1 (Forall_forall _ _) Hb kv Hin) Ez) E).
Qed.

Lemma other_item_linked (event : GitHubEvent) (zs : list string) :
  tidy_event event = true ->
  other_item event = Ok zs -> Forall linked_item_line zs.
Proof.
  intros Ht E.
  destruct (tidy_event_spec event Ht)
    as (Hrepo & _ & _ & _ & Hn & Href & _ & Hl & _).
  unfold other_item in E. unfold rendered in Hn, Href.
  destruct (is_type event "IssueCommentEvent").
  - specialize (Hl eq_refl). unfold tidy_result in Hl.
    cbv zeta in E. revert Hl E.
    destruct (first_link _ _) as [link|]; [|discriminate 2]. cbn [bind].
    revert Hn.
    destruct (py_str (info_get event "issue_number" (VStr ""))) as [n|];
      [|discriminate 3]. cbn [bind].
    intros Hn Hl E. apply Ok_inj in E. subst zs.
    constructor; [|constructor].
    destruct (truthy (info_get event "is_pull_request" (VBool false))).
    + apply (pull_line_linked "- Commented on " "PR #" n link "");
        auto; try reflexivity; try discriminate; split; reflexivity.
    + apply (pull_line_linked "- Commented on " "issue #" n link "");
        auto; try reflexivity; try discriminate; split; reflexivity.
  - clear Hl Hn.
    destruct (is_type event "CreateEvent");
      [|apply Ok_inj in E; subst; constructor].
    cbv zeta in E.
    destruct (value_is_str (info_get event "ref_type" (VStr "")) "branch");
      [|apply Ok_inj in E; subst; constructor].
    revert Href E.
    destruct (py_str (info_get event "ref" (VStr ""))) as [r|];
      [|discriminate 2]. cbn [bind].
    intros Href E. apply Ok_inj in E. subst zs.
    constructor; [|constructor].
    unfold linked_item_line. split_plain.
    replace (remove_stars ("- Created branch **" ++ r ++ "** in "
                           ++ repo event))
      with ("- Created branch " ++ r ++ " in " ++ repo event)
      by (symmetry; stars).
    apply linked_text; no_char.
Qed.

(** The groups hold events of the collection, and the pull requests are
    of type [PullRequestEvent]. *)
Lemma group_loop_subset (events : list GitHubEvent) :
  forall (g : groups) (e : GitHubEvent),
    (In e (g_commits (group_loop events g)) ->
     In e (g_commits g) \/ In e events)
    /\ (In e (g_pull_requests (group_loop events g)) ->
        In e (g_pull_requests g)
        \/ (In e events /\ is_type e "PullRequestEvent" = true))
    /\ (In e (g_reviews (group_loop events g)) ->
        In e (g_reviews g) \/ In e events)
    /\ (In e (g_other (group_loop events g)) ->
        In e (g_other g) \/ In e events).
Proof.
  induction events as [|event rest IH]; intros g e.
  - cbn [group_loop]. repeat split; intros H; now left.
  - cbn [group_loop].
    match goal with
    | |- context [group_loop rest ?g'] =>
        destruct (IH g' e) as (Hc & Hp & Hr & Ho); clear IH;
        revert Hc Hp Hr Ho; generalize (group_loop rest g')
    end.
    intros result.
    destruct (is_type event "PushEvent"
              && truthy (info_get event "commits" VNone));
      [|destruct (is_type event "PullRequestEvent") eqn:Hty;
        [|destruct (is_type event "PullRequestReviewEvent"
                    || is_type event "PullRequestReviewCommentEvent");
          [|destruct (is_type event "IssueCommentEvent"
                      || is_type event "CreateEvent")]]];
      cbn [g_commits g_pull_requests g_reviews g_other];
      rewrite ?in_app_iff; cbn [In];
      intros Hc Hp Hr Ho;
      (split;
       [intros Hin; destruct (Hc Hin) as [H|H]
       |split;
        [intros Hin; destruct (Hp Hin) as [H|H]
        |split;
         [intros Hin; destruct (Hr Hin) as [H|H]
         |intros Hin; destruct (Ho Hin) as [H|H]]]]);
      try (now left);
      try (right; now right);
      try (destruct H as [H Hk]; right; split; [now right | exact Hk]);
      try (destruct H as [H|[<-|[]]]; [now left | right; now left]);
      try (destruct H as [H|[<-|[]]];
           [now left | right; split; [now left | exact Hty]]).
Qed.

(** The items of a collection whose events are tidy: after the removal
    of the asterisks, each is text and well-formed links. *)
Lemma standup_items_linked (github_activity : GitHubActivity)
  (items : list string) :
  forallb tidy_event (events github_activity) = true ->
  _generate_standup_items github_activity = Ok items ->
  Forall linked_item_line items.
Proof.
  intros Hall E. unfold _generate_standup_items in E. cbv zeta in E.
  unfold _group_significant_events in E.
  pose proof (proj1 (forallb_forall _ _) Hall) as Ht.
  pose proof (fun e =>
    group_loop_subset (events github_activity) (mkGroups [] [] [] []) e)
    as Hg.
  revert E Hg. generalize (group_loop (events github_activity)
                             (mkGroups [] [] [] [])).
  intros g E Hg.
  assert (Hc : forall e, In e (g_commits g) -> tidy_event e = true).
  { intros e Hin. destruct (Hg e) as (H & _).
    destruct (H Hin) as [[]|H']. now apply Ht. }
  assert (Hp : forall e, In e (g_pull_requests g) ->
             tidy_event e = true /\ is_type e "PullRequestEvent" = true).
  { intros e Hin. destruct (Hg e) as (_ & H & _).
    destruct (H Hin) as [[]|[H' Hty]]. split; [now apply Ht | exact Hty]. }
  assert (Hr : forall e, In e (g_reviews g) -> tidy_event e = true).
  { intros e Hin. destruct (Hg e) as (_ & _ & H & _).
    destruct (H Hin) as [[]|H']. now apply Ht. }
  assert (Ho : forall e, In e (g_other g) -> tidy_event e = true).
  { intros e Hin. destruct (Hg e) as (_ & _ & _ & H).
    destruct (H Hin) as [[]|H']. now apply Ht. }
  destruct (_format_commit_items (g_commits g)) as [commit_items|] eqn:Ec;
    [|discriminate]. cbn [bind] in E.
  destruct (_format_pr_items (g_pull_requests g)) as [pr_items|] eqn:Ep;
    [|discriminate]. cbn [bind] in E.
  destruct (_format_review_items (g_reviews g)) as [review_items|] eqn:Er;
    [|discriminate]. cbn [bind] in E.
  destruct (_format_other_items (g_other g)) as [other_items|] eqn:Eo;
    [|discriminate]. cbn [bind] in E.
  apply Ok_inj in E. subst items.
  repeat (apply Forall_app; split).
  - exact (format_commit_items_linked _ _ Hc Ec).
  - apply (concatM_Forall _ _ _ _
             (fun e zs Hin Ez =>
                pr_item_linked e zs (proj1 (Hp e Hin)) (proj2 (Hp e Hin)) Ez)
             Ep).
  - exact (format_review_items_linked _ _ Hr Er).
  - apply (concatM_Forall _ _ _ _
             (fun e zs Hin Ez => other_item_linked e zs (Ho e Hin) Ez) Eo).
Qed.

End TidyItems.

(** C5, as stated, fails: the markdown report of a collection without
    events holds no link at all. *)
Lemma markdown_report_without_link :
  let collection :=
    mkActivity (mkDatetime 739090 0 0 0 0) None None []
      [("total_events", VInt 0); ("repositories", VList [])] in
  format_standup_report collection "markdown"
  = Ok (join newline
          ["# Standup Summary - July 23, 2024"; "";
           "No significant activity to report."; ""; "---"; ""])
  /\ contains "](http"
       (join newline
          ["# Standup Summary - July 23, 2024"; "";
           "No significant activity to report."; ""; "---"; ""])
     = false.
Proof. split; reflexivity. Qed.

(** It fails for the text report too: a link that the regular expression
    does not match, here one whose label is itself in brackets, stays in
    the text. *)
Example text_report_keeps_nested_link :
  let event :=
    mkEvent "PullRequestEvent" "2024-07-23T11:00:00Z" "org/repo" "user"
      empty_payload
      [("pr_number", VInt 7);
       ("action", VStr "opened");
       ("title", VStr "See [[notes]](http://example.org/notes)");
       ("links", VList [VStr "https://github.com/org/repo/pull/7"])] in
  let collection :=
    mkActivity (mkDatetime 739090 0 0 0 0) None None [event]
      [("total_events", VInt 1); ("repositories", VList [VStr "org/repo"])] in
  format_standup_report collection "text"
  = Ok (join newline
          ["Standup Summary - July 23, 2024";
           repeat_char "=" 50;
           "";
           "- Opened PR #7: See [[notes]](http://example.org/notes)"])
  /\ contains "](http"
       "- Opened PR #7: See [[notes]](http://example.org/notes)" = true.
Proof. split; reflexivity. Qed.

(** C5, amended: when the standup items are rendered, the text report is
    the header followed by the items of the markdown report with every
    asterisk removed and every matched link replaced by its label; it holds
    no ["](http"] when every event is tidy, that is, when the repository,
    the numbers, the title, the review state, the ref, the first link and
    the message, hash and link of each commit are shown without square
    bracket, asterisk or closing parenthesis, and the repository, the
    links and the hashes are not empty; the markdown report holds
    ["](http"] when the collection has an event and a repository in its
    summary. *)
Theorem text_report_flattens_links :
  forall (github_activity : GitHubActivity) (items : list string),
    _generate_standup_items github_activity = Ok items ->
    format_standup_report github_activity "text"
    = Ok (join newline (text_lines github_activity items))
    /\ (forall md,
          format_standup_report github_activity "markdown" = Ok md ->
          exists details,
            md = join newline
                   (markdown_lines github_activity items ++ details))
    /\ (forallb tidy_event (events github_activity) = true ->
        contains "](http"
          (join newline (text_lines github_activity items)) = false)
    /\ (forall md first more,
          events github_activity <> [] ->
          dict_get (summary github_activity) "repositories"
          = Some (VList (first :: more)) ->
          format_standup_report github_activity "markdown" = Ok md ->
          contains "](http" md = true).
Proof.
  intros a items E.
  split; [now apply text_report_lines|].
  split; [intros md; now apply markdown_report_lines|].
  split.
  - intros Ht. apply text_report_no_link.
    exact (standup_items_linked a items Ht E).
  - intros md first more. apply markdown_report_has_link.
Qed.

(** The instance of C5 at a collection with one opened pull request whose
    title is plain. *)
Lemma text_report_flattens_links_witness :
  let event :=
    mkEvent "PullRequestEvent" "2024-07-23T11:00:00Z" "org/repo" "user"
      empty_payload
      [("links", VList [VStr "https://github.com/org/repo/pull/7"]);
       ("details", VList [VStr "PR #7: opened - Fix"]);
       ("commits", VList []);
       ("pr_number", VInt 7);
       ("action", VStr "opened");
       ("title", VStr "Fix")] in
  let collection :=
    mkActivity (mkDatetime 739090 0 0 0 0) (Some "user") None [event]
      [("total_events", VInt 1);
       ("repositories", VList [VStr "org/repo"])] in
  let items :=
    ["- Opened **[PR #7](https://github.com/org/repo/pull/7)**: Fix"] in
  (_generate_standup_items collection = Ok items)
  /\ format_standup_report collection "text"
     = Ok (join newline
             ["Standup Summary - July 23, 2024";
              repeat_char "=" 50;
              "";
              "- Opened PR #7: Fix"])
  /\ contains "](http"
       (join newline
          ["Standup Summary - July 23, 2024";
           repeat_char "=" 50;
           "";
           "- Opened PR #7: Fix"]) = false
  /\ exists md,
       format_standup_report collection "markdown" = Ok md
       /\ contains "](http" md = true.
Proof.
  intros event collection items.
  destruct (text_report_flattens_links collection items eq_refl)
    as (Htext & _ & Hflat & Hlink).
  split; [reflexivity|].
  split; [exact Htext|].
  split; [exact (Hflat eq_refl)|].
  destruct (format_standup_report collection "markdown") as [md|] eqn:Emd;
    [|discriminate].
  exists md. split; [reflexivity|].
  apply (Hlink md (VStr "org/repo") []);
    [discriminate | reflexivity | reflexivity].
Defined.


(** * Further properties of the code *)

(** ** The date expression resolver: weekdays and normalisation *)

Section DateExpressionFacts.

Open Scope Z_scope.

Lemma sub_days_of_midnight (d e : datetime) (k : Z) :
  sub_days (midnight d) k = Some e ->
  (hour e, minute e, second e, microsecond e) = (0, 0, 0, 0)
  /\ ordinal e = ordinal d - k.
Proof.
  unfold sub_days, add_days, midnight. cbn [ordinal hour minute second
                                            microsecond].
  destruct ((1 <=? ordinal d + - k) && (ordinal d + - k <=? MAXORDINAL));
    [|discriminate].
  intros E. injection E as <-. split; [reflexivity | cbn [ordinal]; lia].
Qed.

Lemma weekday_range (d : datetime) : 0 <= weekday d < 7.
Proof. unfold weekday. apply Z.mod_pos_bound. lia. Qed.

(** The weekday of a day [k] days back. *)
Lemma weekday_back (d e : datetime) (k t : Z) :
  ordinal e = ordinal d - k ->
  0 <= t < 7 ->
  (weekday d - k = t \/ weekday d - k = t - 7) ->
  weekday e = t.
Proof.
  unfold weekday. intros -> Ht H.
  pose proof (Z.div_mod (ordinal d + 6) 7 ltac:(lia)) as D.
  destruct H as [H | H].
  - replace (ordinal d - k + 6) with (t + ((ordinal d + 6) / 7) * 7) by lia.
    rewrite Z.mod_add by lia. apply Z.mod_small. lia.
  - replace (ordinal d - k + 6) with (t + ((ordinal d + 6) / 7 - 1) * 7)
      by lia.
    rewrite Z.mod_add by lia. apply Z.mod_small. lia.
Qed.

Lemma is_space_lower_char (c : ascii) :
  is_space (lower_char c) = is_space c.
Proof. destruct c as [[] [] [] [] [] [] [] []]; reflexivity. Qed.

Lemma lower_char_idempotent (c : ascii) :
  lower_char (lower_char c) = lower_char c.
Proof. destruct c as [[] [] [] [] [] [] [] []]; reflexivity. Qed.

Lemma lower_idempotent (s : string) : lower (lower s) = lower s.
Proof.
  unfold lower. induction s as [|c s IH]; [reflexivity|].
  cbn [smap]. now rewrite lower_char_idempotent, IH.
Qed.

Lemma lower_lstrip (s : string) : lower (lstrip s) = lstrip (lower s).
Proof.
  unfold lower. induction s as [|c s IH]; [reflexivity|].
  cbn [smap lstrip]. rewrite is_space_lower_char.
  destruct (is_space c); [exact IH | reflexivity].
Qed.

Lemma lower_rstrip (s : string) : lower (rstrip s) = rstrip (lower s).
Proof.
  unfold lower. induction s as [|c s IH]; [reflexivity|].
  cbn [smap rstrip]. rewrite <- IH, is_space_lower_char.
  destruct (rstrip s) as [|x r]; cbn [smap]; [|reflexivity].
  destruct (is_space c); reflexivity.
Qed.

Lemma lower_strip (s : string) : lower (strip s) = strip (lower s).
Proof. unfold strip. now rewrite lower_rstrip, lower_lstrip. Qed.

Lemma rstrip_cons (c : ascii) (s : string) :
  rstrip (String c s)
  = match rstrip s with
    | EmptyString => if is_space c then EmptyString else String c EmptyString
    | r => String c r
    end.
Proof. reflexivity. Qed.

Lemma rstrip_idempotent (s : string) : rstrip (rstrip s) = rstrip s.
Proof.
  induction s as [|c s IH]; [reflexivity|].
  rewrite rstrip_cons. destruct (rstrip s) as [|x r] eqn:E.
  - destruct (is_space c) eqn:Ec; [reflexivity|].
    rewrite rstrip_cons. cbn [rstrip]. now rewrite Ec.
  - rewrite rstrip_cons, IH. reflexivity.
Qed.

(** What [rstrip] leaves of a string that starts with a character other
    than a space starts with that character. *)
Lemma rstrip_head (c : ascii) (s : string) :
  is_space c = false -> exists r, rstrip (String c s) = String c r.
Proof.
  intros Hc. cbn [rstrip]. destruct (rstrip s) as [|x r].
  - rewrite Hc. now exists "".
  - now exists (String x r).
Qed.

Lemma lstrip_head (s : string) :
  lstrip s = "" \/ exists c r, lstrip s = String c r /\ is_space c = false.
Proof.
  induction s as [|c s IH]; [now left|].
  cbn [lstrip]. destruct (is_space c) eqn:Ec; [exact IH|].
  right. now exists c, s.
Qed.

Lemma strip_idempotent (s : string) : strip (strip s) = strip s.
Proof.
  unfold strip. destruct (lstrip_head s) as [-> | (c & r & -> & Hc)];
    [reflexivity|].
  destruct (rstrip_head c r Hc) as [r' Hr]. rewrite Hr.
  cbn [lstrip]. rewrite Hc. rewrite <- Hr. apply rstrip_idempotent.
Qed.

Lemma normalise_idempotent (s : string) :
  strip (lower (strip (lower s))) = strip (lower s).
Proof.
  now rewrite <- lower_strip, strip_idempotent, lower_strip,
    lower_idempotent.
Qed.

(** A name of the weekday table is one of its fourteen keys. *)
Lemma weekday_map_names (name : string) (w : Z) :
  weekday_map name = Some w ->
  In name ["monday"; "mon"; "tuesday"; "tue"; "wednesday"; "wed";
           "thursday"; "thu"; "friday"; "fri"; "saturday"; "sat";
           "sunday"; "sun"]%string.
Proof.
  unfold weekday_map.
  repeat
    match goal with
    | |- (if String.eqb name ?a || String.eqb name ?b then _ else _) = _
         -> _ =>
        destruct (String.eqb_spec name a) as [-> | _];
        [intros _; cbn [In]; tauto|];
        destruct (String.eqb_spec name b) as [-> | _];
        [intros _; cbn [In]; tauto|];
        cbn [orb]
    end.
  discriminate.
Qed.

End DateExpressionFacts.

(** X1: [_get_last_weekday] returns midnight of the most recent day
    strictly before today that falls on the target weekday: a day with that
    weekday, between one and seven days back; so when today is that weekday
    it goes back a full week. *)
Theorem last_weekday_is_strictly_before_today :
  forall (now : datetime) (target_weekday : Z),
    (0 <= target_weekday <= 6)%Z ->
    (8 <= ordinal now <= MAXORDINAL)%Z ->
    exists d : datetime,
      _get_last_weekday now target_weekday = Some d
      /\ (hour d, minute d, second d, microsecond d) = (0, 0, 0, 0)%Z
      /\ weekday d = target_weekday
      /\ (1 <= ordinal now - ordinal d <= 7)%Z
      /\ (weekday now = target_weekday -> ordinal d = ordinal now - 7)%Z.
Proof.
  intros now target Ht Ho. unfold _get_last_weekday. cbv zeta.
  rewrite weekday_midnight.
  pose proof (weekday_range now) as Hw.
  set (days_back :=
         (if ((if target <=? weekday now
               then weekday now - target
               else 7 - (target - weekday now)) =? 0)%Z
          then 7
          else if target <=? weekday now
               then weekday now - target
               else 7 - (target - weekday now))%Z).
  assert (Hd : (1 <= days_back <= 7
                /\ (weekday now - days_back = target
                    \/ weekday now - days_back = target - 7)
                /\ (weekday now = target -> days_back = 7))%Z).
  { unfold days_back.
    destruct (Z.leb_spec target (weekday now));
      destruct (Z.eqb_spec (weekday now - target) 0);
      destruct (Z.eqb_spec (7 - (target - weekday now)) 0); lia. }
  destruct Hd as (Hr & Hm & He).
  rewrite sub_days_some by (cbn [ordinal midnight]; lia).
  eexists. split; [reflexivity|]. cbn [hour minute second microsecond ordinal
                                       midnight].
  split; [reflexivity|]. split.
  - apply (weekday_back now _ days_back target); [reflexivity | lia | exact Hm].
  - split; [lia|]. intros E. rewrite (He E). reflexivity.
Qed.

(** The instance of X1 on Monday 2024-07-22 asked for a Monday. *)
Lemma last_weekday_is_strictly_before_today_witness :
  ((0 <= 0 <= 6)%Z /\ (8 <= 739089 <= MAXORDINAL)%Z)
  /\ exists d : datetime,
       _get_last_weekday (mkDatetime 739089 15 30 0 0) 0 = Some d
       /\ (hour d, minute d, second d, microsecond d) = (0, 0, 0, 0)%Z
       /\ weekday d = 0%Z
       /\ (1 <= 739089 - ordinal d <= 7)%Z
       /\ (weekday (mkDatetime 739089 15 30 0 0) = 0 ->
           ordinal d = 739089 - 7)%Z.
Proof.
  split.
  - unfold MAXORDINAL. lia.
  - apply (last_weekday_is_strictly_before_today
             (mkDatetime 739089 15 30 0 0) 0).
    + lia.
    + unfold MAXORDINAL. cbn [ordinal]. lia.
Defined.

(** X2: whatever the expression, a date [parse_date] returns is at
    midnight. *)
Theorem parse_date_returns_midnight :
  forall (now : datetime) (dateutil_parse : string -> option datetime)
         (date_expression : string) (d : datetime),
    parse_date now dateutil_parse date_expression = Some d ->
    (hour d, minute d, second d, microsecond d) = (0, 0, 0, 0)%Z.
Proof.
  intros now parse expr d.
  assert (Hw : _get_last_workday now = Some d ->
               (hour d, minute d, second d, microsecond d) = (0, 0, 0, 0)%Z).
  { unfold _get_last_workday. cbv zeta. intros E.
    now apply sub_days_of_midnight in E. }
  assert (Hl : forall w, _get_last_weekday now w = Some d ->
               (hour d, minute d, second d, microsecond d) = (0, 0, 0, 0)%Z).
  { intros w. unfold _get_last_weekday. cbv zeta. intros E.
    now apply sub_days_of_midnight in E. }
  unfold parse_date. cbv zeta.
  destruct (String.eqb expr ""); [exact Hw|].
  destruct (String.eqb (strip (lower expr)) "yesterday").
  { intros E. now apply sub_days_of_midnight in E. }
  destruct (String.eqb (strip (lower expr)) "today").
  { intros E. injection E as <-. reflexivity. }
  destruct (if startswith "last " (strip (lower expr))
            then weekday_map (drop 5 (strip (lower expr))) else None)
    as [w|]; [apply Hl|].
  destruct (weekday_map (strip (lower expr))) as [w|]; [apply Hl|].
  destruct (parse (strip (lower expr))) as [parsed|]; [|exact Hw].
  intros E. injection E as <-. reflexivity.
Qed.

(** The instance of X2 at an ISO date that the parser resolves to a time
    in the afternoon. *)
Lemma parse_date_returns_midnight_witness :
  let parse := fun _ : string => Some (mkDatetime 739090 16 45 10 0) in
  parse_date (mkDatetime 739100 9 0 0 0) parse "2024-07-23"
  = Some (mkDatetime 739090 0 0 0 0)
  /\ (hour (mkDatetime 739090 0 0 0 0), minute (mkDatetime 739090 0 0 0 0),
      second (mkDatetime 739090 0 0 0 0),
      microsecond (mkDatetime 739090 0 0 0 0)) = (0, 0, 0, 0)%Z.
Proof.
  intros parse. split; [reflexivity|].
  apply (parse_date_returns_midnight (mkDatetime 739100 9 0 0 0) parse
           "2024-07-23" (mkDatetime 739090 0 0 0 0)).
  reflexivity.
Defined.

(** X3: [parse_date] ignores the case of the expression and the white
    space around it: an expression that is not blank resolves as its
    lower-cased, stripped form does. *)
Theorem parse_date_ignores_case_and_spaces :
  forall (now : datetime) (dateutil_parse : string -> option datetime)
         (date_expression : string),
    strip (lower date_expression) <> "" ->
    parse_date now dateutil_parse date_expression
    = parse_date now dateutil_parse (strip (lower date_expression)).
Proof.
  intros now parse expr Hn. unfold parse_date. cbv zeta.
  rewrite normalise_idempotent.
  destruct (String.eqb_spec expr "") as [-> | _]; [now contradiction Hn|].
  destruct (String.eqb_spec (strip (lower expr)) "") as [E | _];
    [contradiction|].
  reflexivity.
Qed.

(** The instance of X3 at [" Yesterday "]. *)
Lemma parse_date_ignores_case_and_spaces_witness :
  strip (lower " Yesterday ") <> ""
  /\ parse_date (mkDatetime 739090 15 30 0 0) (fun _ => None) " Yesterday "
     = parse_date (mkDatetime 739090 15 30 0 0) (fun _ => None) "yesterday".
Proof.
  split; [discriminate|].
  apply (parse_date_ignores_case_and_spaces (mkDatetime 739090 15 30 0 0)
           (fun _ => None) " Yesterday ").
  discriminate.
Defined.

(** X4: for every name of the weekday table, with or without the prefix
    ["last "], [parse_date] is [_get_last_weekday] of the weekday the table
    gives: ["last friday"] and ["friday"] are the same day. *)
Theorem parse_date_last_prefix_is_optional :
  forall (now : datetime) (dateutil_parse : string -> option datetime)
         (name : string) (w : Z),
    weekday_map name = Some w ->
    parse_date now dateutil_parse ("last " ++ name) = _get_last_weekday now w
    /\ parse_date now dateutil_parse name = _get_last_weekday now w.
Proof.
  intros now parse name w H.
  pose proof (weekday_map_names name w H) as Hin. cbn [In] in Hin.
  repeat (destruct Hin as [<- | Hin];
          [injection H as <-; split; reflexivity|]).
  contradiction.
Qed.

(** The instance of X4 at ["fri"]. *)
Lemma parse_date_last_prefix_is_optional_witness :
  weekday_map "fri" = Some 4%Z
  /\ parse_date (mkDatetime 739090 15 30 0 0) (fun _ => None) "last fri"
     = _get_last_weekday (mkDatetime 739090 15 30 0 0) 4
  /\ parse_date (mkDatetime 739090 15 30 0 0) (fun _ => None) "fri"
     = _get_last_weekday (mkDatetime 739090 15 30 0 0) 4.
Proof.
  split; [reflexivity|].
  apply (parse_date_last_prefix_is_optional (mkDatetime 739090 15 30 0 0)
           (fun _ => None) "fri" 4%Z).
  reflexivity.
Defined.


(** ** The activity adapters: filters, order and summary *)

Section ActivityFacts.

Open Scope Z_scope.

(** What the loop over a page checks of a record before it keeps it. *)
Definition passes (username : option string) (start_time end_time r : string)
  (e : GitHubEvent) : Prop :=
  repo e = r
  /\ String.leb start_time (created_at e) = true
  /\ String.leb (created_at e) end_time = true
  /\ (str_truthy username = true ->
      _matches_username (actor e) (get username "") = true).

Variable api : list request -> request -> response.

Lemma scan_repo_page_passes (username : option string)
  (start_time end_time r : string) (data : list raw_event) :
  forall filtered seen returned filtered' seen',
    Forall (passes username start_time end_time r) filtered ->
    scan_repo_page username start_time end_time r data filtered seen
    = (returned, filtered', seen') ->
    Forall (passes username start_time end_time r) filtered'.
Proof.
  induction data as [|event_data rest IH];
    intros filtered seen returned filtered' seen' Hf E;
    cbn [scan_repo_page] in E.
  - injection E as _ <- _. exact Hf.
  - cbv zeta in E.
    destruct (String.leb start_time (get (ev_created_at event_data) ""))
      eqn:Hs;
      [destruct (String.leb (get (ev_created_at event_data) "") end_time)
         eqn:He|];
      cbn [andb negb] in E.
    2,3: destruct (String.ltb (get (ev_created_at event_data) "") start_time);
      [injection E as _ <- _; exact Hf | exact (IH _ _ _ _ _ Hf E)].
    destruct (str_truthy username
              && negb (_matches_username
                         (get (ev_actor_login event_data) "")
                         (get username ""))) eqn:Hu;
      [exact (IH _ _ _ _ _ Hf E)|].
    destruct (_process_event _ seen) as [info seen1].
    refine (IH _ _ _ _ _ _ E).
    apply Forall_app. split; [exact Hf|].
    constructor; [|constructor].
    unfold passes. cbn [repo created_at actor event_type payload].
    repeat split; try assumption.
    intros Ht. rewrite Ht in Hu. cbn [andb] in Hu.
    now apply negb_false_iff in Hu.
Qed.

Lemma repo_pages_passes (username : option string)
  (start_time end_time : string) (on_bad_body : option exn) (r : string) :
  forall fuel page events svc found svc',
    Forall (passes username start_time end_time r) events ->
    repo_pages api username start_time end_time on_bad_body r fuel page
      events svc = (Ok found, svc') ->
    Forall (passes username start_time end_time r) found.
Proof.
  induction fuel as [|fuel IH]; intros page events svc found svc' Hf E;
    cbn [repo_pages] in E; [discriminate|].
  cbv zeta in E.
  destruct (page <=? 50)%nat; [|injection E as <- _; exact Hf].
  destruct (api (requests svc) (RepoEvents r page)) as [| |data].
  - injection E as <- _. exact Hf.
  - destruct on_bad_body; [discriminate | injection E as <- _; exact Hf].
  - destruct data as [|record more]; [injection E as <- _; exact Hf|].
    destruct (scan_repo_page username start_time end_time r
                (record :: more) []
                (_seen_commits (log_request svc (RepoEvents r page))))
      as [[returned filtered] seen1] eqn:Es.
    apply (scan_repo_page_passes _ _ _ _ _ _ _ _ _ _ (Forall_nil _)) in Es.
    assert (Hall : Forall (passes username start_time end_time r)
                     (events ++ filtered))
      by (apply Forall_app; now split).
    destruct returned; [injection E as <- _; exact Hall|].
    destruct (List.length (record :: more) <? 100)%nat;
      [injection E as <- _; exact Hall|].
    destruct (String.ltb (last_created_at (record :: more)) start_time);
      [injection E as <- _; exact Hall|].
    exact (IH _ _ _ _ _ Hall E).
Qed.

(** *** The summary *)

(** The number of events of a type, and the commits the push events of a
    list carry. *)
Definition count_type (t : string) (events : list GitHubEvent) : Z :=
  Z.of_nat
    (List.length (filter (fun e => String.eqb (event_type e) t) events)).

Definition commits_carried (e : GitHubEvent) : Z :=
  if String.eqb (event_type e) "PushEvent" then
    match py_len (dict_get_default (processed_info e) "commits" (VList []))
    with
    | Ok n => n
    | Raise _ => 0
    end
  else 0.

Definition commit_total (events : list GitHubEvent) : Z :=
  fold_right (fun e n => commits_carried e + n) 0 events.

(** [counts] holds a positive count for the types [f] counts, and no
    other key. *)
Definition counts_of (counts : dict) (f : string -> Z) : Prop :=
  forall t, 0 <= f t
            /\ dict_get counts t
               = if f t =? 0 then None else Some (VInt (f t)).

Lemma dict_get_set (d : dict) (k k' : string) (v : value) :
  dict_get (dict_set d k v) k'
  = if String.eqb k k' then Some v else dict_get d k'.
Proof.
  induction d as [|[k0 v0] d IH]; cbn [dict_set dict_get].
  - destruct (String.eqb k k'); reflexivity.
  - destruct (String.eqb_spec k0 k) as [-> | Hne]; cbn [dict_get].
    + destruct (String.eqb k k'); reflexivity.
    + rewrite IH. destruct (String.eqb_spec k0 k') as [-> | Hne'];
        [|reflexivity].
      destruct (String.eqb_spec k k') as [-> | _];
        [contradiction | reflexivity].
Qed.

Lemma count_type_cons (t : string) (e : GitHubEvent)
  (rest : list GitHubEvent) :
  count_type t (e :: rest)
  = (if String.eqb (event_type e) t then 1 else 0) + count_type t rest.
Proof.
  unfold count_type. cbn [filter].
  destruct (String.eqb (event_type e) t); cbn [List.length]; lia.
Qed.

Lemma commit_total_cons (e : GitHubEvent) (rest : list GitHubEvent) :
  commit_total (e :: rest) = commits_carried e + commit_total rest.
Proof. reflexivity. Qed.

Lemma count_type_nonneg (t : string) (events : list GitHubEvent) :
  0 <= count_type t events.
Proof. unfold count_type. lia. Qed.

Lemma existsb_eqb_In (r : string) (l : list string) :
  existsb (String.eqb r) l = true <-> In r l.
Proof.
  rewrite existsb_exists. split.
  - intros [x [Hin Hx]]. apply String.eqb_eq in Hx. now subst.
  - intros Hin. exists r. split; [exact Hin | apply String.eqb_refl].
Qed.

Lemma summary_loop_spec (events : list GitHubEvent) :
  forall event_types repositories commit_count pr_count f
         event_types' repositories' commit_count' pr_count',
    counts_of event_types f ->
    NoDup repositories ->
    summary_loop events event_types repositories commit_count pr_count
    = Ok (event_types', repositories', commit_count', pr_count') ->
    counts_of event_types' (fun t => f t + count_type t events)
    /\ NoDup repositories'
    /\ (forall r, In r repositories'
                  <-> In r repositories
                      \/ exists e, In e events /\ repo e = r)
    /\ commit_count' = commit_count + commit_total events
    /\ pr_count' = pr_count + count_type "PullRequestEvent" events.
Proof.
  induction events as [|event rest IH];
    intros et rs cc pc f et' rs' cc' pc' Hc Hn E; cbn [summary_loop] in E.
  - injection E as <- <- <- <-. unfold count_type, commit_total.
    cbn [filter List.length fold_right Z.of_nat].
    repeat split; try lia; try assumption.
    + destruct (Hc t) as [H _]. lia.
    + destruct (Hc t) as [_ H]. now rewrite Z.add_0_r.
    + now left.
    + intros [H | [e [[] _]]]. exact H.
  - cbv zeta in E.
    assert (Hget : dict_get_default et (event_type event) (VInt 0)
                   = VInt (f (event_type event))).
    { unfold dict_get_default. destruct (Hc (event_type event)) as [_ ->].
      destruct (Z.eqb_spec (f (event_type event)) 0) as [-> | _];
        reflexivity. }
    rewrite Hget in E. cbn [bind] in E.
    set (et1 := dict_set et (event_type event)
                  (VInt (f (event_type event) + 1))) in E.
    set (rs1 := if existsb (String.eqb (repo event)) rs
                then rs else (rs ++ [repo event])%list) in E.
    assert (Hc1 : counts_of et1
                    (fun t => f t
                              + (if String.eqb (event_type event) t
                                 then 1 else 0))).
    { intros t. destruct (Hc t) as [Hp Hg]. unfold et1.
      rewrite dict_get_set.
      destruct (String.eqb_spec (event_type event) t) as [-> | _].
      - split; [lia|].
        destruct (Z.eqb_spec (f t + 1) 0); [lia | reflexivity].
      - rewrite Z.add_0_r. now split. }
    assert (Hn1 : NoDup rs1 /\ forall r, In r rs1
                                         <-> In r rs \/ repo event = r).
    { unfold rs1.
      destruct (existsb (String.eqb (repo event)) rs) eqn:Ex.
      - apply existsb_eqb_In in Ex. split; [exact Hn|].
        intros r. split; [now left | intros [H | <-]; assumption].
      - split.
        + apply NoDup_app; [exact Hn | repeat constructor; intros [] |].
          intros r Hin [<- | []].
          apply existsb_eqb_In in Hin. congruence.
        + intros r. rewrite in_app_iff. cbn [In]. tauto. }
    destruct Hn1 as [Hn1 Hin1].
    assert (Hrest :
      forall cc1 pc1,
        summary_loop rest et1 rs1 cc1 pc1 = Ok (et', rs', cc', pc') ->
        cc1 + pc1 - pc1 = cc1 ->
        counts_of et' (fun t => f t + count_type t (event :: rest))
        /\ NoDup rs'
        /\ (forall r, In r rs'
                      <-> In r rs
                          \/ exists e, In e (event :: rest) /\ repo e = r)
        /\ cc' = cc1 + commit_total rest
        /\ pc' = pc1 + count_type "PullRequestEvent" rest).
    { intros cc1 pc1 E1 _.
      destruct (IH _ _ _ _ _ _ _ _ _ Hc1 Hn1 E1)
        as (Hc' & Hn' & Hin' & Hcc & Hpc).
      split.
      { intros t. destruct (Hc' t) as [Hp Hg].
        rewrite count_type_cons.
        replace (f t + ((if String.eqb (event_type event) t then 1 else 0)
                        + count_type t rest))
          with (f t + (if String.eqb (event_type event) t then 1 else 0)
                + count_type t rest) by lia.
        now split. }
      split; [exact Hn'|]. split; [|now split].
      intros r. rewrite Hin', Hin1. cbn [In]. split.
      - intros [[H | H] | [e [He Hr]]].
        + now left.
        + right. exists event. split; [now left | exact H].
        + right. exists e. split; [now right | exact Hr].
      - intros [H | [e [[<- | He] Hr]]].
        + left. now left.
        + left. now right.
        + right. now exists e. }
    rewrite commit_total_cons, (count_type_cons "PullRequestEvent").
    unfold commits_carried.
    destruct (String.eqb (event_type event) "PushEvent") eqn:Hpush.
    + destruct (py_len (dict_get_default (processed_info event) "commits"
                          (VList []))) as [n|]; [|discriminate].
      cbn [bind] in E.
      destruct (Hrest _ _ E ltac:(lia)) as (H1 & H2 & H3 & H4 & H5).
      apply String.eqb_eq in Hpush. rewrite Hpush.
      change (String.eqb "PushEvent" "PullRequestEvent") with false.
      split; [exact H1|]. split; [exact H2|]. split; [exact H3|].
      split; lia.
    + destruct (String.eqb (event_type event) "PullRequestEvent");
        destruct (Hrest _ _ E ltac:(lia)) as (H1 & H2 & H3 & H4 & H5);
        (split; [exact H1|]; split; [exact H2|]; split; [exact H3|];
         split; lia).
Qed.

(** *** The order of the events *)

Definition earlier (a b : GitHubEvent) : Prop :=
  String.leb (created_at a) (created_at b) = true.

Lemma insert_event_sorted (e : GitHubEvent) (sorted : list GitHubEvent) :
  Sorted earlier sorted -> Sorted earlier (insert_event e sorted).
Proof.
  induction 1 as [|e' rest Hs IH Hh]; cbn [insert_event].
  - repeat constructor.
  - destruct (String.leb (created_at e) (created_at e')) eqn:El.
    + constructor; [now constructor | now constructor].
    + constructor; [exact IH|].
      assert (He : earlier e' e).
      { unfold earlier.
        destruct (String.leb_total (created_at e) (created_at e'));
          congruence. }
      destruct rest as [|e'' rest]; cbn [insert_event].
      * now constructor.
      * destruct (String.leb (created_at e) (created_at e''));
          constructor; [exact He | now inversion Hh].
Qed.

Lemma sort_events_sorted (events : list GitHubEvent) :
  Sorted earlier (sort_events events).
Proof.
  unfold sort_events. induction events as [|e rest IH]; cbn [fold_right].
  - constructor.
  - now apply insert_event_sorted.
Qed.

(** *** Events that carry the output of the classifier *)

Definition classifier_output (e : GitHubEvent) : Prop :=
  exists seen, processed_info e = fst (_process_event e seen).

Lemma process_event_commits (e : GitHubEvent) (seen : seen_set) :
  dict_get (fst (_process_event e seen)) "commits"
  = Some (VList (emitted (fst (_process_event e seen)))).
Proof.
  unfold emitted, _process_event.
  destruct (String.eqb (event_type e) "PushEvent").
  { unfold _process_push_event.
    destruct (unique_commits _ _ _) as [unique seen']. reflexivity. }
  destruct (String.eqb (event_type e) "PullRequestEvent"); [reflexivity|].
  destruct (String.eqb (event_type e) "IssueCommentEvent"); [reflexivity|].
  destruct (String.eqb (event_type e) "PullRequestReviewEvent");
    [reflexivity|].
  destruct (String.eqb (event_type e) "CreateEvent"
            || String.eqb (event_type e) "DeleteEvent"); reflexivity.
Qed.

Lemma process_event_other_emits_nothing (e : GitHubEvent) (seen : seen_set) :
  String.eqb (event_type e) "PushEvent" = false ->
  emitted (fst (_process_event e seen)) = [].
Proof.
  intros H. pose proof (process_event_emits e seen) as E.
  unfold event_commits in E. rewrite H in E. cbn [unique_commits] in E.
  now injection E as -> _.
Qed.

Lemma classifier_output_carried (e : GitHubEvent) :
  classifier_output e ->
  py_len (dict_get_default (processed_info e) "commits" (VList []))
  = Ok (Z.of_nat (List.length (emitted (processed_info e))))
  /\ commits_carried e = Z.of_nat (List.length (emitted (processed_info e))).
Proof.
  intros [seen H]. unfold commits_carried, dict_get_default.
  rewrite H, process_event_commits. cbn [py_len]. split; [reflexivity|].
  destruct (String.eqb (event_type e) "PushEvent") eqn:Hp; [reflexivity|].
  now rewrite (process_event_other_emits_nothing e seen Hp).
Qed.

Lemma commit_total_emitted (events : list GitHubEvent) :
  Forall classifier_output events ->
  commit_total events
  = Z.of_nat
      (List.length
         (concat (map (fun e => emitted (processed_info e)) events))).
Proof.
  induction 1 as [|e rest He _ IH]; [reflexivity|].
  rewrite commit_total_cons, IH.
  destruct (classifier_output_carried e He) as [_ ->].
  cbn [map concat]. rewrite length_app. lia.
Qed.

Lemma summary_loop_defined (events : list GitHubEvent) :
  forall event_types repositories commit_count pr_count f,
    counts_of event_types f ->
    Forall classifier_output events ->
    exists acc,
      summary_loop events event_types repositories commit_count pr_count
      = Ok acc.
Proof.
  induction events as [|event rest IH]; intros et rs cc pc f Hc Hall;
    cbn [summary_loop]; [eexists; reflexivity|].
  cbv zeta.
  assert (Hget : dict_get_default et (event_type event) (VInt 0)
                 = VInt (f (event_type event))).
  { unfold dict_get_default. destruct (Hc (event_type event)) as [_ ->].
    destruct (Z.eqb_spec (f (event_type event)) 0) as [-> | _];
      reflexivity. }
  rewrite Hget. cbn [bind].
  assert (Hc1 : counts_of
                  (dict_set et (event_type event)
                     (VInt (f (event_type event) + 1)))
                  (fun t => f t
                            + (if String.eqb (event_type event) t
                               then 1 else 0))).
  { intros t. destruct (Hc t) as [Hp Hg]. rewrite dict_get_set.
    destruct (String.eqb_spec (event_type event) t) as [-> | _].
    - split; [lia|].
      destruct (Z.eqb_spec (f t + 1) 0); [lia | reflexivity].
    - rewrite Z.add_0_r. now split. }
  inversion Hall as [|e l He Hrest]; subst.
  destruct (String.eqb (event_type event) "PushEvent").
  - destruct (classifier_output_carried event He) as [-> _]. cbn [bind].
    exact (IH _ _ _ _ _ Hc1 Hrest).
  - destruct (String.eqb (event_type event) "PullRequestEvent");
      exact (IH _ _ _ _ _ Hc1 Hrest).
Qed.

Lemma counts_of_empty : counts_of [] (fun _ => 0).
Proof. intros t. split; [lia | reflexivity]. Qed.

(** The events that a fetch classified carry the output of the
    classifier. *)
Lemma process_event_unprocessed (e : GitHubEvent) (seen : seen_set) :
  _process_event (unprocessed e) seen = _process_event e seen.
Proof. destruct e. reflexivity. Qed.

Lemma classified_outputs (events : list GitHubEvent) :
  forall seen seen',
    classified seen events seen' -> Forall classifier_output events.
Proof.
  induction events as [|e rest IH]; intros seen seen' [H S]; [constructor|].
  cbn [map] in H. rewrite process_all_cons in H.
  injection H as He Hrest.
  constructor.
  - exists seen. now rewrite <- process_event_unprocessed.
  - apply (IH (snd (_process_event (unprocessed e) seen)) seen').
    split; [exact Hrest | exact S].
Qed.

Lemma generate_summary_spec (events : list GitHubEvent) :
  Forall classifier_output events ->
  exists event_types repositories,
    _generate_summary events
    = Ok [("total_events", VInt (Z.of_nat (List.length events)));
          ("event_types", VDict event_types);
          ("repositories", VList (map VStr repositories));
          ("commit_count",
           VInt (Z.of_nat
                   (List.length
                      (concat (map (fun e => emitted (processed_info e))
                                 events)))));
          ("pr_count", VInt (count_type "PullRequestEvent" events))]
    /\ (forall t,
          dict_get event_types t
          = if (count_type t events =? 0)%Z then None
            else Some (VInt (count_type t events)))
    /\ NoDup repositories
    /\ (forall r, In r repositories
                  <-> exists e, In e events /\ repo e = r).
Proof.
  intros Hall. unfold _generate_summary.
  destruct (summary_loop_defined events [] [] 0%Z 0%Z _ counts_of_empty Hall)
    as [[[[event_types repositories] commit_count] pr_count] E].
  rewrite E. cbn [bind].
  destruct (summary_loop_spec events _ _ _ _ _ _ _ _ _ counts_of_empty
              (NoDup_nil _) E) as (Hc & Hn & Hin & Hcc & Hpc).
  exists event_types, repositories.
  rewrite Hcc, Hpc, (commit_total_emitted events Hall). cbn [Z.add].
  split; [reflexivity|]. split; [|split; [exact Hn|]].
  - intros t. destruct (Hc t) as [_ H]. exact H.
  - intros r. rewrite Hin. cbn [In]. tauto.
Qed.

Lemma all_keys_length (events : list GitHubEvent) :
  List.length (all_keys (map processed_info events))
  = List.length (concat (map (fun e => emitted (processed_info e)) events)).
Proof.
  unfold all_keys. induction events as [|e rest IH]; [reflexivity|].
  cbn [map concat]. rewrite !length_app, IH. unfold emitted_keys.
  now rewrite length_map.
Qed.

Lemma finish_activity_spec (target_date : datetime)
  (username : option string) (repos : option (list string))
  (fetched : list GitHubEvent) (github_activity : GitHubActivity) :
  finish_activity target_date username repos fetched = Ok github_activity ->
  github_activity
  = mkActivity target_date username repos (sort_events fetched)
      (summary github_activity)
  /\ _generate_summary (sort_events fetched) = Ok (summary github_activity).
Proof.
  unfold finish_activity. cbv zeta.
  destruct (_generate_summary (sort_events fetched)) as [generated|];
    [|discriminate].
  cbn [bind]. intros E. injection E as <-. split; reflexivity.
Qed.

End ActivityFacts.

(** X5: every event [_get_repo_events] returns belongs to the repository
    asked for, was created inside the window (both bounds included, as
    strings) and, when a user name is given, has an actor that matches it;
    this holds for both adapters, whatever the source answers. *)
Theorem fetched_events_pass_the_filters :
  forall (api : list request -> request -> response)
         (username : option string) (start_time end_time : string)
         (on_bad_body : option exn) (r : string) (svc svc' : service)
         (found : list GitHubEvent),
    GitHub._get_repo_events api username start_time end_time on_bad_body r
      svc = (Ok found, svc') ->
    Forall (passes username start_time end_time r) found.
Proof.
  intros api username start_time end_time on_bad_body r svc svc' found E.
  exact (repo_pages_passes api username start_time end_time on_bad_body r
           _ _ _ _ _ _ (Forall_nil _) E).
Qed.

(** The instance of X5 at a page with an event of the user in the window,
    one of another user and one after the window: only the first is
    returned. *)
Lemma fetched_events_pass_the_filters_witness :
  let record := fun login time =>
    mkRaw (Some "WatchEvent") (Some time) (Some login) None None in
  let api := fun (_ : list request) (_ : request) =>
    Body [record "Octocat" "2024-07-23T10:00:00Z";
          record "someone" "2024-07-23T09:00:00Z";
          record "octocat" "2024-07-25T09:00:00Z"] in
  let found :=
    [mkEvent "WatchEvent" "2024-07-23T10:00:00Z" "org/repo" "Octocat"
       empty_payload
       [("links", VList []); ("details", VList []); ("commits", VList [])]] in
  Http._get_repo_events api "org/repo" (Some "octocat")
    "2024-07-23T00:00:00Z" "2024-07-24T07:59:59Z" (mkService [] [])
  = (Ok found, mkService [] [RepoEvents "org/repo" 1])
  /\ Forall (passes (Some "octocat") "2024-07-23T00:00:00Z"
               "2024-07-24T07:59:59Z" "org/repo") found.
Proof.
  intros record api found. split; [reflexivity|].
  apply (fetched_events_pass_the_filters api (Some "octocat")
           "2024-07-23T00:00:00Z" "2024-07-24T07:59:59Z"
           (Some JSONDecodeError) "org/repo" (mkService [] [])
           (mkService [] [RepoEvents "org/repo" 1]) found).
  reflexivity.
Defined.

(** X6: for events that carry the output of the classifier,
    [_generate_summary] returns a summary: [total_events] is the number of
    events, [event_types] counts the events of each type that occurs and
    holds no other key, [repositories] lists the repositories of the events
    without repetition, [commit_count] is the number of commits the events
    list, and [pr_count] the number of pull-request events. *)
Theorem summary_counts_the_events :
  forall events : list GitHubEvent,
    Forall classifier_output events ->
    exists event_types repositories,
      _generate_summary events
      = Ok [("total_events", VInt (Z.of_nat (List.length events)));
            ("event_types", VDict event_types);
            ("repositories", VList (map VStr repositories));
            ("commit_count",
             VInt (Z.of_nat
                     (List.length
                        (concat (map (fun e => emitted (processed_info e))
                                   events)))));
            ("pr_count", VInt (count_type "PullRequestEvent" events))]
      /\ (forall t,
            dict_get event_types t
            = if (count_type t events =? 0)%Z then None
              else Some (VInt (count_type t events)))
      /\ NoDup repositories
      /\ (forall r, In r repositories
                    <-> exists e, In e events /\ repo e = r).
Proof. exact generate_summary_spec. Qed.

(** The instance of X6 at a push with one commit followed by an opened
    pull request of the same repository. *)
Lemma summary_counts_the_events_witness :
  let push :=
    mkEvent "PushEvent" "2024-07-23T10:00:00Z" "org/repo" "user"
      (mkPayload (Some "refs/heads/main") (Some 1%Z)
         (Some [mkCommit (Some "Fix") (Some "abc123def456")])
         None None None None None) [] in
  let pull :=
    mkEvent "PullRequestEvent" "2024-07-23T11:00:00Z" "org/repo" "user"
      (mkPayload None None None (Some (mkPull (Some 7%Z) (Some "Fix")))
         (Some "opened") None None None) [] in
  let classify := fun e =>
    mkEvent (event_type e) (created_at e) (repo e) (actor e) (payload e)
      (fst (_process_event e [])) in
  let events := [classify push; classify pull] in
  Forall classifier_output events
  /\ exists event_types repositories,
       _generate_summary events
       = Ok [("total_events", VInt (Z.of_nat (List.length events)));
             ("event_types", VDict event_types);
             ("repositories", VList (map VStr repositories));
             ("commit_count",
              VInt (Z.of_nat
                      (List.length
                         (concat (map (fun e => emitted (processed_info e))
                                    events)))));
             ("pr_count", VInt (count_type "PullRequestEvent" events))]
       /\ (forall t,
             dict_get event_types t
             = if (count_type t events =? 0)%Z then None
               else Some (VInt (count_type t events)))
       /\ NoDup repositories
       /\ (forall r, In r repositories
                     <-> exists e, In e events /\ repo e = r).
Proof.
  intros push pull classify events.
  assert (H : Forall classifier_output events).
  { repeat constructor; exists []; reflexivity. }
  split; [exact H|].
  exact (summary_counts_the_events events H).
Defined.

Section ReturnedActivityFacts.

Variable api : list request -> request -> response.
Variables github_org github_repos current_user : option string.
Variable org_repos : list string.
Variable user_repos : string -> list string.

(** What [get_activity] returns was built by its last three statements
    from the events fetched. *)
Lemma http_get_activity_finish (target_date : datetime)
  (username : option string) (repos : option (list string))
  (svc svc' : service) (github_activity : GitHubActivity) :
  Http.get_activity api github_org github_repos org_repos target_date
    username repos svc = (Ok github_activity, svc') ->
  exists fetched,
    finish_activity target_date username repos fetched = Ok github_activity.
Proof.
  unfold Http.get_activity. cbv zeta.
  destruct (get_utc_date_range target_date) as [[start_time end_time]|];
    [|discriminate].
  assert (Hfetch : forall fetched : result (list GitHubEvent) * service,
    match fetched with
    | (Ok events, svc1) =>
        (finish_activity target_date username repos events, svc1)
    | (Raise e, svc1) => (Raise e, svc1)
    end = (Ok github_activity, svc') ->
    exists events,
      finish_activity target_date username repos events
      = Ok github_activity).
  { intros [[events|e] svc1] E; [|discriminate].
    exists events. now injection E as -> _. }
  destruct (list_truthy repos); [apply Hfetch|].
  destruct (str_truthy github_org); [apply Hfetch|].
  destruct (str_truthy github_repos); [apply Hfetch | discriminate].
Qed.

Lemma cli_get_activity_finish (target_date : datetime)
  (username : option string) (repos : option (list string))
  (svc svc' : service) (github_activity : GitHubActivity) :
  Cli.get_activity api github_org github_repos current_user org_repos
    user_repos target_date username repos svc = (Ok github_activity, svc') ->
  exists fetched,
    finish_activity target_date
      (if str_truthy username then username else current_user) repos fetched
    = Ok github_activity.
Proof.
  unfold Cli.get_activity. cbv zeta.
  set (user := if str_truthy username then username else current_user).
  destruct (negb (str_truthy user)); [discriminate|].
  destruct (get_utc_date_range target_date) as [[start_time end_time]|];
    [|discriminate].
  assert (Hfetch : forall fetched : result (list GitHubEvent) * service,
    match fetched with
    | (Ok events, svc1) =>
        (finish_activity target_date user repos events, svc1)
    | (Raise e, svc1) => (Raise e, svc1)
    end = (Ok github_activity, svc') ->
    exists events,
      finish_activity target_date user repos events = Ok github_activity).
  { intros [[events|e] svc1] E; [|discriminate].
    exists events. now injection E as -> _. }
  assert (Hlist : forall rs,
    match rs with
    | [] => (Raise config_error, clear_seen svc)
    | _ :: _ =>
        match Cli.fetch api user start_time end_time rs (clear_seen svc) with
        | (Ok events, svc1) =>
            (finish_activity target_date user repos events, svc1)
        | (Raise e, svc1) => (Raise e, svc1)
        end
    end = (Ok github_activity, svc') ->
    exists events,
      finish_activity target_date user repos events = Ok github_activity).
  { intros [|r rs]; [discriminate | apply Hfetch]. }
  destruct (negb (list_truthy repos)); [|apply Hfetch].
  destruct (str_truthy github_repos); [apply Hlist|].
  destruct (str_truthy github_org); [apply Hlist|].
  destruct (str_truthy user); [|discriminate].
  destruct (user_repos (get user "")) as [|r rs]; apply Hfetch.
Qed.

End ReturnedActivityFacts.

(** X7: the activity either adapter returns has its events in the order
    of their creation times, and its summary is the one
    [_generate_summary] computes from these events; in particular
    [total_events] is their number. *)
Theorem returned_activity_is_sorted_and_summarised :
  forall (api : list request -> request -> response)
         (github_org github_repos current_user : option string)
         (org_repos : list string) (user_repos : string -> list string)
         (target_date : datetime) (username : option string)
         (repos : option (list string)) (svc svc' : service)
         (github_activity : GitHubActivity),
    Http.get_activity api github_org github_repos org_repos target_date
      username repos svc = (Ok github_activity, svc')
    \/ Cli.get_activity api github_org github_repos current_user org_repos
         user_repos target_date username repos svc
       = (Ok github_activity, svc') ->
    Sorted earlier (events github_activity)
    /\ _generate_summary (events github_activity)
       = Ok (summary github_activity)
    /\ dict_get (summary github_activity) "total_events"
       = Some (VInt (Z.of_nat (List.length (events github_activity))))
    /\ GitHub.target_date github_activity = target_date
    /\ GitHub.repos github_activity = repos.
Proof.
  intros api org rs_env current org_repos user_repos d username repos svc
    svc' a H.
  assert (Hf : exists u fetched, finish_activity d u repos fetched = Ok a).
  { destruct H as [H | H].
    - apply http_get_activity_finish in H. destruct H as [fetched H].
      now exists username, fetched.
    - apply cli_get_activity_finish in H. destruct H as [fetched H].
      exists (if str_truthy username then username else current), fetched.
      exact H. }
  destruct Hf as (u & fetched & Hf).
  apply finish_activity_spec in Hf. destruct Hf as [Ha Hs].
  rewrite Ha. cbn [events summary GitHub.target_date GitHub.repos].
  split; [apply sort_events_sorted|]. split; [exact Hs|].
  split; [|split; reflexivity].
  unfold _generate_summary in Hs.
  destruct (summary_loop (sort_events fetched) [] [] 0 0)
    as [[[[event_types repositories] commit_count] pr_count]|];
    [|discriminate].
  cbn [bind] in Hs. injection Hs as <-. reflexivity.
Qed.

(** The instance of X7: the HTTP adapter is given two repositories, and
    the event of the second is the older one. *)
Lemma returned_activity_is_sorted_and_summarised_witness :
  let record := fun time =>
    mkRaw (Some "WatchEvent") (Some time) (Some "octocat") None None in
  let api := fun (_ : list request) (r : request) =>
    match r with
    | RepoEvents "a/late" _ => Body [record "2024-07-23T18:00:00Z"]
    | _ => Body [record "2024-07-23T08:00:00Z"]
    end in
  let run :=
    Http.get_activity api None None [] (mkDatetime 739090 0 0 0 0) None
      (Some ["a/late"; "b/early"]) (mkService [] []) in
  exists github_activity svc',
    run = (Ok github_activity, svc')
    /\ map created_at (events github_activity)
       = ["2024-07-23T08:00:00Z"; "2024-07-23T18:00:00Z"]
    /\ Sorted earlier (events github_activity)
    /\ _generate_summary (events github_activity)
       = Ok (summary github_activity)
    /\ dict_get (summary github_activity) "total_events"
       = Some (VInt (Z.of_nat (List.length (events github_activity))))
    /\ GitHub.target_date github_activity = mkDatetime 739090 0 0 0 0
    /\ GitHub.repos github_activity = Some ["a/late"; "b/early"].
Proof.
  intros record api run.
  assert (E : exists github_activity svc',
             run = (Ok github_activity, svc')
             /\ map created_at (events github_activity)
                = ["2024-07-23T08:00:00Z"; "2024-07-23T18:00:00Z"])
    by (vm_compute; eexists _, _; split; reflexivity).
  destruct E as (github_activity & svc' & E & Hc).
  exists github_activity, svc'. split; [exact E|]. split; [exact Hc|].
  apply (returned_activity_is_sorted_and_summarised api None None None []
           (fun _ => []) (mkDatetime 739090 0 0 0 0) None
           (Some ["a/late"; "b/early"]) (mkService [] []) svc'
           github_activity).
  left. exact E.
Defined.

(** X8: in the activity the HTTP adapter returns no commit key occurs
    twice, although the events were sorted after their classification, and
    [commit_count] in the summary is the number of these commits. *)
Theorem returned_activity_counts_distinct_commits :
  forall (api : list request -> request -> response)
         (github_org GITHUB_REPOS : option string) (org_repos : list string)
         (target_date : datetime) (username : option string)
         (repos : option (list string)) (svc svc' : service)
         (github_activity : GitHubActivity),
    Http.get_activity api github_org GITHUB_REPOS org_repos target_date
      username repos svc = (Ok github_activity, svc') ->
    let keys := all_keys (map processed_info (events github_activity)) in
    NoDup keys
    /\ dict_get (summary github_activity) "commit_count"
       = Some (VInt (Z.of_nat (List.length keys))).
Proof.
  intros api org rs_env org_repos d username repos svc svc' a E keys.
  pose proof (http_get_activity_classified api _ _ _ _ _ _ _ _ _ E)
    as [fetched [He Hc]].
  pose proof (http_get_activity_finish api _ _ _ _ _ _ _ _ _ E)
    as [fetched' Hf].
  apply finish_activity_spec in Hf. destruct Hf as [Ha Hs].
  assert (Hev : events a = sort_events fetched') by (now rewrite Ha).
  rewrite <- Hev in Hs.
  assert (Hout : Forall classifier_output (events a)).
  { apply classified_outputs in Hc. rewrite He.
    apply Forall_forall. intros e Hin.
    apply (proj1 (Forall_forall _ _) Hc).
    apply (Permutation_in e (sort_events_permutation fetched) Hin). }
  split.
  - unfold keys.
    assert (N : NoDup (all_keys (map processed_info fetched))).
    { destruct Hc as [Hc _]. rewrite Hc. apply process_all_fresh. }
    revert N. unfold all_keys.
    rewrite He, !map_map, <- !flat_map_concat_map.
    apply Permutation_NoDup. apply Permutation_flat_map. symmetry.
    apply sort_events_permutation.
  - destruct (generate_summary_spec (events a) Hout)
      as (event_types & repositories & Hg & _).
    rewrite Hs in Hg. injection Hg as ->. unfold keys.
    rewrite all_keys_length. reflexivity.
Qed.

(** The instance of X8 at the force-push scenario: two pushes carry the
    same message under different hashes, and one commit is counted. *)
Lemma returned_activity_counts_distinct_commits_witness :
  let push := fun time sha =>
    mkRaw (Some "PushEvent") (Some time) (Some "octocat")
      (Some (mkPayload (Some "refs/heads/main") (Some 1%Z)
               (Some [mkCommit (Some "Test commit") (Some sha)])
               None None None None None)) None in
  let api := fun (_ : list request) (_ : request) =>
    Body [push "2024-07-23T11:00:00Z" "def456ghi789";
          push "2024-07-23T10:00:00Z" "abc123def456"] in
  let run :=
    Http.get_activity api None None [] (mkDatetime 739090 0 0 0 0) None
      (Some ["org/repo"]) (mkService [] []) in
  exists github_activity svc',
    run = (Ok github_activity, svc')
    /\ all_keys (map processed_info (events github_activity))
       = ["test_commit"]
    /\ (let keys := all_keys (map processed_info (events github_activity)) in
        NoDup keys
        /\ dict_get (summary github_activity) "commit_count"
           = Some (VInt (Z.of_nat (List.length keys)))).
Proof.
  intros push api run.
  assert (E : exists github_activity svc',
             run = (Ok github_activity, svc')
             /\ all_keys (map processed_info (events github_activity))
                = ["test_commit"])
    by (vm_compute; eexists _, _; split; reflexivity).
  destruct E as (github_activity & svc' & E & Hk).
  exists github_activity, svc'. split; [exact E|]. split; [exact Hk|].
  exact (returned_activity_counts_distinct_commits api None None []
           (mkDatetime 739090 0 0 0 0) None (Some ["org/repo"])
           (mkService [] []) svc' github_activity E).
Defined.

(** X9: without a [repos] argument (absent or empty), without an
    organization and without [GITHUB_REPOS], the HTTP adapter raises the
    configuration error; it has cleared the set of commit keys and has
    issued no request. *)
Theorem http_get_activity_needs_a_source :
  forall (api : list request -> request -> response)
         (github_org GITHUB_REPOS : option string) (org_repos : list string)
         (target_date : datetime) (username : option string)
         (repos : option (list string)) (svc : service),
    get_utc_date_range target_date <> None ->
    list_truthy repos = false ->
    str_truthy github_org = false ->
    str_truthy GITHUB_REPOS = false ->
    Http.get_activity api github_org GITHUB_REPOS org_repos target_date
      username repos svc
    = (Raise config_error, mkService [] (requests svc)).
Proof.
  intros api org rs_env org_repos d username repos svc Hd Hr Ho He.
  unfold Http.get_activity. cbv zeta.
  destruct (get_utc_date_range d) as [[start_time end_time]|];
    [|contradiction].
  rewrite Hr, Ho, He. reflexivity.
Qed.

(** The instance of X9 with an empty [repos] list and an empty
    organization name. *)
Lemma http_get_activity_needs_a_source_witness :
  let api := fun (_ : list request) (_ : request) => Body [] in
  (get_utc_date_range (mkDatetime 739090 0 0 0 0) <> None
   /\ list_truthy (Some (@nil string)) = false
   /\ str_truthy (Some "") = false
   /\ str_truthy None = false)
  /\ Http.get_activity api (Some "") None ["org/repo"]
       (mkDatetime 739090 0 0 0 0) (Some "octocat") (Some [])
       (mkService ["old_key"] [])
     = (Raise config_error, mkService [] []).
Proof.
  intros api. split.
  - split; [discriminate|]. repeat split.
  - apply (http_get_activity_needs_a_source api (Some "") None ["org/repo"]
             (mkDatetime 739090 0 0 0 0) (Some "octocat") (Some [])
             (mkService ["old_key"] [])).
    + discriminate.
    + reflexivity.
    + reflexivity.
    + reflexivity.
Defined.

(** X10: the CLI adapter needs a user: with no user name given (absent
    or empty) and none the [gh] CLI can name, [get_activity] raises its
    error before it reads the date, the [repos] argument or the
    configuration, and asks for no page of events. *)
Theorem cli_get_activity_needs_a_user :
  forall (api : list request -> request -> response)
         (github_org github_repos current_user : option string)
         (org_repos : list string) (user_repos : string -> list string)
         (target_date : datetime) (username : option string)
         (repos : option (list string)) (svc : service),
    str_truthy username = false ->
    str_truthy current_user = false ->
    Cli.get_activity api github_org github_repos current_user org_repos
      user_repos target_date username repos svc
    = (Raise Cli.no_user_error, mkService [] (requests svc)).
Proof.
  intros api org rs_env current org_repos user_repos d username repos svc
    Hu Hc.
  unfold Cli.get_activity. cbv zeta. rewrite Hu, Hc. reflexivity.
Qed.

(** The instance of X10 with explicit repositories. *)
Lemma cli_get_activity_needs_a_user_witness :
  let api := fun (_ : list request) (_ : request) => Body [] in
  (str_truthy (Some "") = false /\ str_truthy None = false)
  /\ Cli.get_activity api (Some "acme") None None ["acme/site"]
       (fun _ => []) (mkDatetime 739090 0 0 0 0) (Some "")
       (Some ["acme/site"]) (mkService [] [])
     = (Raise Cli.no_user_error, mkService [] []).
Proof.
  intros api. split; [split; reflexivity|].
  apply (cli_get_activity_needs_a_user api (Some "acme") None None
           ["acme/site"] (fun _ => []) (mkDatetime 739090 0 0 0 0) (Some "")
           (Some ["acme/site"]) (mkService [] [])); reflexivity.
Defined.

(** ** Pagination of the user feed *)

Section UserFeedFacts.

Variable api : list request -> request -> response.
Variables user start_time end_time : string.

Definition feed_requests (page n : nat) : list request :=
  map (UserEvents user) (seq page n).

(** The answer to the [k]-th request of a run that starts at [page] with
    the log [log] is a page whose last record is older than the window. *)
Definition feed_past_window (log : list request) (page k : nat) : Prop :=
  match api (log ++ feed_requests page k) (UserEvents user (page + k)) with
  | Body (record :: more) =>
      String.ltb (last_created_at (record :: more)) start_time = true
  | _ => False
  end.

Definition feed_run_ok (log : list request) (page : nat)
  (r : result (list GitHubEvent) * service) : Prop :=
  (exists events, fst r = Ok events)
  /\ exists n,
       requests (snd r) = (log ++ feed_requests page n)%list
       /\ (n = 0 \/ page + n <= 51)%nat
       /\ forall k, (k < n)%nat -> feed_past_window log page k -> S k = n.

Lemma feed_past_window_shift (log : list request) (page k : nat) :
  feed_past_window log page (S k)
  <-> feed_past_window (log ++ [UserEvents user page]) (S page) k.
Proof.
  unfold feed_past_window, feed_requests. cbn [seq map].
  rewrite <- app_assoc. cbn [app].
  replace (page + S k)%nat with (S page + k)%nat by lia. reflexivity.
Qed.

Lemma feed_run_ok_none (page : nat) (events : list GitHubEvent)
  (svc : service) :
  feed_run_ok (requests svc) page (Ok events, svc).
Proof.
  split; [now exists events|]. exists 0%nat. cbn [feed_requests seq map].
  rewrite app_nil_r. repeat split; auto. intros k Hk. lia.
Qed.

Lemma feed_run_ok_one (page : nat) (log : list request)
  (events : list GitHubEvent) (svc : service) :
  (page <= 50)%nat ->
  requests svc = (log ++ [UserEvents user page])%list ->
  feed_run_ok log page (Ok events, svc).
Proof.
  intros Hp Hr. split; [now exists events|]. exists 1%nat.
  repeat split; auto; [right; lia | intros k Hk _; lia].
Qed.

Lemma feed_run_ok_more (page : nat) (log : list request)
  (r : result (list GitHubEvent) * service) :
  (page <= 50)%nat ->
  ~ feed_past_window log page 0 ->
  feed_run_ok (log ++ [UserEvents user page]) (S page) r ->
  feed_run_ok log page r.
Proof.
  intros Hp Hnot [Ho [n [Hr [Hn Hk]]]]. split; [exact Ho|].
  exists (S n). unfold feed_requests in *. cbn [seq map].
  rewrite <- app_assoc in Hr. cbn [app] in Hr.
  split; [exact Hr|]. split.
  - right. destruct Hn as [-> | Hn]; lia.
  - intros [|k] Hlt Hw; [contradiction|].
    apply feed_past_window_shift in Hw. f_equal. apply Hk; [lia | exact Hw].
Qed.

Lemma user_pages_run_ok :
  forall fuel page events svc,
    (51 - page < fuel)%nat ->
    feed_run_ok (requests svc) page
      (Cli.user_pages api user start_time end_time fuel page events svc).
Proof.
  induction fuel as [|fuel IH]; intros page events svc Hfuel; [lia|].
  cbn [Cli.user_pages]. cbv zeta.
  destruct (Nat.leb_spec page 50) as [Hle | Hgt]; [|apply feed_run_ok_none].
  destruct (api (requests svc) (UserEvents user page)) as [| |data] eqn:Ea.
  - now apply feed_run_ok_one.
  - now apply feed_run_ok_one.
  - destruct data as [|record more]; [now apply feed_run_ok_one|].
    destruct (Cli.scan_user_page start_time end_time (record :: more) []
                (_seen_commits (log_request svc (UserEvents user page))))
      as [[returned filtered] seen'].
    destruct returned; [now apply feed_run_ok_one|].
    destruct (Nat.ltb_spec (List.length (record :: more)) 100);
      [now apply feed_run_ok_one|].
    destruct (String.ltb (last_created_at (record :: more)) start_time)
      eqn:El; [now apply feed_run_ok_one|].
    apply feed_run_ok_more; auto.
    + unfold feed_past_window, feed_requests. cbn [seq map].
      rewrite app_nil_r, Nat.add_0_r, Ea. rewrite El. discriminate.
    + apply (IH (S page) _
               (with_seen (log_request svc (UserEvents user page)) seen')).
      lia.
Qed.

End UserFeedFacts.

(** X11: whatever the source answers, [_get_user_events] returns a list
    of events (it raises nothing) after asking for the pages 1 to [n] of
    the user's feed in turn, with [n <= 50], and a page whose last record
    is older than the start of the window is the last page it asks for. *)
Theorem user_feed_pagination_is_bounded :
  forall (api : list request -> request -> response)
         (user start_time end_time : string) (svc : service),
    let run := Cli._get_user_events api user start_time end_time svc in
    (exists events, fst run = Ok events)
    /\ exists n,
         requests (snd run)
         = (requests svc ++ map (UserEvents user) (seq 1 n))%list
         /\ (n <= 50)%nat
         /\ forall k, (k < n)%nat ->
                      feed_past_window api user start_time (requests svc) 1 k
                      -> S k = n.
Proof.
  intros api user start_time end_time svc run.
  destruct (user_pages_run_ok api user start_time end_time 51 1 [] svc
              ltac:(lia)) as [Ho [n [Hr [Hn Hk]]]].
  split; [exact Ho|]. exists n. repeat split; auto.
  destruct Hn as [-> | Hn]; lia.
Qed.


(** ** The formatter: asterisks, and one entry per repository and per
    pull request *)

Section PlainTextFacts.

Lemma span_free (c stop : ascii) (s : string) :
  has_char c s = false -> has_char c (fst (span stop s)) = false.
Proof.
  induction s as [|x s IH]; intros H; [reflexivity|].
  cbn [has_char] in H. apply orb_false_iff in H. destruct H as [Hx Hs].
  cbn [span]. destruct (Ascii.eqb x stop); [reflexivity|].
  specialize (IH Hs). destruct (span stop s) as [run rest].
  cbn [fst has_char] in *. now rewrite Hx, IH.
Qed.

(** The label of a match is made of characters of the string. *)
Lemma match_link_label_free (c : ascii) (s label : string) (n : nat) :
  has_char c s = false -> match_link s = Some (label, n) ->
  has_char c label = false.
Proof.
  destruct s as [|open after_open]; [discriminate 2|].
  cbn [has_char match_link]. intros H.
  apply orb_false_iff in H. destruct H as [_ H].
  destruct (Ascii.eqb open "["); [|discriminate].
  pose proof (span_free c "]" after_open H) as Hl.
  destruct (span "]" after_open) as [run after_label]. cbn [fst] in Hl.
  destruct run as [|x run]; [discriminate|].
  destruct after_label as [|close [|paren after_paren]]; try discriminate.
  destruct (Ascii.eqb close "]" && Ascii.eqb paren "("); [|discriminate].
  destruct (span ")" after_paren) as [target after_target].
  destruct target as [|y target]; [discriminate|].
  destruct after_target as [|close' rest]; [discriminate|].
  destruct (Ascii.eqb close' ")"); [|discriminate].
  intros E. injection E as <- _. exact Hl.
Qed.

(** The substitution brings no new character. *)
Lemma collapse_from_free (c : ascii) (s : string) :
  forall skip,
    has_char c s = false -> has_char c (collapse_from s skip) = false.
Proof.
  induction s as [|x s IH]; intros skip H; [reflexivity|].
  pose proof H as Hall.
  cbn [has_char] in H. apply orb_false_iff in H. destruct H as [Hx Hs].
  cbn [collapse_from]. destruct skip as [|k]; [|now apply IH].
  destruct (match_link (String x s)) as [[label n]|] eqn:E.
  - rewrite has_char_append.
    rewrite (match_link_label_free c _ label n Hall E).
    now apply IH.
  - cbn [has_char]. rewrite Hx. now apply IH.
Qed.

Lemma remove_stars_free (s : string) : has_char "*" (remove_stars s) = false.
Proof.
  induction s as [|x s IH]; [reflexivity|].
  cbn [remove_stars]. destruct (Ascii.eqb x "*") eqn:E; [exact IH|].
  cbn [has_char]. now rewrite E.
Qed.

Lemma clean_item_free (item : string) : has_char "*" (clean_item item) = false.
Proof.
  rewrite clean_item_spec. unfold collapse_links.
  apply collapse_from_free, remove_stars_free.
Qed.

Lemma pad_no_star (w : nat) (z : Z) : has_char "*" (pad w z) = false.
Proof.
  unfold pad. rewrite has_char_append.
  destruct (plainb_spec _ (str_of_Z_plain z)) as (_ & _ & -> & _).
  rewrite orb_false_r.
  induction (w - String.length (str_of_Z z))%nat as [|n IH];
    [reflexivity | exact IH].
Qed.

Lemma month_name_no_star (m : Z) : has_char "*" (month_name m) = false.
Proof.
  unfold month_name.
  repeat match goal with
         | |- context [match ?x with _ => _ end] => destruct x
         end; reflexivity.
Qed.

Lemma strftime_BdY_no_star (d : datetime) :
  has_char "*" (strftime_BdY d) = false.
Proof.
  unfold strftime_BdY.
  rewrite !has_char_append, month_name_no_star, !pad_no_star. reflexivity.
Qed.

End PlainTextFacts.

(** X12: the text report never holds an asterisk: both replacements
    remove every one of the items, the substitution of the links adds none,
    and the header has none. *)
Theorem text_report_has_no_asterisk :
  forall (github_activity : GitHubActivity) (text : string),
    format_standup_report github_activity "text" = Ok text ->
    contains "*" text = false.
Proof.
  intros a text E. rewrite format_text in E.
  unfold _format_text_report in E.
  destruct (_generate_standup_items a) as [items|]; [|discriminate].
  cbn [bind] in E. apply Ok_inj in E. subst text.
  destruct (contains "*" _) eqn:C; [|reflexivity].
  apply contains_has_char in C.
  rewrite has_char_join in C; [discriminate | reflexivity |].
  apply Forall_app. split.
  - repeat constructor.
    rewrite has_char_append. now rewrite strftime_BdY_no_star.
  - destruct items as [|item items]; [repeat constructor|].
    apply Forall_forall. intros line Hin. apply in_map_iff in Hin.
    destruct Hin as [x [<- _]]. apply clean_item_free.
Qed.

(** The instance of X12 at a push with five commits, whose items hold
    bold and italic markers. *)
Lemma text_report_has_no_asterisk_witness :
  let commit := fun message =>
    VDict [("message", VStr message); ("sha", VStr "abc1234");
           ("link", VStr "https://github.com/org/repo/commit/abc1234")] in
  let event :=
    mkEvent "PushEvent" "2024-07-23T10:00:00Z" "org/repo" "user"
      empty_payload
      [("commits",
        VList [commit "a*b"; commit "c"; commit "d"; commit "e";
               commit "f"])] in
  let collection :=
    mkActivity (mkDatetime 739090 0 0 0 0) None None [event] [] in
  let text :=
    join newline
      ["Standup Summary - July 23, 2024";
       repeat_char "=" 50;
       "";
       "- Made 5 commits to org/repo";
       "  - ab (abc1234)";
       "  - c (abc1234)";
       "  - d (abc1234)";
       "  - (and 2 more)"] in
  format_standup_report collection "text" = Ok text
  /\ contains "*" text = false.
Proof.
  intros commit event collection text.
  assert (E : format_standup_report collection "text" = Ok text)
    by (vm_compute; reflexivity).
  split; [exact E|].
  exact (text_report_has_no_asterisk collection text E).
Defined.

Section GroupingFacts.

(** The keys of a list in the order of their first occurrence, after
    those of [acc]. *)
Definition first_occurrences (keys acc : list string) : list string :=
  fold_left
    (fun acc k => if existsb (String.eqb k) acc then acc
                  else (acc ++ [k])%list)
    keys acc.

Lemma extend_at_keys {A : Type} (d : list (string * list A)) (k : string)
  (xs : list A) :
  map fst (extend_at d k xs)
  = if existsb (String.eqb k) (map fst d) then map fst d
    else (map fst d ++ [k])%list.
Proof.
  induction d as [|[k' ys] d IH]; [reflexivity|].
  cbn [extend_at map fst existsb].
  rewrite (String.eqb_sym k k').
  destruct (String.eqb k' k); cbn [orb map fst]; [reflexivity|].
  rewrite IH. destruct (existsb (String.eqb k) (map fst d)); reflexivity.
Qed.

Lemma extend_at_groups_nonempty {A : Type} (d : list (string * list A))
  (k : string) (x : A) :
  Forall (fun kv => snd kv <> []) d ->
  Forall (fun kv => snd kv <> []) (extend_at d k [x]).
Proof.
  induction 1 as [|[k' ys] d Hy Hd IH]; cbn [extend_at].
  - repeat constructor. discriminate.
  - destruct (String.eqb k' k).
    + constructor; [|exact Hd]. cbn [snd] in *.
      destruct ys; [contradiction | discriminate].
    + constructor; assumption.
Qed.

Lemma first_occurrences_spec (keys : list string) :
  forall acc,
    NoDup acc ->
    NoDup (first_occurrences keys acc)
    /\ forall k, In k (first_occurrences keys acc) <-> In k acc \/ In k keys.
Proof.
  unfold first_occurrences.
  induction keys as [|key keys IH]; intros acc Hn; cbn [fold_left].
  - split; [exact Hn|]. intros k. cbn [In]. tauto.
  - destruct (existsb (String.eqb key) acc) eqn:E.
    + destruct (IH acc Hn) as [N I]. split; [exact N|].
      intros k. rewrite I. cbn [In]. apply existsb_eqb_In in E.
      split; [tauto|]. intros [H | [<- | H]]; tauto.
    + assert (Hn' : NoDup (acc ++ [key])).
      { apply NoDup_app; [exact Hn | repeat constructor; intros [] |].
        intros k Hin [<- | []]. apply existsb_eqb_In in Hin. congruence. }
      destruct (IH _ Hn') as [N I]. split; [exact N|].
      intros k. rewrite I, in_app_iff. cbn [In]. tauto.
Qed.

(** Their number is the number of distinct keys. *)
Lemma first_occurrences_length (keys : list string) :
  List.length (first_occurrences keys [])
  = List.length (nodup string_dec keys).
Proof.
  destruct (first_occurrences_spec keys [] (NoDup_nil _)) as [N I].
  apply Permutation_length. apply NoDup_Permutation.
  - exact N.
  - apply NoDup_nodup.
  - intros k. rewrite I, nodup_In. cbn [In]. tauto.
Qed.

Lemma commits_by_repo_keys (events : list GitHubEvent) :
  forall acc by_repo,
    commits_by_repo events acc = Ok by_repo ->
    map fst by_repo = first_occurrences (map repo events) (map fst acc).
Proof.
  induction events as [|event rest IH]; intros acc by_repo E;
    cbn [commits_by_repo] in E.
  - apply Ok_inj in E. now subst.
  - destruct (iterate (info_get event "commits" (VList []))) as [found|];
      [|discriminate].
    cbn [bind] in E. rewrite (IH _ _ E), extend_at_keys. reflexivity.
Qed.

(** The key under which [_format_review_items] files a review. *)
Definition pr_key (event : GitHubEvent) : string :=
  repo event ++ "#"
  ++ match py_str (info_get event "pr_number" (VStr "")) with
     | Ok n => n
     | Raise _ => ""
     end.

Definition is_review (event : GitHubEvent) : bool :=
  is_type event "PullRequestReviewEvent".

Lemma reviews_by_pr_keys (events : list GitHubEvent) :
  forall acc by_pr,
    Forall (fun kv => snd kv <> []) acc ->
    reviews_by_pr events acc = Ok by_pr ->
    map fst by_pr
    = first_occurrences (map pr_key (filter is_review events)) (map fst acc)
    /\ Forall (fun kv => snd kv <> []) by_pr.
Proof.
  induction events as [|event rest IH]; intros acc by_pr Hacc E;
    cbn [reviews_by_pr] in E.
  - apply Ok_inj in E. subst. split; [reflexivity | exact Hacc].
  - cbn [filter]. unfold is_review at 1.
    destruct (is_type event "PullRequestReviewEvent");
      [|exact (IH _ _ Hacc E)].
    destruct (py_str (info_get event "pr_number" (VStr ""))) as [n|] eqn:En;
      [|discriminate].
    cbn [bind] in E.
    destruct (IH _ _ (extend_at_groups_nonempty acc _ event Hacc) E)
      as [Hk Hn].
    split; [|exact Hn].
    assert (Hkey : pr_key event = repo event ++ "#" ++ n)
      by (unfold pr_key; now rewrite En).
    rewrite Hk, extend_at_keys. unfold first_occurrences.
    cbn [map fold_left]. rewrite Hkey. reflexivity.
Qed.

Lemma review_item_single (review_events : list GitHubEvent)
  (zs : list string) :
  review_events <> [] -> review_item review_events = Ok zs ->
  List.length zs = 1%nat.
Proof.
  intros Hne. unfold review_item.
  destruct (rev review_events) as [|latest_review others] eqn:Er.
  { apply (f_equal (@rev _)) in Er. rewrite rev_involutive in Er.
    contradiction. }
  cbv zeta. destruct (first_link _ _) as [link|]; [|discriminate].
  cbn [bind].
  destruct (py_str (info_get latest_review "pr_number" (VStr "")))
    as [n|]; [|discriminate].
  cbn [bind].
  destruct (py_str (info_get latest_review "review_state" (VStr "")))
    as [st|]; [|discriminate].
  cbn [bind]. intros E. apply Ok_inj in E. now subst.
Qed.

Lemma concatM_length {A : Type} (f : A -> result (list string))
  (lo hi : nat) (xs : list A) :
  forall ys,
    (forall x zs, In x xs -> f x = Ok zs ->
                  (lo <= List.length zs <= hi)%nat) ->
    concatM f xs = Ok ys ->
    (lo * List.length xs <= List.length ys <= hi * List.length xs)%nat.
Proof.
  induction xs as [|x xs IH]; intros ys Hf E; cbn [concatM] in E.
  - apply Ok_inj in E. subst. cbn [List.length]. lia.
  - destruct (f x) as [zs|] eqn:Ex; [|discriminate]. cbn [bind] in E.
    destruct (concatM f xs) as [ws|] eqn:Ew; [|discriminate].
    cbn [bind] in E. apply Ok_inj in E. subst.
    rewrite length_app. cbn [List.length].
    pose proof (Hf x zs (or_introl eq_refl) Ex).
    assert (lo * List.length xs <= List.length ws
            <= hi * List.length xs)%nat.
    { apply IH; [|reflexivity]. intros x' zs' Hin. apply Hf. now right. }
    lia.
Qed.

Lemma mapM_length {A B : Type} (f : A -> result B) (xs : list A) :
  forall ys, mapM f xs = Ok ys -> List.length ys = List.length xs.
Proof.
  induction xs as [|x xs IH]; intros ys E; cbn [mapM] in E.
  - apply Ok_inj in E. now subst.
  - destruct (f x) as [y|]; [|discriminate]. cbn [bind] in E.
    destruct (mapM f xs) as [zs|] eqn:Ez; [|discriminate].
    cbn [bind] in E. apply Ok_inj in E. subst. cbn [List.length].
    now rewrite (IH zs eq_refl).
Qed.

Lemma repo_commit_items_length (r : string) (commits : list value)
  (zs : list string) :
  repo_commit_items r commits = Ok zs ->
  (1 <= List.length zs <= 5)%nat.
Proof.
  unfold repo_commit_items.
  assert (Hmany :
    (let n := List.length commits in
     let head :=
       "- Made **" ++ str_of_nat n ++ " commits** to [" ++ r
       ++ "](https://github.com/" ++ r ++ ")" in
     let more :=
       if (3 <? n)%nat
       then ["  - *(and " ++ str_of_nat (n - 3) ++ " more)*"]
       else [] in
     shown <- mapM commit_line (firstn 3 commits) ;;
     Ok (head :: List.app shown more)) = Ok zs ->
    (1 <= List.length zs <= 5)%nat).
  { cbv zeta.
    destruct (mapM commit_line (firstn 3 commits)) as [shown|] eqn:Es;
      [|discriminate].
    cbn [bind]. intros E. apply Ok_inj in E. subst zs.
    apply mapM_length in Es. cbn [List.length]. rewrite length_app, Es.
    pose proof (firstn_le_length 3 commits).
    rewrite length_firstn.
    destruct (3 <? List.length commits)%nat; cbn [List.length]; lia. }
  destruct commits as [|c [|c' more]]; [exact Hmany | | exact Hmany].
  destruct (subscript c "message") as [m|]; [|discriminate]. cbn [bind].
  destruct (py_str m) as [message|]; [|discriminate]. cbn [bind].
  destruct (subscript c "link") as [l|]; [|discriminate]. cbn [bind].
  destruct (py_str l) as [link|]; [|discriminate]. cbn [bind].
  intros E. apply Ok_inj in E. subst zs. cbn [List.length]. lia.
Qed.

End GroupingFacts.

(** X13: [_format_review_items] writes one line for each pull request
    that was reviewed, however many reviews it got: as many lines as there
    are distinct keys [repo#number] among the events of type
    [PullRequestReviewEvent]. *)
Theorem one_review_item_per_pull_request :
  forall (events : list GitHubEvent) (items : list string),
    _format_review_items events = Ok items ->
    List.length items
    = List.length (nodup string_dec (map pr_key (filter is_review events))).
Proof.
  intros events items E. unfold _format_review_items in E.
  destruct (reviews_by_pr events []) as [by_pr|] eqn:Eb; [|discriminate].
  cbn [bind] in E.
  destruct (reviews_by_pr_keys events [] by_pr (Forall_nil _) Eb)
    as [Hk Hn].
  cbn [map] in Hk.
  rewrite <- first_occurrences_length, <- Hk, length_map.
  assert (H : (1 * List.length by_pr <= List.length items
               <= 1 * List.length by_pr)%nat).
  { apply (concatM_length (fun kv => review_item (snd kv)) 1 1 by_pr items);
      [|exact E].
    intros kv zs Hin Ez.
    rewrite (review_item_single (snd kv) zs
               (proj1 (Forall_forall _ _) Hn kv Hin) Ez). lia. }
  lia.
Qed.

(** The instance of X13: three reviews of two pull requests. *)
Lemma one_review_item_per_pull_request_witness :
  let review := fun number state =>
    mkEvent "PullRequestReviewEvent" "2024-07-23T10:00:00Z" "org/repo"
      "user" empty_payload
      [("pr_number", VInt number); ("review_state", VStr state);
       ("links", VList [VStr "https://github.com/org/repo/pull/1"])] in
  let events :=
    [review 1%Z "commented"; review 2%Z "approved";
     review 1%Z "approved"] in
  let items :=
    ["- Reviewed **[PR #1](https://github.com/org/repo/pull/1)** (approved)";
     "- Reviewed **[PR #2](https://github.com/org/repo/pull/1)** (approved)"]
  in
  _format_review_items events = Ok items
  /\ List.length items
     = List.length (nodup string_dec (map pr_key (filter is_review events))).
Proof.
  intros review events items.
  assert (E : _format_review_items events = Ok items)
    by (vm_compute; reflexivity).
  split; [exact E|].
  exact (one_review_item_per_pull_request events items E).
Defined.

(** X14: [_format_commit_items] writes between one and five lines for
    each repository of the events it is given: a line for a single commit,
    or a headline, at most three commits and a line for the remainder. *)
Theorem commit_items_are_bounded_per_repository :
  forall (events : list GitHubEvent) (items : list string),
    _format_commit_items events = Ok items ->
    let repositories := nodup string_dec (map repo events) in
    (List.length repositories <= List.length items
     <= 5 * List.length repositories)%nat.
Proof.
  intros events items E repositories. unfold _format_commit_items in E.
  destruct (commits_by_repo events []) as [by_repo|] eqn:Eb; [|discriminate].
  cbn [bind] in E.
  pose proof (commits_by_repo_keys events [] by_repo Eb) as Hk.
  cbn [map] in Hk.
  unfold repositories.
  rewrite <- first_occurrences_length, <- Hk, length_map.
  assert (H : (1 * List.length by_repo <= List.length items
               <= 5 * List.length by_repo)%nat).
  { apply (concatM_length
             (fun rc => repo_commit_items (fst rc) (snd rc)) 1 5 by_repo
             items); [|exact E].
    intros rc zs _ Ez. exact (repo_commit_items_length _ _ _ Ez). }
  lia.
Qed.

(** The instance of X14: two pushes to one repository with five commits
    in all give five lines. *)
Lemma commit_items_are_bounded_per_repository_witness :
  let commit := fun message =>
    VDict [("message", VStr message); ("sha", VStr "abc1234");
           ("link", VStr "https://github.com/org/repo/commit/abc1234")] in
  let push := fun commits =>
    mkEvent "PushEvent" "2024-07-23T10:00:00Z" "org/repo" "user"
      empty_payload [("commits", VList commits)] in
  let events :=
    [push [commit "a"; commit "b"];
     push [commit "c"; commit "d"; commit "e"]] in
  exists items,
    _format_commit_items events = Ok items
    /\ List.length items = 5%nat
    /\ (let repositories := nodup string_dec (map repo events) in
        (List.length repositories <= List.length items
         <= 5 * List.length repositories)%nat).
Proof.
  intros commit push events.
  assert (E : exists items,
             _format_commit_items events = Ok items
             /\ List.length items = 5%nat)
    by (vm_compute; eexists; split; reflexivity).
  destruct E as (items & E & Hl).
  exists items. split; [exact E|]. split; [exact Hl|].
  exact (commit_items_are_bounded_per_repository events items E).
Defined.


(** ** formatting.py: the detailed activity report *)

Module ActivityReport.

(** [v > 0] for an object of the summary: integers and booleans compare
    with [0], any other object raises [TypeError]. *)
Definition positive (v : value) : result bool :=
  match v with
  | VInt z => Ok (0 <? z)%Z
  | VBool b => Ok b
  | _ => Raise TypeError
  end.

(** [f"- Commit: {commit['message']} ([{commit['sha']}]({commit['link']}))"] *)
Definition commit_detail (commit : value) : result string :=
  m <- subscript commit "message" ;; message <- py_str m ;;
  s <- subscript commit "sha" ;; sha <- py_str s ;;
  l <- subscript commit "link" ;; link <- py_str l ;;
  Ok ("- Commit: " ++ message ++ " ([" ++ sha ++ "](" ++ link ++ "))").

Definition event_heading (event : GitHubEvent) : string :=
  "**" ++ event_type event ++ "** by " ++ actor event ++ " at "
  ++ created_at event.

Definition _format_event_details (event : GitHubEvent)
  : result (list string) :=
  let lines := [event_heading event] in
  details <- iterate (info_get event "details" (VList [])) ;;
  detail_lines <- mapM (fun detail => d <- py_str detail ;; Ok ("- " ++ d))
                    details ;;
  links <- iterate (info_get event "links" (VList [])) ;;
  link_lines <- mapM (fun link => l <- py_str link ;; Ok ("- Link: " ++ l))
                  links ;;
  commits <- iterate (info_get event "commits" (VList [])) ;;
  commit_lines <- mapM commit_detail commits ;;
  Ok (lines ++ detail_lines ++ link_lines ++ commit_lines)%list.

(** [events_by_repo]: the events of every repository, in the order of
    the first event of each. *)
Fixpoint events_by_repo (events : list GitHubEvent)
  (acc : list (string * list GitHubEvent))
  : list (string * list GitHubEvent) :=
  match events with
  | [] => acc
  | event :: rest => events_by_repo rest (extend_at acc (repo event) [event])
  end.

(** The lines of one repository: its heading, an empty line, and the
    details of each event followed by an empty line. *)
Definition repo_section (entry : string * list GitHubEvent)
  : result (list string) :=
  event_lines <- concatM
                   (fun event =>
                      lines <- _format_event_details event ;;
                      Ok (lines ++ [""])%list)
                   (snd entry) ;;
  Ok (("### " ++ fst entry) :: "" :: event_lines).

Definition format_github_activity (activity : GitHubActivity)
  : result string :=
  match events activity with
  | [] =>
      Ok ("No GitHub activity found for "
          ++ strftime_Ymd (target_date activity))
  | _ =>
      total <- dict_item (summary activity) "total_events" ;;
      total_str <- py_str total ;;
      repositories <- dict_item (summary activity) "repositories" ;;
      count <- py_len repositories ;;
      let lines :=
        ["# GitHub Activity for " ++ strftime_Ymd (target_date activity);
         "";
         "**Summary:** " ++ total_str ++ " events across " ++ str_of_Z count
         ++ " repositories";
         ""] in
      has_commits <- positive (dict_get_default (summary activity)
                                 "commit_count" (VInt 0)) ;;
      commit_lines <-
        (if has_commits : bool then
           n <- dict_item (summary activity) "commit_count" ;;
           s <- py_str n ;; Ok ["- **Commits:** " ++ s]
         else Ok []) ;;
      has_prs <- positive (dict_get_default (summary activity)
                             "pr_count" (VInt 0)) ;;
      pr_lines <-
        (if has_prs : bool then
           n <- dict_item (summary activity) "pr_count" ;;
           s <- py_str n ;; Ok ["- **Pull Requests:** " ++ s]
         else Ok []) ;;
      sections <- concatM repo_section
                    (events_by_repo (events activity) []) ;;
      Ok (join newline
            (lines ++ commit_lines ++ pr_lines
             ++ [""; "## Detailed Activity"; ""] ++ sections)%list)
  end.

End ActivityReport.

Import ActivityReport.

(** The report of the test suite's empty activity. *)
Example format_github_activity_empty :
  format_github_activity
    (mkActivity (mkDatetime 739090 0 0 0 0) (Some "testuser") None [] [])
  = Ok "No GitHub activity found for 2024-07-23".
Proof. reflexivity. Qed.

Section ActivityReportFacts.

Lemma startswith_refl (s : string) : startswith s s = true.
Proof.
  induction s as [|c s IH]; [reflexivity|].
  cbn [startswith]. now rewrite Ascii.eqb_refl.
Qed.

Lemma contains_refl (s : string) : contains s s = true.
Proof. destruct s; cbn [contains]; now rewrite startswith_refl. Qed.

(** A group that holds an event still holds it after an extension, and
    an extension by an event holds that event. *)
Lemma extend_at_keeps {A : Type} (d : list (string * list A))
  (k k' : string) (group xs : list A) (x : A) :
  In (k, group) d -> In x group ->
  exists group', In (k, group') (extend_at d k' xs) /\ In x group'.
Proof.
  induction d as [|[k0 ys] d IH]; intros Hin Hx; [destruct Hin|].
  cbn [extend_at]. destruct Hin as [E | Hin].
  - injection E as -> ->.
    destruct (String.eqb k k').
    + exists (group ++ xs)%list. split; [now left|].
      apply in_or_app. now left.
    + exists group. split; [now left | exact Hx].
  - destruct (String.eqb k0 k').
    + exists group. split; [now right | exact Hx].
    + destruct (IH Hin Hx) as [group' [H1 H2]].
      exists group'. split; [now right | exact H2].
Qed.

Lemma extend_at_adds {A : Type} (d : list (string * list A)) (k : string)
  (x : A) :
  exists group, In (k, group) (extend_at d k [x]) /\ In x group.
Proof.
  induction d as [|[k0 ys] d IH]; cbn [extend_at].
  - exists [x]. split; now left.
  - destruct (String.eqb_spec k0 k) as [-> | _].
    + exists (ys ++ [x])%list. split; [now left|].
      apply in_or_app. right. now left.
    + destruct IH as [group [H1 H2]].
      exists group. split; [now right | exact H2].
Qed.

Lemma events_by_repo_holds (events : list GitHubEvent) :
  forall acc e,
    In e events
    \/ (exists group, In (repo e, group) acc /\ In e group) ->
    exists group,
      In (repo e, group) (events_by_repo events acc) /\ In e group.
Proof.
  induction events as [|event rest IH]; intros acc e H;
    cbn [events_by_repo].
  - destruct H as [[] | H]. exact H.
  - apply IH. destruct H as [[<- | Hin] | [group [H1 H2]]].
    + right. apply extend_at_adds.
    + now left.
    + right. exact (extend_at_keeps acc _ _ group _ e H1 H2).
Qed.

Lemma concatM_In {A : Type} (f : A -> result (list string)) (xs : list A) :
  forall ys x,
    concatM f xs = Ok ys -> In x xs ->
    exists zs, f x = Ok zs /\ forall z, In z zs -> In z ys.
Proof.
  induction xs as [|x0 xs IH]; intros ys x E Hin; [destruct Hin|].
  cbn [concatM] in E.
  destruct (f x0) as [zs0|] eqn:E0; [|discriminate]. cbn [bind] in E.
  destruct (concatM f xs) as [ws|] eqn:Ew; [|discriminate].
  cbn [bind] in E. apply Ok_inj in E. subst ys.
  destruct Hin as [<- | Hin].
  - exists zs0. split; [exact E0|]. intros z Hz. apply in_or_app. now left.
  - destruct (IH ws x eq_refl Hin) as [zs [Hf Hz]].
    exists zs. split; [exact Hf|]. intros z Hin'. apply in_or_app. right.
    now apply Hz.
Qed.

Lemma event_details_head (event : GitHubEvent) (lines : list string) :
  _format_event_details event = Ok lines -> In (event_heading event) lines.
Proof.
  unfold _format_event_details. cbv zeta.
  destruct (iterate (info_get event "details" (VList []))) as [details|];
    [|discriminate]. cbn [bind].
  destruct (mapM _ details) as [detail_lines|]; [|discriminate]. cbn [bind].
  destruct (iterate (info_get event "links" (VList []))) as [links|];
    [|discriminate]. cbn [bind].
  destruct (mapM _ links) as [link_lines|]; [|discriminate]. cbn [bind].
  destruct (iterate (info_get event "commits" (VList []))) as [commits|];
    [|discriminate]. cbn [bind].
  destruct (mapM commit_detail commits) as [commit_lines|]; [|discriminate].
  cbn [bind]. intros E. apply Ok_inj in E. subst lines. now left.
Qed.

Lemma repo_section_holds (entry : string * list GitHubEvent)
  (e : GitHubEvent) (lines : list string) :
  repo_section entry = Ok lines -> In e (snd entry) ->
  In ("### " ++ fst entry) lines /\ In (event_heading e) lines.
Proof.
  unfold repo_section. intros E Hin.
  destruct (concatM _ (snd entry)) as [event_lines|] eqn:Ec; [|discriminate].
  cbn [bind] in E. apply Ok_inj in E. subst lines.
  split; [now left|]. right. right.
  destruct (concatM_In _ _ _ e Ec Hin) as [zs [Hf Hz]].
  apply Hz.
  destruct (_format_event_details e) as [details|] eqn:Ed; [|discriminate].
  cbn [bind] in Hf. apply Ok_inj in Hf. subst zs.
  apply in_or_app. left. now apply event_details_head.
Qed.

End ActivityReportFacts.

(** X15: the detailed report drops no event: when it is rendered, it
    holds, for every event of the activity, a heading [### repo] of the
    event's repository and the line that names the event's type, actor and
    creation time; for an activity without events it is the one line
    [No GitHub activity found for <date>], whatever the summary holds. *)
Theorem activity_report_names_every_event :
  forall (activity : GitHubActivity) (text : string),
    format_github_activity activity = Ok text ->
    (events activity = [] ->
     text = "No GitHub activity found for "
            ++ strftime_Ymd (target_date activity))
    /\ (forall e, In e (events activity) ->
          contains ("### " ++ repo e) text = true
          /\ contains (event_heading e) text = true).
Proof.
  intros a text E. unfold format_github_activity in E.
  destruct (events a) as [|event rest] eqn:Ev.
  { apply Ok_inj in E. split; [now intros _ | intros e []]. }
  split; [discriminate|]. intros e Hin.
  destruct (dict_item (summary a) "total_events") as [total|];
    [|discriminate]. cbn [bind] in E.
  destruct (py_str total) as [total_str|]; [|discriminate]. cbn [bind] in E.
  destruct (dict_item (summary a) "repositories") as [repositories|];
    [|discriminate]. cbn [bind] in E.
  destruct (py_len repositories) as [count|]; [|discriminate].
  cbn [bind] in E. cbv zeta in E.
  destruct (positive (dict_get_default (summary a) "commit_count" (VInt 0)))
    as [has_commits|]; [|discriminate]. cbn [bind] in E.
  destruct (if has_commits then _ else _) as [commit_lines|];
    [|discriminate]. cbn [bind] in E.
  destruct (positive (dict_get_default (summary a) "pr_count" (VInt 0)))
    as [has_prs|]; [|discriminate]. cbn [bind] in E.
  destruct (if has_prs then _ else _) as [pr_lines|]; [|discriminate].
  cbn [bind] in E.
  destruct (concatM repo_section (events_by_repo (event :: rest) []))
    as [sections|] eqn:Es; [|discriminate].
  cbn [bind] in E. apply Ok_inj in E. subst text.
  destruct (events_by_repo_holds (event :: rest) [] e (or_introl Hin))
    as [group [Hg He]].
  destruct (concatM_In _ _ _ _ Es Hg) as [lines [Hs Hl]].
  destruct (repo_section_holds _ e lines Hs He) as [H1 H2].
  cbn [fst] in H1.
  split.
  - apply (contains_join _ _ ("### " ++ repo e)); [|apply contains_refl].
    do 4 (apply in_or_app; right). now apply Hl.
  - apply (contains_join _ _ (event_heading e)); [|apply contains_refl].
    do 4 (apply in_or_app; right). now apply Hl.
Qed.

(** The instance of X15 at a watch event. *)
Lemma activity_report_names_every_event_witness :
  let event :=
    mkEvent "WatchEvent" "2024-07-23T10:00:00Z" "org/repo" "user"
      empty_payload
      [("links", VList []); ("details", VList [VStr "Starred"]);
       ("commits", VList [])] in
  let activity :=
    mkActivity (mkDatetime 739090 0 0 0 0) None None [event]
      [("total_events", VInt 1); ("repositories", VList [VStr "org/repo"]);
       ("commit_count", VInt 0); ("pr_count", VInt 0)] in
  let text :=
    join newline
      ["# GitHub Activity for 2024-07-23";
       "";
       "**Summary:** 1 events across 1 repositories";
       "";
       "";
       "## Detailed Activity";
       "";
       "### org/repo";
       "";
       "**WatchEvent** by user at 2024-07-23T10:00:00Z";
       "- Starred";
       ""] in
  format_github_activity activity = Ok text
  /\ (events activity = [] ->
      text = "No GitHub activity found for "
             ++ strftime_Ymd (target_date activity))
  /\ (forall e, In e (events activity) ->
        contains ("### " ++ repo e) text = true
        /\ contains (event_heading e) text = true).
Proof.
  intros event activity text.
  assert (E : format_github_activity activity = Ok text)
    by (vm_compute; reflexivity).
  split; [exact E|].
  exact (activity_report_names_every_event activity text E).
Defined.


(** * The mise server *)

(** ** commands.py: running [mise] *)

Module Commands.

(** What [run_mise_command] and [run_command_with_mise_env] return: the
    dictionary with the keys [success], [stdout], [stderr] and
    [returncode]. *)
Record command_result := mkResult {
  success : bool;
  stdout : string;
  stderr : string;
  returncode : Z
}.

(** [s.split(sep)] for a separator of one character. *)
Fixpoint split_char (sep : ascii) (s : string) (current : string)
  : list string :=
  match s with
  | EmptyString => [current]
  | String c s' =>
      if Ascii.eqb c sep then current :: split_char sep s' ""
      else split_char sep s' (current ++ String c "")
  end.

(** [s.split(sep, 1)] when [sep] occurs in [s]: what precedes its first
    occurrence and what follows it. *)
Fixpoint split_once (sep : ascii) (s : string) : option (string * string) :=
  match s with
  | EmptyString => None
  | String c s' =>
      if Ascii.eqb c sep then Some (EmptyString, s')
      else match split_once sep s' with
           | Some (before, after) => Some (String c before, after)
           | None => None
           end
  end.

(** [s.endswith(c)] for one character. *)
Fixpoint ends_with_char (c : ascii) (s : string) : bool :=
  match s with
  | EmptyString => false
  | String x EmptyString => Ascii.eqb x c
  | String _ s' => ends_with_char c s'
  end.

(** [s[:-1]] *)
Fixpoint drop_last (s : string) : string :=
  match s with
  | EmptyString => EmptyString
  | String _ EmptyString => EmptyString
  | String c s' => String c (drop_last s')
  end.

(** [value[1:-1]] when [value] starts and ends with the quote [q]. *)
Definition unquote (value : string) : string :=
  let quoted (q : ascii) :=
    startswith (String q "") value && ends_with_char q value in
  if quoted "034"%char then drop_last (drop 1 value)
  else if quoted "'"%char then drop_last (drop 1 value)
  else value.

(** The body of the loop over the lines that [mise env -s bash] printed:
    the variable and the value of a line [export VAR=value], if the line is
    one. *)
Definition parse_export (line : string) : option (string * string) :=
  if startswith "export " line then
    match split_once "=" (drop 7 line) with
    | Some (key, value) => Some (key, unquote value)
    | None => None
    end
  else None.

(** [env[key] = value] *)
Fixpoint env_set (env : list (string * string)) (key value : string)
  : list (string * string) :=
  match env with
  | [] => [(key, value)]
  | (k, v) :: rest =>
      if String.eqb k key then (k, value) :: rest
      else (k, v) :: env_set rest key value
  end.

Fixpoint env_get (env : list (string * string)) (key : string)
  : option string :=
  match env with
  | [] => None
  | (k, v) :: rest => if String.eqb k key then Some v else env_get rest key
  end.

(** The environment of the command: [os.environ] updated with the
    exports of [output.strip().split('\n')]. *)
Definition mise_environment (environ : list (string * string))
  (output : string) : list (string * string) :=
  fold_left
    (fun env line =>
       match parse_export line with
       | Some (key, value) => env_set env key value
       | None => env
       end)
    (split_char (ascii_of_nat 10) (strip output) "")
    environ.

(** A call of [subprocess.run]: a completed process, or an exception,
    given by its [str(e)] when it is not [TimeoutExpired]. *)
Inductive process : Type :=
| Completed (code : Z) (out err : string)
| TimeoutExpired
| FileNotFoundError (message : string)
| OtherException (message : string).

(** The command line: a list of arguments, or a string for the shell. *)
Inductive command : Type :=
| Argv (args : list value)
| Shell (line : value).

Section Runner.

(** [subprocess.run] with the environment it is given ([None]: the one
    of the server), and [os.environ]. *)
Variable subprocess_run :
  command -> option (list (string * string)) -> process.
Variable environ : list (string * string).

Definition failed (message : string) : command_result :=
  mkResult false "" message (-1).

(** The two runners share all but the command and the handler of
    [FileNotFoundError], which only [run_mise_command] has. *)
Definition run_with_mise_env (cmd : command) (not_found : string -> string)
  : command_result :=
  let handle (e : process) (completed : Z -> string -> string
                                        -> command_result) :=
    match e with
    | Completed code out err => completed code out err
    | TimeoutExpired => failed "Command timed out after 30 seconds"
    | FileNotFoundError message => failed (not_found message)
    | OtherException message => failed ("Error running command: " ++ message)
    end in
  handle
    (subprocess_run
       (Argv [VStr "mise"; VStr "env"; VStr "-s"; VStr "bash"]) None)
    (fun code out _ =>
       let env :=
         if (code =? 0)%Z then mise_environment environ out else environ in
       handle (subprocess_run cmd (Some env))
         (fun code out err => mkResult (code =? 0)%Z out err code)).

Definition run_mise_command (args : list value) : command_result :=
  run_with_mise_env (Argv (VStr "mise" :: args))
    (fun _ =>
       "mise command not found. Please ensure mise is installed and in PATH.").

(** For [run_command_with_mise_env] a missing file is like any other
    exception. *)
Definition run_command_with_mise_env (command_line : value)
  : command_result :=
  run_with_mise_env (Shell command_line)
    (fun message => "Error running command: " ++ message).

End Runner.

End Commands.

Import Commands.

(** ** handlers.py: the tool handlers *)

Module Handlers.

(** [_format_result] *)
Definition _format_result (result : command_result) : list TextContent :=
  if success result then
    let output := strip (stdout result) in
    let output :=
      if negb (String.eqb (strip (stderr result)) "")
      then output ++ newline ++ newline ++ "Warnings/Info:" ++ newline
           ++ strip (stderr result)
      else output in
    [mkText "text"
       (if String.eqb output "" then "Command completed successfully"
        else output)]
  else
    let error_msg :=
      if String.eqb (strip (stderr result)) "" then "Command failed"
      else strip (stderr result) in
    [mkText "text" ("Error: " ++ error_msg)].

Section Handlers.

Variable run_mise_command : list value -> command_result.
Variable run_command_with_mise_env : value -> command_result.

(** [arguments[k]], which raises [KeyError(k)] when the key is missing;
    the message of the exception is [repr(k)]. *)
Definition required (arguments : dict) (k : string)
  (body : value -> outcome) : outcome :=
  match dict_get arguments k with
  | Some v => body v
  | None => Raises (repr_str k)
  end.

Definition flag (arguments : dict) (k : string) (option : string)
  : list value :=
  if truthy (dict_get_default arguments k (VBool false))
  then [VStr option] else [].

Definition handle_mise_install (arguments : dict) : outcome :=
  required arguments "tool" (fun tool =>
    let args := ([VStr "install"] ++ flag arguments "global" "-g"
                 ++ [tool])%list in
    Returns (_format_result (run_mise_command args))).

Definition handle_mise_uninstall (arguments : dict) : outcome :=
  required arguments "tool" (fun tool =>
    Returns (_format_result (run_mise_command [VStr "uninstall"; tool]))).

Definition handle_mise_use (arguments : dict) : outcome :=
  required arguments "tool" (fun tool =>
    let args := ([VStr "use"] ++ flag arguments "global" "-g"
                 ++ [tool])%list in
    Returns (_format_result (run_mise_command args))).

Definition handle_mise_list (arguments : dict) : outcome :=
  let args := ([VStr "list"] ++ flag arguments "all" "-a"
               ++ flag arguments "current" "-c")%list in
  Returns (_format_result (run_mise_command args)).

Definition handle_mise_outdated (arguments : dict) : outcome :=
  Returns (_format_result (run_mise_command [VStr "outdated"])).

Definition handle_mise_upgrade (arguments : dict) : outcome :=
  let args :=
    match dict_get arguments "tool" with
    | Some tool => [VStr "upgrade"; tool]
    | None => [VStr "upgrade"]
    end in
  Returns (_format_result (run_mise_command args)).

Definition handle_mise_current (arguments : dict) : outcome :=
  Returns (_format_result (run_mise_command [VStr "current"])).

Definition handle_mise_exec (arguments : dict) : outcome :=
  required arguments "command" (fun command =>
    let args :=
      ([VStr "exec"]
       ++ match dict_get arguments "tool" with
          | Some tool => [VStr "--"; tool]
          | None => []
          end
       ++ [VStr "--"; VStr "sh"; VStr "-c"; command])%list in
    Returns (_format_result (run_mise_command args))).

Definition handle_mise_which (arguments : dict) : outcome :=
  required arguments "command" (fun command =>
    Returns (_format_result (run_mise_command [VStr "which"; command]))).

Definition handle_mise_env (arguments : dict) : outcome :=
  let shell := dict_get_default arguments "shell" (VStr "bash") in
  Returns (_format_result (run_mise_command [VStr "env"; VStr "-s"; shell])).

Definition handle_mise_run (arguments : dict) : outcome :=
  required arguments "command" (fun command =>
    Returns (_format_result (run_command_with_mise_env command))).

Definition TOOL_HANDLERS : list (string * handler) :=
  [("mise_install", handle_mise_install);
   ("mise_uninstall", handle_mise_uninstall);
   ("mise_use", handle_mise_use);
   ("mise_list", handle_mise_list);
   ("mise_outdated", handle_mise_outdated);
   ("mise_upgrade", handle_mise_upgrade);
   ("mise_current", handle_mise_current);
   ("mise_exec", handle_mise_exec);
   ("mise_which", handle_mise_which);
   ("mise_env", handle_mise_env);
   ("mise_run", handle_mise_run)].

End Handlers.

End Handlers.

(** ** tools.py: the tools the server advertises *)

Module Tools.

(** A [Tool], without its descriptions: its name, the properties of its
    input schema with their types, and the required ones. *)
Record Tool := mkTool {
  name : string;
  properties : list (string * string);
  required_keys : list string
}.

Definition get_mise_tools : list Tool :=
  [mkTool "mise_install" [("tool", "string"); ("global", "boolean")]
     ["tool"];
   mkTool "mise_uninstall" [("tool", "string")] ["tool"];
   mkTool "mise_use" [("tool", "string"); ("global", "boolean")] ["tool"];
   mkTool "mise_list" [("all", "boolean"); ("current", "boolean")] [];
   mkTool "mise_outdated" [] [];
   mkTool "mise_upgrade" [("tool", "string")] [];
   mkTool "mise_current" [] [];
   mkTool "mise_exec" [("command", "string"); ("tool", "string")]
     ["command"];
   mkTool "mise_which" [("command", "string")] ["command"];
   mkTool "mise_env" [("shell", "string")] [];
   mkTool "mise_run" [("command", "string")] ["command"]].

Definition get_all_tools : list Tool := get_mise_tools.

End Tools.

Import Handlers Tools.

Section MiseFacts.

Lemma append_not_empty_r (a b : string) : b <> "" -> a ++ b <> "".
Proof.
  intros H E. destruct a; [now apply H|]. discriminate E.
Qed.

Lemma format_result_spec (result : command_result) :
  exists text,
    _format_result result = [mkText "text" text]
    /\ text <> ""
    /\ (success result = false -> startswith "Error: " text = true)
    /\ (success result = true -> strip (stdout result) = "" ->
        strip (stderr result) = "" ->
        text = "Command completed successfully").
Proof.
  unfold _format_result. destruct (success result).
  - eexists. split; [reflexivity|]. cbv zeta. split; [|split].
    + destruct (String.eqb_spec
                  (if negb (String.eqb (strip (stderr result)) "")
                   then strip (stdout result) ++ newline ++ newline
                        ++ "Warnings/Info:" ++ newline
                        ++ strip (stderr result)
                   else strip (stdout result)) "") as [_ | H];
        [discriminate | exact H].
    + discriminate.
    + intros _ Ho He. rewrite Ho, He. reflexivity.
  - eexists. split; [reflexivity|]. split; [discriminate|].
    split; [reflexivity | discriminate].
Qed.

Variable run_mise_command : list value -> command_result.
Variable run_command_with_mise_env : value -> command_result.

Let handlers := TOOL_HANDLERS run_mise_command run_command_with_mise_env.

(** What a handler does: it raises [KeyError] for a key it requires, or
    returns the formatted result of one command. *)
Inductive handled (arguments : dict) : outcome -> Prop :=
| handled_missing (k : string) :
    dict_get arguments k = None -> handled arguments (Raises (repr_str k))
| handled_mise (args : list value) :
    handled arguments (Returns (_format_result (run_mise_command args)))
| handled_shell (command : value) :
    dict_get arguments "command" = Some command ->
    handled arguments
      (Returns (_format_result (run_command_with_mise_env command))).

Lemma required_handled (arguments : dict) (k : string)
  (body : value -> outcome) :
  (forall v, dict_get arguments k = Some v -> handled arguments (body v)) ->
  handled arguments (required arguments k body).
Proof.
  intros H. unfold required.
  destruct (dict_get arguments k) as [v|] eqn:E;
    [now apply H | now apply handled_missing].
Qed.

Lemma handlers_handled (name : string) (h : handler) (arguments : dict) :
  Mise.lookup handlers name = Some h -> handled arguments (h arguments).
Proof.
  unfold handlers, TOOL_HANDLERS. cbn [Mise.lookup].
  repeat match goal with
         | |- (if String.eqb ?n name then _ else _) = _ -> _ =>
             destruct (String.eqb n name);
             [intros E; injection E as <-|]
         end;
    try discriminate;
    try (apply required_handled; intros v Hv);
    try apply handled_mise.
  now apply handled_shell.
Qed.

End MiseFacts.

(** X16: [_format_result] always returns exactly one text block, and its
    text is never empty; the text of a failed command starts with
    [Error: ], and a successful command that printed nothing but white
    space is reported as completed. *)
Theorem format_result_is_one_block :
  forall result : command_result,
    exists text,
      _format_result result = [mkText "text" text]
      /\ text <> ""
      /\ (success result = false -> startswith "Error: " text = true)
      /\ (success result = true -> strip (stdout result) = "" ->
          strip (stderr result) = "" ->
          text = "Command completed successfully").
Proof. exact format_result_spec. Qed.

(** The successful command of the test suite with a warning. *)
Example format_result_with_warning :
  _format_result (mkResult true "python 3.11.0" " deprecated " 0)
  = [mkText "text"
       ("python 3.11.0" ++ newline ++ newline ++ "Warnings/Info:" ++ newline
        ++ "deprecated")].
Proof. reflexivity. Qed.

(** X17: with the handlers of the server, a tool call returns exactly one
    text block with a text that is not empty, whatever the name, the
    arguments and the outcome of the command. *)
Theorem mise_call_returns_one_text_block :
  forall (run_mise_command : list value -> command_result)
         (run_command_with_mise_env : value -> command_result)
         (name : string) (arguments : dict),
    exists text,
      Mise.call_tool
        (TOOL_HANDLERS run_mise_command run_command_with_mise_env)
        name arguments
      = Returns [mkText "text" text]
      /\ text <> "".
Proof.
  intros run1 run2 name arguments. unfold Mise.call_tool.
  destruct (Mise.lookup (TOOL_HANDLERS run1 run2) name) as [h|] eqn:E.
  - destruct (handlers_handled run1 run2 name h arguments E)
      as [k Hk | args | command Hc]; cbn [try_except].
    + eexists. split; [reflexivity | discriminate].
    + destruct (format_result_spec (run1 args)) as (text & -> & Hn & _).
      now exists text.
    + destruct (format_result_spec (run2 command)) as (text & -> & Hn & _).
      now exists text.
  - cbn [try_except]. eexists. split; [reflexivity | discriminate].
Qed.

(** X18: every tool the server advertises has a handler, and the keys its
    schema requires are the keys the handler needs: with them the call runs
    one command, the [mise] subcommand the tool is named after (or, for
    [mise_run], the given command line), and returns its formatted result;
    without one of them it runs nothing and reports the missing key. *)
Theorem advertised_tools_are_handled :
  forall (run_mise_command : list value -> command_result)
         (run_command_with_mise_env : value -> command_result)
         (tool : Tool) (arguments : dict),
    In tool get_all_tools ->
    let call :=
      Mise.call_tool
        (TOOL_HANDLERS run_mise_command run_command_with_mise_env)
        (name tool) arguments in
    ((forall k, In k (required_keys tool) -> dict_mem arguments k = true) ->
     (name tool <> "mise_run" ->
      exists rest,
        call = Returns (_format_result
                          (run_mise_command
                             (VStr (drop 5 (name tool)) :: rest))))
     /\ (name tool = "mise_run" ->
         exists command,
           dict_get arguments "command" = Some command
           /\ call = Returns (_format_result
                                (run_command_with_mise_env command))))
    /\ (forall k, In k (required_keys tool) -> dict_mem arguments k = false ->
        call = Returns [mkText "text"
                          ("Error executing " ++ name tool ++ ": "
                           ++ repr_str k)]).
Proof.
  intros run1 run2 tool arguments Hin call.
  unfold get_all_tools, get_mise_tools in Hin. cbn [In] in Hin.
  unfold dict_mem.
  repeat (destruct Hin as [<- | Hin];
          [unfold call; cbn [name required_keys In];
           unfold Mise.call_tool; cbn [Mise.lookup TOOL_HANDLERS String.eqb
                                        Ascii.eqb Bool.eqb];
           cbv beta delta [handle_mise_install handle_mise_uninstall
                           handle_mise_use handle_mise_list
                           handle_mise_outdated handle_mise_upgrade
                           handle_mise_current handle_mise_exec
                           handle_mise_which handle_mise_env handle_mise_run
                           required];
           split;
           [intros Hreq; split;
            [intros Hne; try (exfalso; apply Hne; reflexivity)
            |intros Hn; try discriminate Hn]
           |intros k Hk Hmiss]|]);
    try contradiction;
    try (destruct Hk as [<- | []];
         destruct (dict_get arguments _); [discriminate Hmiss | reflexivity]);
    try (destruct Hk as []);
    try (match goal with
         | H : forall k, ?x = k \/ False -> _ |- _ =>
             specialize (H x (or_introl eq_refl))
         end;
         match goal with
         | H : match dict_get arguments ?k with _ => _ end = true |- _ =>
             destruct (dict_get arguments k) as [v|]; [|discriminate H]
         end);
    try (eexists; cbn [try_except drop]; reflexivity);
    try (eexists; split; [reflexivity | cbn [try_except]; reflexivity]).
  cbv zeta. destruct (dict_get arguments "tool"); eexists; reflexivity.
Qed.

(** The instance of X18 at [mise_exec] with its command. *)
Lemma advertised_tools_are_handled_witness :
  let run_mise_command := fun _ : list value => mkResult true "ok" "" 0 in
  let run_command_with_mise_env := fun _ : value => mkResult true "" "" 0 in
  let tool :=
    mkTool "mise_exec" [("command", "string"); ("tool", "string")]
      ["command"] in
  let arguments := [("command", VStr "python --version")] in
  In tool get_all_tools
  /\ (let call :=
        Mise.call_tool
          (TOOL_HANDLERS run_mise_command run_command_with_mise_env)
          (name tool) arguments in
      ((forall k, In k (required_keys tool) ->
                  dict_mem arguments k = true) ->
       (name tool <> "mise_run" ->
        exists rest,
          call = Returns (_format_result
                            (run_mise_command
                               (VStr (drop 5 (name tool)) :: rest))))
       /\ (name tool = "mise_run" ->
           exists command,
             dict_get arguments "command" = Some command
             /\ call = Returns (_format_result
                                  (run_command_with_mise_env command))))
      /\ (forall k, In k (required_keys tool) ->
                    dict_mem arguments k = false ->
          call = Returns [mkText "text"
                            ("Error executing " ++ name tool ++ ": "
                             ++ repr_str k)])).
Proof.
  intros run1 run2 tool arguments.
  assert (Hin : In tool get_all_tools).
  { unfold get_all_tools, get_mise_tools. cbn [In]. tauto. }
  split; [exact Hin|].
  exact (advertised_tools_are_handled run1 run2 tool arguments Hin).
Defined.

(** The calls of the test suite: an installation, and one without the
    key it requires. *)
Example mise_install_global :
  Mise.call_tool
    (TOOL_HANDLERS
       (fun args =>
          mkResult true
            (match args with
             | [VStr "install"; VStr "-g"; VStr "python@3.11"] => "installed"
             | _ => ""
             end) "" 0)
       (fun _ => mkResult false "" "" 1))
    "mise_install" [("tool", VStr "python@3.11"); ("global", VBool true)]
  = Returns [mkText "text" "installed"].
Proof. reflexivity. Qed.

Example mise_install_without_tool :
  Mise.call_tool
    (TOOL_HANDLERS (fun _ => mkResult true "" "" 0)
       (fun _ => mkResult true "" "" 0))
    "mise_install" [("global", VBool true)]
  = Returns [mkText "text" "Error executing mise_install: 'tool'"].
Proof. reflexivity. Qed.

Section ExportFacts.

Lemma split_once_first (sep : ascii) (key rest : string) :
  has_char sep key = false ->
  split_once sep (key ++ String sep rest) = Some (key, rest).
Proof.
  induction key as [|c key IH]; intros H; cbn [append split_once].
  - now rewrite Ascii.eqb_refl.
  - cbn [has_char] in H. apply orb_false_iff in H. destruct H as [Hc Hk].
    rewrite Hc, (IH Hk). reflexivity.
Qed.

Lemma ends_with_char_last (c : ascii) (s : string) :
  ends_with_char c (s ++ String c "") = true.
Proof.
  induction s as [|x s IH]; cbn [append ends_with_char].
  - apply Ascii.eqb_refl.
  - destruct (s ++ String c "") eqn:E; [|exact IH].
    destruct s; discriminate E.
Qed.

Lemma drop_last_last (c : ascii) (s : string) :
  drop_last (s ++ String c "") = s.
Proof.
  induction s as [|x s IH]; [reflexivity|].
  cbn [append drop_last]. destruct (s ++ String c "") eqn:E.
  - destruct s; discriminate E.
  - now rewrite IH.
Qed.

(** A value between two quotes of the same kind loses them. *)
Lemma unquote_quoted (q : ascii) (value : string) :
  q = "034"%char \/ q = "'"%char ->
  unquote (String q (value ++ String q "")) = value.
Proof.
  intros [-> | ->]; unfold unquote; cbv zeta; cbn [startswith drop].
  - rewrite Ascii.eqb_refl.
    change (ends_with_char "034" (String "034" (value ++ String "034" "")))
      with (ends_with_char "034" (String "034" value ++ String "034" "")).
    rewrite ends_with_char_last. cbn [andb]. apply drop_last_last.
  - change (Ascii.eqb "034" "'") with false. cbn [andb].
    rewrite Ascii.eqb_refl.
    change (ends_with_char "'" (String "'" (value ++ String "'" "")))
      with (ends_with_char "'" (String "'" value ++ String "'" "")).
    rewrite ends_with_char_last. cbn [andb]. apply drop_last_last.
Qed.

Lemma parse_export_quoted (q : ascii) (key value : string) :
  q = "034"%char \/ q = "'"%char ->
  has_char "=" key = false ->
  parse_export ("export " ++ key ++ "=" ++ String q (value ++ String q ""))
  = Some (key, value).
Proof.
  intros Hq Hk. unfold parse_export. cbn [append startswith drop].
  rewrite !Ascii.eqb_refl. cbn [andb].
  rewrite (split_once_first "=" key _ Hk), (unquote_quoted q value Hq).
  reflexivity.
Qed.

Lemma split_char_single (sep : ascii) (s : string) :
  forall current,
    has_char sep s = false -> split_char sep s current = [current ++ s].
Proof.
  induction s as [|c s IH]; intros current H; cbn [split_char].
  - now rewrite append_nil_r.
  - cbn [has_char] in H. apply orb_false_iff in H. destruct H as [Hc Hs].
    rewrite Hc, (IH _ Hs), append_assoc. reflexivity.
Qed.

Lemma rstrip_ends (c : ascii) (s : string) :
  is_space c = false -> rstrip (s ++ String c "") = s ++ String c "".
Proof.
  intros Hc. induction s as [|x s IH]; cbn [append].
  - cbn [rstrip]. now rewrite Hc.
  - rewrite rstrip_cons, IH.
    destruct (s ++ String c "") eqn:E; [|reflexivity].
    destruct s; discriminate E.
Qed.

Lemma strip_firm (c q : ascii) (s : string) :
  is_space c = false -> is_space q = false ->
  strip (String c s ++ String q "") = String c s ++ String q "".
Proof.
  intros Hc Hq. unfold strip. cbn [append lstrip]. rewrite Hc.
  change (String c (s ++ String q "")) with (String c s ++ String q "").
  now apply rstrip_ends.
Qed.

Lemma env_get_set (env : list (string * string)) (key value : string) :
  env_get (env_set env key value) key = Some value.
Proof.
  induction env as [|[k v] env IH]; cbn [env_set env_get].
  - now rewrite String.eqb_refl.
  - destruct (String.eqb k key) eqn:E; cbn [env_get]; rewrite E;
      [reflexivity | exact IH].
Qed.

End ExportFacts.

(** X19: a variable that [mise env] exports reaches the environment of
    the command without the quotes around its value: when the output is
    the line [export KEY="value"] (or with single quotes), the environment
    binds [KEY] to [value], whatever it held before. *)
Theorem exported_variable_is_unquoted :
  forall (environ : list (string * string)) (q : ascii)
         (key value : string),
    q = "034"%char \/ q = "'"%char ->
    has_char "=" key = false ->
    has_char (ascii_of_nat 10) key = false ->
    has_char (ascii_of_nat 10) value = false ->
    env_get
      (mise_environment environ
         ("export " ++ key ++ "=" ++ String q (value ++ String q "")))
      key
    = Some value.
Proof.
  intros environ q key value Hq Hk Hnk Hnv. unfold mise_environment.
  assert (Hline : strip ("export " ++ key ++ "="
                         ++ String q (value ++ String q ""))
                  = "export " ++ key ++ "="
                    ++ String q (value ++ String q "")).
  { assert (Hshape : "export " ++ key ++ "="
                     ++ String q (value ++ String q "")
                     = String "e" ("xport " ++ key ++ "=" ++ String q value)
                       ++ String q "")
      by (cbn [append]; rewrite append_assoc; reflexivity).
    rewrite Hshape. apply strip_firm; [reflexivity|].
    destruct Hq as [-> | ->]; reflexivity. }
  rewrite Hline.
  rewrite split_char_single.
  - cbn [append fold_left].
    pose proof (parse_export_quoted q key value Hq Hk) as Hp.
    cbn [append] in Hp. rewrite Hp. apply env_get_set.
  - cbn [append has_char]. rewrite !has_char_append. cbn [has_char].
    rewrite Hnk, has_char_append, Hnv. cbn [has_char].
    destruct Hq as [-> | ->]; reflexivity.
Qed.

(** The instance of X19 at a path. *)
Lemma exported_variable_is_unquoted_witness :
  let line := "export PATH=" ++ String "034" ("/opt/mise/bin:/usr/bin"
                                               ++ String "034" "") in
  ("034"%char = "034"%char \/ "034"%char = "'"%char)
  /\ has_char "=" "PATH" = false
  /\ has_char (ascii_of_nat 10) "PATH" = false
  /\ has_char (ascii_of_nat 10) "/opt/mise/bin:/usr/bin" = false
  /\ env_get (mise_environment [("PATH", "/usr/bin"); ("HOME", "/root")] line)
       "PATH"
     = Some "/opt/mise/bin:/usr/bin".
Proof.
  intros line. split; [now left|]. repeat (split; [reflexivity|]).
  apply (exported_variable_is_unquoted [("PATH", "/usr/bin");
                                         ("HOME", "/root")]
           "034"%char "PATH" "/opt/mise/bin:/usr/bin");
    [now left | reflexivity | reflexivity | reflexivity].
Defined.

(** X20: both runners report success exactly when the process exits with
    status 0; when [subprocess.run] raises, for the listing of the
    environment or for the command, the result is a failure with status -1,
    an empty output and a message that is not empty. *)
Theorem runner_result_is_consistent :
  forall (subprocess_run :
            command -> option (list (string * string)) -> process)
         (environ : list (string * string)) (args : list value)
         (command_line : value),
    let consistent (r : command_result) :=
      success r = (returncode r =? 0)%Z
      /\ ((exists code out err,
             subprocess_run (Argv [VStr "mise"; VStr "env"; VStr "-s";
                                   VStr "bash"]) None
             = Completed code out err)
          /\ (exists env code out err,
                r = mkResult (code =? 0)%Z out err code
                /\ (subprocess_run (Argv (VStr "mise" :: args)) (Some env)
                    = Completed code out err
                    \/ subprocess_run (Shell command_line) (Some env)
                       = Completed code out err))
          \/ (success r = false /\ returncode r = (-1)%Z
              /\ stdout r = "" /\ stderr r <> "")) in
    consistent (run_mise_command subprocess_run environ args)
    /\ consistent (run_command_with_mise_env subprocess_run environ
                     command_line).
Proof.
  intros run environ args command_line consistent.
  unfold consistent, run_mise_command, run_command_with_mise_env,
    run_with_mise_env. cbv zeta.
  split.
  - destruct (run (Argv [VStr "mise"; VStr "env"; VStr "-s"; VStr "bash"])
                None) as [code out err| |m|m] eqn:E1;
      try (split; [reflexivity|]; right; repeat split; discriminate).
    destruct (run (Argv (VStr "mise" :: args)) _)
      as [code' out' err'| |m|m] eqn:E2;
      try (split; [reflexivity|]; right; repeat split; discriminate).
    split; [reflexivity|]. left. split; [now eexists _, _, _|].
    eexists _, code', out', err'. split; [reflexivity|]. left. exact E2.
  - destruct (run (Argv [VStr "mise"; VStr "env"; VStr "-s"; VStr "bash"])
                None) as [code out err| |m|m] eqn:E1;
      try (split; [reflexivity|]; right; repeat split; discriminate).
    destruct (run (Shell command_line) _)
      as [code' out' err'| |m|m] eqn:E2;
      try (split; [reflexivity|]; right; repeat split; discriminate).
    split; [reflexivity|]. left. split; [now eexists _, _, _|].
    eexists _, code', out', err'. split; [reflexivity|]. right. exact E2.
Qed.


(** * The standup server: the tool handlers of [server.py] *)

Module StandupHandlers.

(** The object given to the formatter: what [get_activity] returned, or
    the JSON object of the arguments. *)
Inductive activity_argument : Type :=
| Fetched (github_activity : GitHubActivity)
| Given (github_activity : value).

(** The name of the type of an object, as in the message of an
    [AttributeError]. *)
Definition type_name (v : value) : string :=
  match v with
  | VNone => "NoneType"
  | VBool _ => "bool"
  | VInt _ => "int"
  | VStr _ => "str"
  | VList _ => "list"
  | VDict _ => "dict"
  end.

Section Services.

(** The three services, [date_parser], [github_service] and [formatter]:
    a call returns ([inr]) or raises an exception with a message
    ([inl]). *)
Variable parse_date : value -> string + datetime.
Variable get_activity :
  datetime -> value -> option (list string) -> string + GitHubActivity.
Variable format_standup_report : activity_argument -> value -> string + string.
Variable format_github_activity : GitHubActivity -> string + string.

Definition call {A : Type} (r : string + A) (k : A -> outcome) : outcome :=
  match r with
  | inl message => Raises message
  | inr a => k a
  end.

(** [repos.split(",") if repos else None] *)
Definition split_repos (repos : value) (k : option (list string) -> outcome)
  : outcome :=
  if truthy repos then
    match repos with
    | VStr s => k (Some (split_comma s ""))
    | _ => Raises ("'" ++ type_name repos
                   ++ "' object has no attribute 'split'")
    end
  else k None.

Definition _get_standup_summary (arguments : dict) : outcome :=
  let date := dict_get_default arguments "date" (VStr "") in
  let username := dict_get_default arguments "username" (VStr "") in
  let repos := dict_get_default arguments "repos" (VStr "") in
  call (parse_date date) (fun target_date =>
  split_repos repos (fun repos =>
  call (get_activity target_date username repos) (fun github_activity =>
  call (format_standup_report (Fetched github_activity) (VStr "markdown"))
    (fun report => Returns [mkText "text" report])))).

Definition _get_github_activity (arguments : dict) : outcome :=
  required arguments "date" (fun date =>
  let username := dict_get_default arguments "username" (VStr "") in
  let repos := dict_get_default arguments "repos" (VStr "") in
  call (parse_date date) (fun target_date =>
  split_repos repos (fun repos =>
  call (get_activity target_date username repos) (fun activity =>
  call (format_github_activity activity)
    (fun formatted => Returns [mkText "text" formatted]))))).

Definition _get_workday_date (arguments : dict) : outcome :=
  required arguments "date_expression" (fun date_expression =>
  call (parse_date date_expression) (fun parsed_date =>
  Returns [mkText "text" ("Parsed date: " ++ isoformat parsed_date)])).

Definition _format_standup_report (arguments : dict) : outcome :=
  required arguments "github_activity" (fun github_activity =>
  let format_type := dict_get_default arguments "format" (VStr "markdown") in
  call (format_standup_report (Given github_activity) format_type)
    (fun report => Returns [mkText "text" report])).

(** [handle_call_tool] with these handlers. *)
Definition handle_call_tool : string -> option dict -> outcome :=
  Standup.handle_call_tool _get_standup_summary _get_github_activity
    _get_workday_date _format_standup_report.

End Services.

End StandupHandlers.

Import StandupHandlers.

Section StandupHandlerFacts.

Variable parse_date : value -> string + datetime.
Variable get_activity :
  datetime -> value -> option (list string) -> string + GitHubActivity.
Variable format_standup_report : activity_argument -> value -> string + string.
Variable format_github_activity : GitHubActivity -> string + string.

(** A handler raises, or returns one text block. *)
Definition one_block (o : outcome) : Prop :=
  (exists message, o = Raises message)
  \/ (exists text, o = Returns [mkText "text" text]).

Lemma call_one_block {A : Type} (r : string + A) (k : A -> outcome) :
  (forall a, one_block (k a)) -> one_block (call r k).
Proof.
  intros H. destruct r as [message|a]; cbn [call]; [|apply H].
  left. now exists message.
Qed.

Lemma split_repos_one_block (repos : value)
  (k : option (list string) -> outcome) :
  (forall rs, one_block (k rs)) -> one_block (split_repos repos k).
Proof.
  intros H. unfold split_repos.
  destruct (truthy repos); [|apply H].
  destruct repos; try (left; eexists; reflexivity). apply H.
Qed.

Lemma required_one_block (arguments : dict) (k : string)
  (body : value -> outcome) :
  (forall v, one_block (body v)) -> one_block (required arguments k body).
Proof.
  intros H. unfold required.
  destruct (dict_get arguments k); [apply H|].
  left. eexists. reflexivity.
Qed.

Lemma returns_one_block (text : string) :
  one_block (Returns [mkText "text" text]).
Proof. right. now exists text. Qed.

End StandupHandlerFacts.

(** X21: with the four handlers of the standup server, a tool call
    returns exactly one text block, whatever the name, the arguments and
    the behaviour of the three services; when the key a handler requires is
    missing, the block names that key and no service was called. *)
Theorem standup_call_returns_one_text_block :
  forall (parse_date : value -> string + datetime)
         (get_activity :
            datetime -> value -> option (list string)
            -> string + GitHubActivity)
         (format_standup_report :
            activity_argument -> value -> string + string)
         (format_github_activity : GitHubActivity -> string + string)
         (name : string) (arguments : option dict),
    let call_tool :=
      StandupHandlers.handle_call_tool parse_date get_activity
        format_standup_report format_github_activity in
    (exists text, call_tool name arguments = Returns [mkText "text" text])
    /\ (forall tool key args,
          In (tool, key)
            [("get_github_activity", "date");
             ("get_workday_date", "date_expression");
             ("format_standup_report", "github_activity")] ->
          dict_get args key = None ->
          call_tool tool (Some args)
          = Returns [mkText "text" ("Error: " ++ repr_str key)]).
Proof.
  intros parse_date get_activity format_report format_activity name arguments
    call_tool.
  split.
  - unfold call_tool, StandupHandlers.handle_call_tool,
      Standup.handle_call_tool. cbv zeta.
    set (args := match arguments with None => [] | Some a => a end).
    assert (H : forall o, one_block o ->
                exists text,
                  try_except o
                    (fun e => Returns [mkText "text" ("Error: " ++ e)])
                  = Returns [mkText "text" text]).
    { intros o [[message ->] | [text ->]]; cbn [try_except];
        eexists; reflexivity. }
    apply H.
    destruct (String.eqb name "get_standup_summary").
    { unfold _get_standup_summary. cbv zeta.
      apply call_one_block. intros d. apply split_repos_one_block.
      intros rs. apply call_one_block. intros a. apply call_one_block.
      intros report. apply returns_one_block. }
    destruct (String.eqb name "get_github_activity").
    { unfold _get_github_activity. apply required_one_block. intros v.
      cbv zeta. apply call_one_block. intros d. apply split_repos_one_block.
      intros rs. apply call_one_block. intros a. apply call_one_block.
      intros report. apply returns_one_block. }
    destruct (String.eqb name "get_workday_date").
    { unfold _get_workday_date. apply required_one_block. intros v.
      apply call_one_block. intros d. apply returns_one_block. }
    destruct (String.eqb name "format_standup_report").
    { unfold _format_standup_report. apply required_one_block. intros v.
      cbv zeta. apply call_one_block. intros report.
      apply returns_one_block. }
    left. eexists. reflexivity.
  - intros tool key args Hin Hmiss. cbn [In] in Hin.
    destruct Hin as [E | [E | [E | []]]]; injection E as <- <-;
      unfold call_tool, StandupHandlers.handle_call_tool,
        Standup.handle_call_tool, _get_github_activity, _get_workday_date,
        _format_standup_report, required;
      cbv zeta; cbn [String.eqb Ascii.eqb Bool.eqb];
      rewrite Hmiss; reflexivity.
Qed.

(** The calls of the test suite: a resolved date, and a call without its
    required key. *)
Example standup_workday_date :
  StandupHandlers.handle_call_tool
    (fun _ => inr (mkDatetime 739089 0 0 0 0)) (fun _ _ _ => inl "unused")
    (fun _ _ => inl "unused") (fun _ => inl "unused")
    "get_workday_date" (Some [("date_expression", VStr "yesterday")])
  = Returns [mkText "text" "Parsed date: 2024-07-22T00:00:00"].
Proof. reflexivity. Qed.

Example standup_activity_without_date :
  StandupHandlers.handle_call_tool
    (fun _ => inr (mkDatetime 739089 0 0 0 0)) (fun _ _ _ => inl "unused")
    (fun _ _ => inl "unused") (fun _ => inl "unused")
    "get_github_activity" (Some [("username", VStr "octocat")])
  = Returns [mkText "text" "Error: 'date'"].
Proof. reflexivity. Qed.


(** ** The user feed: what it keeps *)

Section UserFeedFilterFacts.

(** What the loop over a page of the feed checks of a record before it
    keeps it. *)
Definition feed_passes (start_time end_time : string) (e : GitHubEvent)
  : Prop :=
  repo e <> ""
  /\ String.leb start_time (created_at e) = true
  /\ String.leb (created_at e) end_time = true.

Variable api : list request -> request -> response.

Lemma scan_user_page_passes (start_time end_time : string)
  (data : list raw_event) :
  forall filtered seen returned filtered' seen',
    Forall (feed_passes start_time end_time) filtered ->
    Cli.scan_user_page start_time end_time data filtered seen
    = (returned, filtered', seen') ->
    Forall (feed_passes start_time end_time) filtered'.
Proof.
  induction data as [|event_data rest IH];
    intros filtered seen returned filtered' seen' Hf E;
    cbn [Cli.scan_user_page] in E.
  - injection E as _ <- _. exact Hf.
  - cbv zeta in E.
    destruct (String.leb start_time (get (ev_created_at event_data) ""))
      eqn:Hs;
      [destruct (String.leb (get (ev_created_at event_data) "") end_time)
         eqn:He|];
      cbn [andb negb] in E.
    2,3: destruct (String.ltb (get (ev_created_at event_data) "") start_time);
      [injection E as _ <- _; exact Hf | exact (IH _ _ _ _ _ Hf E)].
    destruct (String.eqb_spec (get (ev_repo_name event_data) "") "")
      as [_ | Hr]; [exact (IH _ _ _ _ _ Hf E)|].
    destruct (_process_event _ seen) as [info seen1].
    refine (IH _ _ _ _ _ _ E).
    apply Forall_app. split; [exact Hf|].
    constructor; [|constructor].
    unfold feed_passes. cbn [repo created_at]. now repeat split.
Qed.

Lemma user_pages_passes (user start_time end_time : string) :
  forall fuel page events svc found svc',
    Forall (feed_passes start_time end_time) events ->
    Cli.user_pages api user start_time end_time fuel page events svc
    = (Ok found, svc') ->
    Forall (feed_passes start_time end_time) found.
Proof.
  induction fuel as [|fuel IH]; intros page events svc found svc' Hf E;
    cbn [Cli.user_pages] in E; [discriminate|].
  cbv zeta in E.
  destruct (page <=? 50)%nat; [|injection E as <- _; exact Hf].
  destruct (api (requests svc) (UserEvents user page)) as [| |data].
  - injection E as <- _. exact Hf.
  - injection E as <- _. exact Hf.
  - destruct data as [|record more]; [injection E as <- _; exact Hf|].
    destruct (Cli.scan_user_page start_time end_time (record :: more) []
                (_seen_commits (log_request svc (UserEvents user page))))
      as [[returned filtered] seen1] eqn:Es.
    apply (scan_user_page_passes _ _ _ _ _ _ _ _ (Forall_nil _)) in Es.
    assert (Hall : Forall (feed_passes start_time end_time)
                     (events ++ filtered))
      by (apply Forall_app; now split).
    destruct returned; [injection E as <- _; exact Hall|].
    destruct (List.length (record :: more) <? 100)%nat;
      [injection E as <- _; exact Hall|].
    destruct (String.ltb (last_created_at (record :: more)) start_time);
      [injection E as <- _; exact Hall|].
    exact (IH _ _ _ _ _ Hall E).
Qed.

End UserFeedFilterFacts.

(** X22: every event [_get_user_events] returns names a repository and
    was created inside the window: a record of the feed without a
    repository name, or outside the window, is never returned. *)
Theorem user_feed_events_pass_the_filters :
  forall (api : list request -> request -> response)
         (user start_time end_time : string) (svc svc' : service)
         (found : list GitHubEvent),
    Cli._get_user_events api user start_time end_time svc
    = (Ok found, svc') ->
    Forall (feed_passes start_time end_time) found.
Proof.
  intros api user start_time end_time svc svc' found E.
  exact (user_pages_passes api user start_time end_time _ _ _ _ _ _
           (Forall_nil _) E).
Qed.

(** The instance of X22 at a page with a record of the window, a record
    without a repository and a record after the window. *)
Lemma user_feed_events_pass_the_filters_witness :
  let record := fun name time =>
    mkRaw (Some "WatchEvent") (Some time) (Some "octocat") None name in
  let api := fun (_ : list request) (_ : request) =>
    Body [record (Some "org/repo") "2024-07-23T10:00:00Z";
          record None "2024-07-23T09:00:00Z";
          record (Some "org/other") "2024-07-25T09:00:00Z"] in
  let found :=
    [mkEvent "WatchEvent" "2024-07-23T10:00:00Z" "org/repo" "octocat"
       empty_payload
       [("links", VList []); ("details", VList []); ("commits", VList [])]] in
  Cli._get_user_events api "octocat" "2024-07-23T00:00:00Z"
    "2024-07-24T07:59:59Z" (mkService [] [])
  = (Ok found, mkService [] [UserEvents "octocat" 1])
  /\ Forall (feed_passes "2024-07-23T00:00:00Z" "2024-07-24T07:59:59Z") found.
Proof.
  intros record api found.
  assert (E : Cli._get_user_events api "octocat" "2024-07-23T00:00:00Z"
                "2024-07-24T07:59:59Z" (mkService [] [])
              = (Ok found, mkService [] [UserEvents "octocat" 1]))
    by (vm_compute; reflexivity).
  split; [exact E|].
  exact (user_feed_events_pass_the_filters api "octocat"
           "2024-07-23T00:00:00Z" "2024-07-24T07:59:59Z" (mkService [] [])
           (mkService [] [UserEvents "octocat" 1]) found E).
Defined.
